(** * research_toolkit: the resource library (identity, ledger, keyword index,
    ingest and reindex), embedded from the Python sources and verified.

    Conventions of the embedding.
    - A Python [str] is a [string] whose characters are code points below 256
      (Latin-1 text); [len], slicing, [strip], [lower] and [split] act on code
      points, and [str.encode()] is UTF-8 (one byte below 128, two above).
    - A Python [int] is a [Z]; a [dict] whose iteration order is observed is an
      insertion-ordered association list ([PyDict]); a dict used only through
      lookups is a [gmap].
    - Code that raises returns [Raise e]; [try/except] is a match on the
      exception class. *)

From Stdlib Require Import ZArith Ascii String List Lia Bool.
From stdpp Require Import base decidable option list gmap strings sorting.

Local Open Scope Z_scope.

(** ** Outcomes of a Python call *)

Inductive exn : Type :=
  | JSONDecodeError
  | KeyError (key : string)
  | ValueError (msg : string)
  | TypeError (msg : string)
  | AttributeError (msg : string)
  | FileNotFoundError (msg : string)
  | IsADirectoryError (filename : string).

(** [Untyped] is not a Python exception: it marks a call whose Python result
    is an object that violates the declared field types of its dataclass (a
    [Resource] whose [title] is not a [str], say).  Python raises nothing
    there; the development does not follow such objects any further. *)
Inductive result (A : Type) : Type :=
  | Ok (a : A)
  | Raise (e : exn)
  | Untyped.
Arguments Ok {A} a.
Arguments Raise {A} e.
Arguments Untyped {A}.

#[global] Instance result_ret : MRet result := fun A a => Ok a.
#[global] Instance result_bind : MBind result := fun A B k m =>
  match m with
  | Ok a => k a
  | Raise e => Raise e
  | Untyped => Untyped
  end.

#[global] Instance result_fmap : FMap result := fun A B f m =>
  match m with
  | Ok a => Ok (f a)
  | Raise e => Raise e
  | Untyped => Untyped
  end.

(** ** Python string primitives *)

Module PyStr.

Definition code (c : ascii) : Z := Z.of_N (N_of_ascii c).
Definition chr (z : Z) : ascii := ascii_of_N (Z.to_N z).

(** [str.isspace] on code points below 256. *)
Definition is_space (c : ascii) : bool :=
  let n := code c in
  ((9 <=? n) && (n <=? 13)) || ((28 <=? n) && (n <=? 32))
  || (n =? 133) || (n =? 160).

(** [str.lower] on one code point below 256. *)
Definition lower_char (c : ascii) : ascii :=
  let n := code c in
  if ((65 <=? n) && (n <=? 90))
     || ((192 <=? n) && (n <=? 222) && negb (n =? 215))
  then chr (n + 32) else c.

Fixpoint lower (s : string) : string :=
  match s with
  | EmptyString => EmptyString
  | String c s' => String (lower_char c) (lower s')
  end.

Definition len (s : string) : Z := Z.of_nat (String.length s).

(** [s.lstrip(chars)], [s.rstrip(chars)], [s.strip(chars)] for a predicate
    on characters. *)
Fixpoint lstrip_by (p : ascii -> bool) (s : string) : string :=
  match s with
  | EmptyString => EmptyString
  | String c s' => if p c then lstrip_by p s' else s
  end.

Fixpoint rstrip_by (p : ascii -> bool) (s : string) : string :=
  match s with
  | EmptyString => EmptyString
  | String c s' =>
      match rstrip_by p s' with
      | EmptyString => if p c then EmptyString else String c EmptyString
      | r => String c r
      end
  end.

Definition strip_by (p : ascii -> bool) (s : string) : string :=
  rstrip_by p (lstrip_by p s).

(** [s.strip()] *)
Definition strip (s : string) : string := strip_by is_space s.

Fixpoint mem_char (c : ascii) (chars : string) : bool :=
  match chars with
  | EmptyString => false
  | String d r => Ascii.eqb c d || mem_char c r
  end.

(** [s.strip(chars)] *)
Definition strip_chars (chars s : string) : string :=
  strip_by (fun c => mem_char c chars) s.

(** [s.startswith(p)] *)
Definition startswith (p s : string) : bool := String.prefix p s.

(** [s[n:]] and [s[:n]] for a literal [n >= 0]. *)
Fixpoint slice_from (n : nat) (s : string) : string :=
  match n, s with
  | O, _ => s
  | S n', String _ s' => slice_from n' s'
  | S _, EmptyString => EmptyString
  end.

Fixpoint slice_to (n : nat) (s : string) : string :=
  match n, s with
  | O, _ => EmptyString
  | S n', String c s' => String c (slice_to n' s')
  | S _, EmptyString => EmptyString
  end.

(** [s.split(sep)] for a one-character separator: never empty. *)
Fixpoint split (sep : ascii) (s : string) : list string :=
  match s with
  | EmptyString => [EmptyString]
  | String c s' =>
      if Ascii.eqb c sep then EmptyString :: split sep s'
      else match split sep s' with
           | [] => [String c EmptyString]
           | w :: ws => String c w :: ws
           end
  end.

(** [s.split(sep, 1)]: at most one cut, at the first separator. *)
Fixpoint split1 (sep : ascii) (s : string) : list string :=
  match s with
  | EmptyString => [EmptyString]
  | String c s' =>
      if Ascii.eqb c sep then [EmptyString; s']
      else match split1 sep s' with
           | [] => [String c EmptyString]
           | w :: ws => String c w :: ws
           end
  end.

(** [re.findall(r"[a-z0-9]+", s)]: the maximal runs of matching characters,
    left to right.  [cur] is the run being read. *)
Definition is_lower_alnum (c : ascii) : bool :=
  let n := code c in
  ((97 <=? n) && (n <=? 122)) || ((48 <=? n) && (n <=? 57)).

Definition flush (cur : string) : list string :=
  match cur with
  | EmptyString => []
  | _ => [String.rev cur]
  end.

Fixpoint findall_go (cur : string) (s : string) : list string :=
  match s with
  | EmptyString => flush cur
  | String c s' =>
      if is_lower_alnum c then findall_go (String c cur) s'
      else flush cur ++ findall_go EmptyString s'
  end.

Definition findall_lower_alnum (s : string) : list string :=
  findall_go EmptyString s.

(** [re.fullmatch(r"[a-f0-9]{8,16}", s) is not None] *)
Definition is_lower_hex (c : ascii) : bool :=
  let n := code c in
  ((97 <=? n) && (n <=? 102)) || ((48 <=? n) && (n <=? 57)).

Fixpoint all_chars (p : ascii -> bool) (s : string) : bool :=
  match s with
  | EmptyString => true
  | String c s' => p c && all_chars p s'
  end.

Definition fullmatch_hex_8_16 (s : string) : bool :=
  all_chars is_lower_hex s && (8 <=? len s) && (len s <=? 16).

(** What a read in text mode returns for the characters of a file: with
    universal newlines (the default of [open]), a carriage return followed
    by a line feed, and a carriage return alone, come back as one line
    feed. *)
Fixpoint universal_newlines (s : string) : string :=
  match s with
  | EmptyString => EmptyString
  | String c s' =>
      if Ascii.eqb c "013" then
        String "010"
          match s' with
          | String d s'' =>
              if Ascii.eqb d "010" then universal_newlines s'' else universal_newlines s'
          | EmptyString => EmptyString
          end
      else String c (universal_newlines s')
  end.

(** [s.encode()]: UTF-8 of code points below 256. *)
Fixpoint encode (s : string) : list Z :=
  match s with
  | EmptyString => []
  | String c s' =>
      let n := code c in
      if n <? 128 then n :: encode s'
      else (192 + n / 64) :: (128 + n mod 64) :: encode s'
  end.

End PyStr.

(** ** hashlib.sha256 (FIPS 180-4) over a list of bytes *)

Module Sha256.

Definition w32 (x : Z) : Z := x mod 4294967296.
Definition add32 (x y : Z) : Z := w32 (x + y).
Definition rotr (n x : Z) : Z :=
  Z.lor (Z.shiftr x n) (w32 (Z.shiftl x (32 - n))).
Definition shr (n x : Z) : Z := Z.shiftr x n.
Definition not32 (x : Z) : Z := 4294967295 - x.

Definition ch (x y z : Z) : Z := Z.lxor (Z.land x y) (Z.land (not32 x) z).
Definition maj (x y z : Z) : Z :=
  Z.lxor (Z.lxor (Z.land x y) (Z.land x z)) (Z.land y z).
Definition bsig0 (x : Z) : Z := Z.lxor (Z.lxor (rotr 2 x) (rotr 13 x)) (rotr 22 x).
Definition bsig1 (x : Z) : Z := Z.lxor (Z.lxor (rotr 6 x) (rotr 11 x)) (rotr 25 x).
Definition ssig0 (x : Z) : Z := Z.lxor (Z.lxor (rotr 7 x) (rotr 18 x)) (shr 3 x).
Definition ssig1 (x : Z) : Z := Z.lxor (Z.lxor (rotr 17 x) (rotr 19 x)) (shr 10 x).

(** The round constants and the initial hash value of FIPS 180-4, in decimal. *)
Definition K : list Z :=
  [ 1116352408; 1899447441; 3049323471; 3921009573; 961987163;
    1508970993; 2453635748; 2870763221; 3624381080; 310598401;
    607225278; 1426881987; 1925078388; 2162078206; 2614888103;
    3248222580; 3835390401; 4022224774; 264347078; 604807628;
    770255983; 1249150122; 1555081692; 1996064986; 2554220882;
    2821834349; 2952996808; 3210313671; 3336571891; 3584528711;
    113926993; 338241895; 666307205; 773529912; 1294757372;
    1396182291; 1695183700; 1986661051; 2177026350; 2456956037;
    2730485921; 2820302411; 3259730800; 3345764771; 3516065817;
    3600352804; 4094571909; 275423344; 430227734; 506948616;
    659060556; 883997877; 958139571; 1322822218; 1537002063;
    1747873779; 1955562222; 2024104815; 2227730452; 2361852424;
    2428436474; 2756734187; 3204031479; 3329325298 ].

Definition H0 : list Z :=
  [ 1779033703; 3144134277; 1013904242; 2773480762; 1359893119;
    2600822924; 528734635; 1541459225 ].

(** Padding: a 1 bit, zeros up to 56 mod 64, the bit length on 8 bytes. *)
Definition be_bytes (n : nat) (x : Z) : list Z :=
  map (fun i => (x / 2 ^ (8 * Z.of_nat i)) mod 256) (rev (seq 0 n)).

Definition pad (msg : list Z) : list Z :=
  let l := Z.of_nat (length msg) in
  let k := (55 - l) mod 64 in
  msg ++ [128] ++ repeat 0 (Z.to_nat k) ++ be_bytes 8 (8 * l).

Fixpoint be_words (fuel : nat) (bs : list Z) : list Z :=
  match fuel, bs with
  | S f, b0 :: b1 :: b2 :: b3 :: r =>
      (((b0 * 256 + b1) * 256 + b2) * 256 + b3) :: be_words f r
  | _, _ => []
  end.

(** The message schedule, most recent word first. *)
Fixpoint schedule (n : nat) (rw : list Z) : list Z :=
  match n with
  | O => rw
  | S n' =>
      let w := add32 (add32 (ssig1 (nth 1 rw 0)) (nth 6 rw 0))
                     (add32 (ssig0 (nth 14 rw 0)) (nth 15 rw 0)) in
      schedule n' (w :: rw)
  end.

Record regs := Regs { ra : Z; rb : Z; rc : Z; rd : Z; re : Z; rf : Z; rg : Z; rh : Z }.

Definition round (s : regs) (kw : Z * Z) : regs :=
  let t1 := add32 (add32 (add32 (rh s) (bsig1 (re s)))
                         (add32 (ch (re s) (rf s) (rg s)) (fst kw))) (snd kw) in
  let t2 := add32 (bsig0 (ra s)) (maj (ra s) (rb s) (rc s)) in
  Regs (add32 t1 t2) (ra s) (rb s) (rc s) (add32 (rd s) t1) (re s) (rf s) (rg s).

Definition regs_of (h : list Z) : regs :=
  Regs (nth 0 h 0) (nth 1 h 0) (nth 2 h 0) (nth 3 h 0)
       (nth 4 h 0) (nth 5 h 0) (nth 6 h 0) (nth 7 h 0).

Definition compress (h : list Z) (block : list Z) : list Z :=
  let w := rev (schedule 48 (rev block)) in
  let s0 := regs_of h in
  let s := fold_left round (combine K w) s0 in
  [ add32 (ra s0) (ra s); add32 (rb s0) (rb s); add32 (rc s0) (rc s);
    add32 (rd s0) (rd s); add32 (re s0) (re s); add32 (rf s0) (rf s);
    add32 (rg s0) (rg s); add32 (rh s0) (rh s) ].

Fixpoint blocks (fuel : nat) (h : list Z) (ws : list Z) : list Z :=
  match fuel with
  | O => h
  | S f =>
      match ws with
      | [] => h
      | _ => blocks f (compress h (firstn 16 ws)) (skipn 16 ws)
      end
  end.

Definition digest_words (msg : list Z) : list Z :=
  let p := pad msg in
  let ws := be_words (length p) p in
  blocks (length ws) H0 ws.

Definition hex_digit (d : Z) : ascii :=
  if d <? 10 then PyStr.chr (48 + d) else PyStr.chr (87 + d).

(** Eight lowercase hex digits of a 32-bit word, most significant first. *)
Definition hex_word (w : Z) : list ascii :=
  map (fun i => hex_digit ((w / 2 ^ (4 * Z.of_nat i)) mod 16)) (rev (seq 0 8)).

(** [hashlib.sha256(msg).hexdigest()] *)
Definition hexdigest (msg : list Z) : string :=
  string_of_list_ascii (concat (map hex_word (digest_words msg))).

End Sha256.

(** ** datetime.datetime with [tzinfo] either [None] or a fixed-offset
    [datetime.timezone], as [Timestamp.now] and [Timestamp.from_iso] build it.
    [isoformat] and [fromisoformat] follow the interpreter (CPython 3.11,
    [Modules/_datetimemodule.c]): [fromisoformat] reads, besides what
    [isoformat] writes, the other spellings of ISO 8601 that the interpreter
    reads. *)

Module Datetime.

Record fields := Fields {
  year : Z; month : Z; day : Z;
  hour : Z; minute : Z; second : Z; microsecond : Z;
  (** [utcoffset()] in microseconds, [None] for a naive datetime *)
  tzinfo : option Z
}.

Definition is_leap (y : Z) : bool :=
  (y mod 4 =? 0) && (negb (y mod 100 =? 0) || (y mod 400 =? 0)).

(** The tables [_days_in_month] and [_days_before_month], and a table read
    at an index.  Only a week date of the year 0 makes [ord_to_ymd] read
    outside a table; what is read there is put at 0, and the month then is
    below 1 whatever is read, so that the constructor refuses the date. *)
Definition _days_in_month : list Z := [0; 31; 28; 31; 30; 31; 30; 31; 31; 30; 31; 30; 31].
Definition _days_before_month : list Z :=
  [0; 0; 31; 59; 90; 120; 151; 181; 212; 243; 273; 304; 334].
Definition table (t : list Z) (i : Z) : Z :=
  if i <? 0 then 0 else nth (Z.to_nat i) t 0.

Definition days_in_month (year month : Z) : Z :=
  if (month =? 2) && is_leap year then 29 else table _days_in_month month.

Definition day_us : Z := 86400000000.

Definition between (lo x hi : Z) : bool := (lo <=? x) && (x <=? hi).

(** The range checks of the [datetime] and [timezone] constructors. *)
Definition fields_ok (f : fields) : bool :=
  between 1 (year f) 9999 && between 1 (month f) 12
  && between 1 (day f) (days_in_month (year f) (month f))
  && between 0 (hour f) 23 && between 0 (minute f) 59
  && between 0 (second f) 59 && between 0 (microsecond f) 999999
  && match tzinfo f with
     | None => true
     | Some off => (- day_us <? off) && (off <? day_us)
     end.

Record t := Make { get : fields; wf : Is_true (fields_ok get) }.

(** The constructor call [datetime(y, m, d, hh, mm, ss, us, tz)]. *)
Definition make (f : fields) : result t :=
  match decide (Is_true (fields_ok f)) with
  | left H => Ok (Make f H)
  | right _ => Raise (ValueError "datetime field out of range")
  end.

Definition digit_char (d : Z) : ascii := PyStr.chr (48 + d).

Definition pad2 (n : Z) : list ascii :=
  [digit_char (n / 10); digit_char (n mod 10)].
Definition pad4 (n : Z) : list ascii :=
  [digit_char (n / 1000); digit_char (n / 100 mod 10);
   digit_char (n / 10 mod 10); digit_char (n mod 10)].
Definition pad6 (n : Z) : list ascii :=
  [digit_char (n / 100000); digit_char (n / 10000 mod 10);
   digit_char (n / 1000 mod 10); digit_char (n / 100 mod 10);
   digit_char (n / 10 mod 10); digit_char (n mod 10)].

Definition colon : ascii := ":"%char.
Definition dash : ascii := "-"%char.
Definition plus : ascii := "+"%char.
Definition dot : ascii := "."%char.

(** [_format_offset] *)
Definition format_offset (tz : option Z) : list ascii :=
  match tz with
  | None => []
  | Some off =>
      let sign := if off <? 0 then dash else plus in
      let a := Z.abs off in
      let hh := a / 3600000000 in
      let r := a mod 3600000000 in
      let mm := r / 60000000 in
      let ss := r mod 60000000 in
      sign :: pad2 hh ++ colon :: pad2 mm
      ++ (if ss =? 0 then []
          else colon :: pad2 (ss / 1000000)
               ++ (if ss mod 1000000 =? 0 then []
                   else dot :: pad6 (ss mod 1000000)))
  end.

(** [datetime.isoformat()] *)
Definition isoformat_chars (f : fields) : list ascii :=
  pad4 (year f) ++ dash :: pad2 (month f) ++ dash :: pad2 (day f)
  ++ "T"%char :: pad2 (hour f) ++ colon :: pad2 (minute f)
  ++ colon :: pad2 (second f)
  ++ (if microsecond f =? 0 then [] else dot :: pad6 (microsecond f))
  ++ format_offset (tzinfo f).

Definition isoformat (d : t) : string :=
  string_of_list_ascii (isoformat_chars (get d)).

(** *** [fromisoformat]: the parser of the interpreter
    ([Modules/_datetimemodule.c]), on the UTF-8 bytes of the string.  A
    pointer into the string is the list of the bytes from it on; behind the
    last byte the parser reads the terminating NUL. *)

Definition peek (p : list Z) : Z := hd 0 p.

Definition is_digit (c : Z) : bool := (48 <=? c) && (c <=? 57).

(** [parse_digits(ptr, var, num_digits)]: the pointer behind the digits and
    the number read, [None] for [NULL]. *)
Fixpoint parse_digits (ptr : list Z) (num_digits : nat) (var : Z) : option (list Z * Z) :=
  match num_digits with
  | O => Some (ptr, var)
  | S n =>
      let c := peek ptr in
      if is_digit c then parse_digits (tail ptr) n (var * 10 + (c - 48)) else None
  end.

Definition days_before_month (year month : Z) : Z :=
  let days := table _days_before_month month in
  if (2 <? month) && is_leap year then days + 1 else days.

(** The divisions of C round towards zero. *)
Definition days_before_year (year : Z) : Z :=
  let y := year - 1 in
  y * 365 + Z.quot y 4 - Z.quot y 100 + Z.quot y 400.

Definition ymd_to_ord (year month day : Z) : Z :=
  days_before_year year + days_before_month year month + day.

Definition weekday (year month day : Z) : Z :=
  Z.rem (ymd_to_ord year month day + 6) 7.

Definition iso_week1_monday (year : Z) : Z :=
  let first_day := ymd_to_ord year 1 1 in
  let first_weekday := Z.rem (first_day + 6) 7 in
  let week1_monday := first_day - first_weekday in
  if 3 <? first_weekday then week1_monday + 7 else week1_monday.

Definition DI4Y : Z := 1461.
Definition DI100Y : Z := 36524.
Definition DI400Y : Z := 146097.

Definition ord_to_ymd (ordinal : Z) : Z * Z * Z :=
  let ordinal := ordinal - 1 in
  let n400 := Z.quot ordinal DI400Y in
  let n := Z.rem ordinal DI400Y in
  let n100 := Z.quot n DI100Y in
  let n := Z.rem n DI100Y in
  let n4 := Z.quot n DI4Y in
  let n := Z.rem n DI4Y in
  let n1 := Z.quot n 365 in
  let n := Z.rem n 365 in
  let year := n400 * 400 + 1 + (n100 * 100 + n4 * 4 + n1) in
  if (n1 =? 4) || (n100 =? 4) then (year - 1, 12, 31)
  else
    let leapyear := (n1 =? 3) && (negb (n4 =? 24) || (n100 =? 3)) in
    let month := Z.shiftr (n + 50) 5 in
    let preceding :=
      table _days_before_month month + (if (2 <? month) && leapyear then 1 else 0) in
    let '(month, preceding) :=
      if n <? preceding then (month - 1, preceding - days_in_month year (month - 1))
      else (month, preceding) in
    (year, month, n - preceding + 1).

(** [iso_to_ymd] *)
Definition iso_to_ymd (iso_year iso_week iso_day : Z) : option (Z * Z * Z) :=
  let out_of_range :=
    if (iso_week <=? 0) || (53 <=? iso_week) then
      if iso_week =? 53 then
        let first_weekday := weekday iso_year 1 1 in
        negb ((first_weekday =? 3) || ((first_weekday =? 2) && is_leap iso_year))
      else true
    else false in
  if out_of_range then None
  else if (iso_day <=? 0) || (8 <=? iso_day) then None
  else
    let day_1 := iso_week1_monday iso_year in
    let day_offset := (iso_week - 1) * 7 + iso_day - 1 in
    Some (ord_to_ymd (day_1 + day_offset)).

Definition hyphen : Z := 45.
Definition week_indicator : Z := 87.

(** The loop of [_find_isoformat_datetime_separator] over the digits from
    index 7 on. *)
Fixpoint last_digit_index (p : list Z) (idx : Z) : Z :=
  match p with
  | c :: p' => if is_digit c then last_digit_index p' (idx + 1) else idx
  | [] => idx
  end.

(** [_find_isoformat_datetime_separator]; [None] is its -1, with which the
    date parser fails: the string has nine bytes, and the parser wants the
    digit of the day where the terminator is. *)
Definition _find_isoformat_datetime_separator (dtstr : list Z) (len : Z) : option Z :=
  let at_ i := nth i dtstr 0 in
  if len =? 7 then Some 7
  else if at_ 4%nat =? hyphen then
    if at_ 5%nat =? week_indicator then
      if len <? 8 then None
      else if (8 <? len) && (at_ 8%nat =? hyphen) then
        if len =? 9 then None
        else if (10 <? len) && is_digit (at_ 10%nat) then Some 8
        else Some 10
      else Some 8
    else Some 10
  else if at_ 4%nat =? week_indicator then
    let idx := last_digit_index (drop 7 dtstr) 7 in
    if idx <? 9 then Some idx
    else if Z.rem idx 2 =? 0 then Some 7
    else Some 8
  else Some 8.

(** [parse_isoformat_date(dtstr, len, ...)] *)
Definition parse_isoformat_date (dtstr : list Z) (len : Z) : option (Z * Z * Z) :=
  '(p, year) ← parse_digits dtstr 4 0;
  let uses_separator := peek p =? hyphen in
  let p := if uses_separator then tail p else p in
  let read := if uses_separator then 5 else 4 in
  if peek p =? week_indicator then
    '(p, iso_week) ← parse_digits (tail p) 2 0;
    if read + 3 <? len then
      if uses_separator && negb (peek p =? hyphen) then None
      else
        '(_, iso_day) ← parse_digits (if uses_separator then tail p else p) 1 0;
        iso_to_ymd year iso_week iso_day
    else iso_to_ymd year iso_week 1
  else
    '(p, month) ← parse_digits p 2 0;
    if uses_separator && negb (peek p =? hyphen) then None
    else
      '(_, day) ← parse_digits (if uses_separator then tail p else p) 2 0;
      Some (year, month, day).

(** How the loop of [parse_hh_mm_ss_ff] over hour, minute and second ends:
    with a [return], or at the fraction, [remains] bytes before the end. *)
Inductive fields_end :=
  | Returned (rv : Z)
  | AtFraction (p : list Z) (remains : Z).

Definition colon_byte : Z := 58.

(** The loop with [todo] fields left; [first] in the round of the hour,
    which sets [has_separator]. *)
Fixpoint hh_mm_ss (todo : nat) (first has_separator : bool) (p : list Z) (remains : Z)
  : option (list Z * fields_end) :=
  match todo with
  | O => Some ([], AtFraction p remains)
  | S todo' =>
      '(p, val) ← parse_digits p 2 0;
      let c := peek p in
      let has_separator := if first then c =? colon_byte else has_separator in
      if remains - 3 <=? 0 then Some ([val], Returned (if c =? 0 then 0 else 1))
      else if has_separator && (c =? colon_byte) then
        '(vals, e) ← hh_mm_ss todo' false has_separator (tail p) (remains - 3);
        Some (val :: vals, e)
      else if (c =? 46) || (c =? 44) then Some ([val], AtFraction (tail p) (remains - 3))
      else if negb has_separator then
        '(vals, e) ← hh_mm_ss todo' false has_separator p (remains - 2);
        Some (val :: vals, e)
      else None
  end.

Definition correction : list Z := [100000; 10000; 1000; 100; 10].

Fixpoint skip_digits (p : list Z) : list Z :=
  match p with
  | c :: p' => if is_digit c then skip_digits p' else p
  | [] => []
  end.

(** [parse_hh_mm_ss_ff(tstr, tstr_end, ...)], with [len = tstr_end - tstr]:
    the return value 0 or 1 and hour, minute, second, microsecond; [None]
    for a negative return value. *)
Definition parse_hh_mm_ss_ff (tstr : list Z) (len : Z) : option (Z * Z * Z * Z * Z) :=
  '(vals, e) ← hh_mm_ss 3 true true tstr len;
  let hour := nth 0 vals 0 in
  let minute := nth 1 vals 0 in
  let second := nth 2 vals 0 in
  match e with
  | Returned rv => Some (rv, hour, minute, second, 0)
  | AtFraction p len_remains =>
      let to_parse := if 6 <=? len_remains then 6 else len_remains in
      '(p, microsecond) ← parse_digits p (Z.to_nat to_parse) 0;
      let microsecond :=
        if to_parse <? 6 then microsecond * table correction (to_parse - 1)
        else microsecond in
      let p := skip_digits p in
      Some (if peek p =? 0 then 0 else 1, hour, minute, second, microsecond)
  end.

Definition is_tz_start (c : Z) : bool := (c =? 90) || (c =? 43) || (c =? 45).

(** The do-while of [parse_isoformat_time] that looks for the offset: the
    index it stops at. *)
Fixpoint tzinfo_pos (p : list Z) (pos dtlen : Z) : Z :=
  match p with
  | [] => pos + 1
  | c :: p' =>
      if is_tz_start c then pos
      else if pos + 1 <? dtlen then tzinfo_pos p' (pos + 1) dtlen
      else pos + 1
  end.

(** [parse_isoformat_time(dtstr, dtlen, ...)]: hour, minute, second,
    microsecond and, with an offset, [tzoffset] and [tzmicrosecond]. *)
Definition parse_isoformat_time (dtstr : list Z) (dtlen : Z)
  : option (Z * Z * Z * Z * option (Z * Z)) :=
  let pos := tzinfo_pos dtstr 0 dtlen in
  '(rv, hour, minute, second, microsecond) ← parse_hh_mm_ss_ff dtstr pos;
  if pos =? dtlen then
    if rv =? 1 then None else Some (hour, minute, second, microsecond, None)
  else
    let p := drop (Z.to_nat pos) dtstr in
    if peek p =? 90 then
      if peek (tail p) =? 0 then Some (hour, minute, second, microsecond, Some (0, 0))
      else None
    else
      let tzsign := if peek p =? 45 then -1 else 1 in
      '(rv, tzhour, tzminute, tzsecond, tzmicrosecond)
        ← parse_hh_mm_ss_ff (tail p) (dtlen - (pos + 1));
      if rv =? 0 then
        Some (hour, minute, second, microsecond,
              Some (tzsign * (tzhour * 3600 + tzminute * 60 + tzsecond),
                    tzsign * tzmicrosecond))
      else None.

(** [tzinfo_from_isoformat_results]: an offset of zero whole seconds is
    [timezone.utc], whatever its microseconds. *)
Definition tzinfo_from_isoformat_results (tz : option (Z * Z)) : option Z :=
  match tz with
  | None => None
  | Some (tzoffset, tz_useconds) =>
      if tzoffset =? 0 then Some 0 else Some (tzoffset * 1000000 + tz_useconds)
  end.

(** The offset read back from what [isoformat] writes for an offset: one
    of less than a second comes back as UTC. *)
Definition reread_offset (tz : option Z) : option Z :=
  match tz with
  | Some off => if Z.abs off <? 1000000 then Some 0 else Some off
  | None => None
  end.

(** The bytes of the character at the separator, from its first byte. *)
Definition char_width (c : Z) : Z :=
  if Z.land c 128 =? 0 then 1
  else if Z.land c 240 =? 224 then 3
  else if Z.land c 240 =? 240 then 4
  else 2.

(** [datetime.fromisoformat(s)] for a [str] argument. *)
Definition fromisoformat (s : string) : result t :=
  let bad := Raise (ValueError "Invalid isoformat string") in
  if (String.length s <? 7)%nat then bad
  else
    let dt_ptr := PyStr.encode s in
    let len := Z.of_nat (length dt_ptr) in
    match _find_isoformat_datetime_separator dt_ptr len with
    | None => bad
    | Some separator_location =>
        match parse_isoformat_date dt_ptr separator_location with
        | None => bad
        | Some (year, month, day) =>
            if separator_location <? len then
              let p := drop (Z.to_nat separator_location) dt_ptr in
              let w := char_width (peek p) in
              match parse_isoformat_time (drop (Z.to_nat w) p)
                      (len - (separator_location + w)) with
              | None => bad
              | Some (hour, minute, second, microsecond, tz) =>
                  make (Fields year month day hour minute second microsecond
                          (tzinfo_from_isoformat_results tz))
              end
            else make (Fields year month day 0 0 0 0 None)
        end
    end.

End Datetime.

(** ** Values decoded from JSON ([json.loads]) and given to [json.dumps]:
    [None], [bool], [int], [str], [list], [dict] with [str] keys.  Floats are
    not part of the embedding. *)

#[warnings="-register-all"]
Inductive JValue : Type :=
  | JNull
  | JBool (b : bool)
  | JInt (z : Z)
  | JStr (s : string)
  | JArr (l : list JValue)
  | JObj (l : list (string * JValue)).

Module PyVal.

Fixpoint assoc (k : string) (l : list (string * JValue)) : option JValue :=
  match l with
  | [] => None
  | (k', v) :: l' => if String.eqb k k' then Some v else assoc k l'
  end.

(** [d[k]] for a [str] key [k] *)
Definition getitem (d : JValue) (k : string) : result JValue :=
  match d with
  | JObj l =>
      match assoc k l with
      | Some v => Ok v
      | None => Raise (KeyError k)
      end
  | JArr _ => Raise (TypeError "list indices must be integers or slices, not str")
  | JStr _ => Raise (TypeError "string indices must be integers")
  | _ => Raise (TypeError "object is not subscriptable")
  end.

(** [d.get(k, default)] *)
Definition get (d : JValue) (k : string) (default : JValue) : result JValue :=
  match d with
  | JObj l => Ok (from_option id default (assoc k l))
  | _ => Raise (AttributeError "object has no attribute 'get'")
  end.

(** The declared field types; anything else leaves the typed embedding. *)
Definition as_str (v : JValue) : result string :=
  match v with JStr s => Ok s | _ => Untyped end.

Definition as_int (v : JValue) : result Z :=
  match v with JInt z => Ok z | _ => Untyped end.

Fixpoint as_str_list_go (l : list JValue) : result (list string) :=
  match l with
  | [] => Ok []
  | JStr s :: l' => r ← as_str_list_go l'; Ok (s :: r)
  | _ :: _ => Untyped
  end.

Definition as_str_list (v : JValue) : result (list string) :=
  match v with JArr l => as_str_list_go l | _ => Untyped end.

End PyVal.

(** ** domain/value_objects.py *)

Module ResourceId.

Record t := Make {
  value : string;
  post_init : Is_true (PyStr.fullmatch_hex_8_16 value)
}.

(** The constructor call [ResourceId(value)] with [__post_init__]. *)
Definition new (value : string) : result t :=
  match decide (Is_true (PyStr.fullmatch_hex_8_16 value)) with
  | left H => Ok (Make value H)
  | right _ => Raise (ValueError ("Invalid ResourceId: " +:+ value))
  end.

(** [ResourceId(v)] for a decoded JSON value: [re.fullmatch] raises
    TypeError on anything that is not a string. *)
Definition of_py (v : JValue) : result t :=
  match v with
  | JStr s => new s
  | _ => Raise (TypeError "expected string or bytes-like object")
  end.

Definition from_url (url : string) : result t :=
  let digest := PyStr.slice_to 12 (Sha256.hexdigest (PyStr.encode url)) in
  new digest.

Definition from_content (content : string) : result t :=
  let digest := PyStr.slice_to 12 (Sha256.hexdigest (PyStr.encode content)) in
  new digest.

Definition str (r : t) : string := value r.

End ResourceId.

Module Url.

Definition valid (value : string) : bool :=
  PyStr.startswith "http://" value || PyStr.startswith "https://" value
  || PyStr.startswith "file://" value.

Record t := Make { value : string; post_init : Is_true (valid value) }.

Definition new (value : string) : result t :=
  match decide (Is_true (valid value)) with
  | left H => Ok (Make value H)
  | right _ => Raise (ValueError ("Invalid URL: " +:+ value))
  end.

(** [Url(v)] for a decoded JSON value: only [str] has [startswith]. *)
Definition of_py (v : JValue) : result t :=
  match v with
  | JStr s => new s
  | _ => Raise (AttributeError "object has no attribute 'startswith'")
  end.

Definition str (u : t) : string := value u.

End Url.

Module Timestamp.

Record t := Make { dt : Datetime.t }.

Definition from_iso (iso : string) : result t :=
  d ← Datetime.fromisoformat iso; Ok (Make d).

Definition of_py (v : JValue) : result t :=
  match v with
  | JStr s => from_iso s
  | _ => Raise (TypeError "fromisoformat: argument must be str")
  end.

Definition iso (ts : t) : string := Datetime.isoformat (dt ts).

Definition str (ts : t) : string := iso ts.

(** [utcoffset()] in microseconds, [None] for a naive time *)
Definition utcoffset (ts : t) : option Z := Datetime.tzinfo (Datetime.get (dt ts)).

End Timestamp.

Module ContentHash.

Record t := Make { value : string }.

(** [ContentHash.of(text)] ([of] is reserved in Rocq) *)
Definition of_ (text : string) : t :=
  Make (Sha256.hexdigest (PyStr.encode text)).

Definition str (h : t) : string := value h.

End ContentHash.

(** ** domain/entities.py *)

Module Resource.

Record t := Make {
  id : ResourceId.t;
  title : string;
  url : Url.t;
  captured_at : Timestamp.t;
  content_hash : ContentHash.t;
  tags : list string;
  snippet_count : Z
}.

Definition to_dict (self : t) : JValue :=
  JObj [ ("id", JStr (ResourceId.str (id self)));
         ("title", JStr (title self));
         ("url", JStr (Url.str (url self)));
         ("captured_at", JStr (Timestamp.iso (captured_at self)));
         ("content_hash", JStr (ContentHash.str (content_hash self)));
         ("tags", JArr (JStr <$> tags self));
         ("snippet_count", JInt (snippet_count self)) ].

(** The keyword arguments are evaluated left to right, so the first failing
    one decides the exception.  [title], [content_hash], [tags] and
    [snippet_count] are stored unchecked by Python; the embedding leaves
    ([Untyped]) when they do not have their declared types. *)
Definition from_dict (d : JValue) : result t :=
  id_v ← PyVal.getitem d "id";
  rid ← ResourceId.of_py id_v;
  title_v ← PyVal.getitem d "title";
  url_v ← PyVal.getitem d "url";
  u ← Url.of_py url_v;
  ts_v ← PyVal.getitem d "captured_at";
  ts ← Timestamp.of_py ts_v;
  hash_v ← PyVal.getitem d "content_hash";
  tags_v ← PyVal.get d "tags" (JArr []);
  count_v ← PyVal.get d "snippet_count" (JInt 0);
  ttl ← PyVal.as_str title_v;
  h ← PyVal.as_str hash_v;
  tgs ← PyVal.as_str_list tags_v;
  cnt ← PyVal.as_int count_v;
  Ok (Make rid ttl u ts (ContentHash.Make h) tgs cnt).

End Resource.

(** ** Python [dict] with [str] keys, in insertion order *)

Module PyDict.

Abbreviation t V := (list (string * V)) (only parsing).

(** [d.get(k)] *)
Fixpoint get {V} (k : string) (d : t V) : option V :=
  match d with
  | [] => None
  | (k', v) :: d' => if String.eqb k k' then Some v else get k d'
  end.

(** [d[k] = v]: an existing key keeps its place, a new key goes last. *)
Fixpoint set {V} (k : string) (v : V) (d : t V) : t V :=
  match d with
  | [] => [(k, v)]
  | (k', v') :: d' =>
      if String.eqb k k' then (k, v) :: d' else (k', v') :: set k v d'
  end.

(** [d.pop(k, None)] as the dict it leaves *)
Fixpoint pop {V} (k : string) (d : t V) : t V :=
  match d with
  | [] => []
  | (k', v) :: d' => if String.eqb k k' then d' else (k', v) :: pop k d'
  end.

Definition keys {V} (d : t V) : list string := fst <$> d.
Definition values {V} (d : t V) : list V := snd <$> d.

End PyDict.

(** ** collections.Counter: counts are natural numbers, a missing key reads 0 *)

Module Counter.

Abbreviation t := (list (string * nat)) (only parsing).

(** [c[k]] *)
Definition get (c : t) (k : string) : nat := default 0%nat (PyDict.get k c).

(** [c[k] += n] *)
Definition add (c : t) (k : string) (n : nat) : t :=
  PyDict.set k (get c k + n)%nat c.

(** [sorted(c.items(), key=itemgetter(1), reverse=True)]: Python's sort is
    stable, also with [reverse=True], so items of equal count keep their
    order in the dict. *)
Fixpoint insert_desc (x : string * nat) (l : list (string * nat)) : list (string * nat) :=
  match l with
  | [] => [x]
  | y :: l' =>
      if (snd y <=? snd x)%nat then x :: y :: l'
      else y :: insert_desc x l'
  end.

Fixpoint sorted_desc (l : list (string * nat)) : list (string * nat) :=
  match l with
  | [] => []
  | x :: l' => insert_desc x (sorted_desc l')
  end.

(** [c.most_common(n)] is [heapq.nlargest(n, c.items(), key=itemgetter(1))],
    documented as [sorted(..., reverse=True)[:n]] for [n >= 0] and empty
    for a negative [n]. *)
Definition most_common (n : Z) (c : t) : list (string * nat) :=
  take (Z.to_nat n) (sorted_desc c).

End Counter.

(** ** The ports the use cases are given (application/ports.py) and the
    library calls whose results the embedding takes as given *)

(** [json.loads] ([None] stands for JSONDecodeError) and [json.dumps] with its
    [indent] argument. *)
Class Json := {
  json_loads : string -> option JValue;
  json_dumps : option nat -> JValue -> string
}.

(** [Snapshotter.capture(url)]: [(extracted_text, raw_html)] *)
Class Snapshotter := {
  capture : string -> option string * option string
}.

(** [Clock.now()] at the one place a use case reads it *)
Class Clock := {
  now : Timestamp.t
}.

(** [os.path.abspath], which depends on the working directory, and the
    paths outside the store that are directories ([isdir] is asked only
    about a path that holds no file): such a path passes [os.path.exists],
    and [open] raises IsADirectoryError on it. *)
Class OsPath := {
  abspath : string -> string;
  isdir : string -> bool
}.

(** ** The files under the store's base directory, and the files a local
    ingest reads *)

Module FS.

(** [<base>/resources/<name>/].  [content_md] is the text as written (in
    text mode on a POSIX system, where [write] changes no character); what a
    read returns is [read_text] of it.  The json files hold json text, in
    which [json.dump] escapes every carriage return, so that a read returns
    the text written. *)
Record resource_dir := ResourceDir {
  meta_json : option string;
  content_md : option string;
  snippets_json : option string;
  snapshot_html : option string
}.

Definition empty_dir : resource_dir := ResourceDir None None None None.

(** [f.read()] of a file opened with [open(path, "r", encoding="utf-8")] *)
Definition read_text (written : string) : string := PyStr.universal_newlines written.

Record t := Make {
  (** [<base>/resources], [None] when the directory does not exist *)
  resources : option (gmap string resource_dir);
  (** [<base>/library.jsonl] as its lines, [None] when the file does not exist *)
  library_jsonl : option (list string);
  (** any other file, by path: the text that reading it returns *)
  files : gmap string string
}.

Definition lookup_dir (fs : t) (name : string) : option resource_dir :=
  m ← resources fs; m !! name.

(** [sorted(os.listdir(resources_dir))] *)
Definition listdir_sorted (m : gmap string resource_dir) : list string :=
  merge_sort String.le (elements (dom m)).

End FS.

(** ** infrastructure/jsonl_indexer.py *)

Module JsonlIndexer.

Record t := Make {
  _index : gmap string Counter.t;
  _resources : PyDict.t Resource.t
}.

Definition empty : t := Make ∅ [].

Definition stops : list string :=
  ["the"; "a"; "an"; "is"; "are"; "was"; "were"; "in"; "on"; "at"; "to";
   "for"; "of"; "and"; "or"; "it"].

Definition _tokenize (text : string) : list string :=
  let words := PyStr.findall_lower_alnum (PyStr.lower text) in
  filter (fun w => ¬ (w ∈ stops) ∧ (1 < String.length w)%nat) words.

(** The loop [for term in terms: ... self._index[term][rid] += 1] *)
Definition count_term (rid : string) (index : gmap string Counter.t) (term : string)
  : gmap string Counter.t :=
  let index := match index !! term with
               | None => <[term := []]> index
               | Some _ => index
               end in
  <[term := Counter.add (default [] (index !! term)) rid 1]> index.

Definition count_terms (rid : string) (terms : list string)
    (index : gmap string Counter.t) : gmap string Counter.t :=
  foldl (count_term rid) index terms.

Definition index_resource (self : t) (resource : Resource.t) (content : string) : t :=
  let rid := ResourceId.str (Resource.id resource) in
  let resources := PyDict.set rid resource (_resources self) in
  let terms := _tokenize (Resource.title resource +:+ " " +:+ content) in
  Make (count_terms rid terms (_index self)) resources.

(** The loop [for rid, count in self._index[term].items(): scores[rid] += count] *)
Definition add_items (scores : Counter.t) (items : list (string * nat)) : Counter.t :=
  foldl (fun sc '(rid, count) => Counter.add sc rid count) scores items.

Definition score_term (index : gmap string Counter.t) (scores : Counter.t)
    (term : string) : Counter.t :=
  match index !! term with
  | Some c => add_items scores c
  | None => scores
  end.

Fixpoint make_ids (rids : list string) : result (list ResourceId.t) :=
  match rids with
  | [] => Ok []
  | rid :: rest =>
      r ← ResourceId.new rid;
      rs ← make_ids rest;
      Ok (r :: rs)
  end.

Definition search_local (self : t) (query : string) (top_k : Z)
  : result (list ResourceId.t) :=
  let terms := _tokenize query in
  let scores := foldl (score_term (_index self)) [] terms in
  let top := Counter.most_common top_k scores in
  make_ids (fst <$> top).

Definition list_all (self : t) : list Resource.t :=
  PyDict.values (_resources self).

Definition remove (self : t) (resource_id : ResourceId.t) : t :=
  let rid := ResourceId.str resource_id in
  Make (PyDict.pop rid <$> _index self) (PyDict.pop rid (_resources self)).

Definition healthy (self : t) : bool := true.

Section load.
Context `{Json}.

(** One turn of the loop of [_load]; [seen] is [seen_ids]. *)
Definition load_line (fs : FS.t) (st : gset string * t) (raw : string)
  : result (gset string * t) :=
  let '(seen, self) := st in
  let line := PyStr.strip raw in
  if decide (line = "") then Ok st
  else
    match json_loads line with
    | None => Ok st
    | Some data =>
        match Resource.from_dict data with
        | Raise (KeyError _) | Raise (ValueError _) | Raise JSONDecodeError => Ok st
        | Raise e => Raise e
        | Untyped => Untyped
        | Ok resource =>
            let rid := ResourceId.str (Resource.id resource) in
            if decide (rid ∈ seen) then Ok st
            else
              let seen := {[rid]} ∪ seen in
              let resources := PyDict.set rid resource (_resources self) in
              let content :=
                match FS.lookup_dir fs rid ≫= FS.content_md with
                | Some text => PyStr.slice_to (Z.to_nat 10000) (FS.read_text text)
                | None => ""
                end in
              let terms := _tokenize (Resource.title resource +:+ " " +:+ content) in
              Ok (seen, Make (count_terms rid terms (_index self)) resources)
        end
    end.

Fixpoint load_lines (fs : FS.t) (st : gset string * t) (lines : list string)
  : result (gset string * t) :=
  match lines with
  | [] => Ok st
  | raw :: rest => st' ← load_line fs st raw; load_lines fs st' rest
  end.

Definition _load (fs : FS.t) (self : t) : result t :=
  match FS.library_jsonl fs with
  | None => Ok self
  | Some lines => snd <$> load_lines fs (∅, self) lines
  end.

(** [JsonlIndexer(library_path)] *)
Definition init (fs : FS.t) : result t := _load fs empty.

End load.

End JsonlIndexer.

(** ** infrastructure/filesystem_store.py *)

Module FilesystemStore.

Section store.
Context `{Json}.

Definition ensure_dirs (fs : FS.t) : FS.t :=
  FS.Make (Some (default ∅ (FS.resources fs))) (FS.library_jsonl fs) (FS.files fs).

Definition _append_to_library (fs : FS.t) (resource : Resource.t) : FS.t :=
  let line := json_dumps None (Resource.to_dict resource) in
  FS.Make (FS.resources fs)
          (Some (default [] (FS.library_jsonl fs) ++ [line]))
          (FS.files fs).

Definition save_resource (fs : FS.t) (resource : Resource.t)
    (content_md : string) (raw_html : option string) : FS.t :=
  let rid := ResourceId.str (Resource.id resource) in
  let m := default ∅ (FS.resources fs) in
  let old := default FS.empty_dir (m !! rid) in
  let rdir :=
    FS.ResourceDir
      (Some (json_dumps (Some 2%nat) (Resource.to_dict resource)))
      (Some content_md)
      (match FS.snippets_json old with
       | Some s => Some s
       | None => Some (json_dumps None (JArr []))
       end)
      (match raw_html with
       | Some html => if decide (html = "") then FS.snapshot_html old else Some html
       | None => FS.snapshot_html old
       end) in
  _append_to_library
    (FS.Make (Some (<[rid := rdir]> m)) (FS.library_jsonl fs) (FS.files fs))
    resource.

Definition load_resource (fs : FS.t) (resource_id : ResourceId.t)
  : result (option Resource.t) :=
  match FS.lookup_dir fs (ResourceId.str resource_id) ≫= FS.meta_json with
  | None => Ok None
  | Some text =>
      match json_loads text with
      | None => Raise JSONDecodeError
      | Some data => Some <$> Resource.from_dict data
      end
  end.

Definition load_content (fs : FS.t) (resource_id : ResourceId.t) : option string :=
  FS.read_text <$> (FS.lookup_dir fs (ResourceId.str resource_id) ≫= FS.content_md).

Definition resource_exists (fs : FS.t) (resource_id : ResourceId.t) : bool :=
  bool_decide (is_Some (FS.lookup_dir fs (ResourceId.str resource_id) ≫= FS.meta_json)).

End store.

End FilesystemStore.

(** ** What a use case acts on: the store's files and the indexer object.
    The Logger port only receives messages and is left out. *)

Record World := MkWorld {
  fs : FS.t;
  indexer : JsonlIndexer.t
}.

(** A use case is a function of the world that returns or raises, and leaves
    a world behind in both cases. *)
Definition M (A : Type) : Type := World -> result A * World.

Definition st_ret {A} (a : A) : M A := fun w => (Ok a, w).
Definition st_raise {A} (e : exn) : M A := fun w => (Raise e, w).
Definition st_lift {A} (r : result A) : M A := fun w => (r, w).
Definition st_bind {A B} (m : M A) (k : A -> M B) : M B :=
  fun w =>
    match m w with
    | (Ok a, w') => k a w'
    | (Raise e, w') => (Raise e, w')
    | (Untyped, w') => (Untyped, w')
    end.
Definition st_get : M World := fun w => (Ok w, w).
Definition st_put (w : World) : M unit := fun _ => (Ok tt, w).

#[global] Instance M_ret : MRet M := @st_ret.
#[global] Instance M_bind : MBind M := fun A B k m => st_bind m k.

(** ** The title heuristic: [IngestResource._extract_title] and
    [Reindex._extract_title] are the same text. *)

Module Title.

Definition nl : ascii := "010"%char.

(** The two characters of the argument of [.strip(...)]: the single and
    the double quotation mark. *)
Definition quote_chars : string :=
  String (PyStr.chr 39) (String (PyStr.chr 34) EmptyString).

Definition is_delimiter (s : string) : bool :=
  bool_decide (s = "---") || bool_decide (s = "+++").

(** The first loop: the [title:] field before the closing delimiter.  Under
    its guard the split has two parts ([split1_title_field] below), so the
    index [1] never raises and [nth] never uses its default. *)
Fixpoint frontmatter_title (delimiter : string) (lines : list string) : option string :=
  match lines with
  | [] => None
  | raw :: rest =>
      let stripped := PyStr.strip raw in
      if decide (stripped = delimiter) then None
      else if PyStr.startswith "title:" (PyStr.lower stripped) then
        let val := PyStr.strip_chars quote_chars (PyStr.strip (nth 1 (PyStr.split1 ":" stripped) "")) in
        if decide (val = "") then frontmatter_title delimiter rest else Some val
      else frontmatter_title delimiter rest
  end.

(** The second loop: [body_start], 0 when the frontmatter is not closed;
    [i] is the index of the head of [lines]. *)
Fixpoint body_start (delimiter : string) (i : nat) (lines : list string) : nat :=
  match lines with
  | [] => 0
  | raw :: rest =>
      if decide (PyStr.strip raw = delimiter) then S i
      else body_start delimiter (S i) rest
  end.

(** The third loop, over [lines[body_start:]]. *)
Fixpoint scan_body (lines : list string) : option string :=
  match lines with
  | [] => None
  | raw :: rest =>
      let stripped := PyStr.strip raw in
      if PyStr.startswith "# " stripped then
        Some (PyStr.strip (PyStr.slice_from 2 stripped))
      else if negb (bool_decide (stripped = ""))
              && negb (PyStr.startswith "---" stripped || PyStr.startswith "+++" stripped)
              && (PyStr.len stripped <? 200)
      then Some stripped
      else scan_body rest
  end.

(** The last loop, over all lines. *)
Fixpoint scan_all (lines : list string) : option string :=
  match lines with
  | [] => None
  | line :: rest =>
      let stripped := PyStr.strip line in
      if PyStr.startswith "# " stripped then
        Some (PyStr.strip (PyStr.slice_from 2 stripped))
      else if negb (bool_decide (stripped = "")) && (PyStr.len stripped <? 200)
      then Some stripped
      else scan_all rest
  end.

Definition _extract_title (content fallback : string) : string :=
  let lines := PyStr.split nl content in
  let from_frontmatter :=
    match lines with
    | first :: rest =>
        if is_delimiter (PyStr.strip first) then
          let delimiter := PyStr.strip first in
          match frontmatter_title delimiter rest with
          | Some val => Some val
          | None => scan_body (drop (body_start delimiter 1 rest) lines)
          end
        else None
    | [] => None
    end in
  match from_frontmatter with
  | Some t => t
  | None =>
      match scan_all lines with
      | Some t => t
      | None => fallback
      end
  end.

End Title.

(** ** application/use_cases/ingest_resource.py *)

Module IngestResource.

Record IngestResponse := Response {
  resource : Resource.t;
  already_existed : bool
}.

Definition _extract_title := Title._extract_title.

(** [os.path.basename] *)
Definition basename (path : string) : string :=
  List.last (PyStr.split "/" path) "".

Section execute.
Context `{Json} `{Snapshotter} `{Clock} `{OsPath}.

(** [if self._store.resource_exists(rid): existing = ...; if existing: return ...] *)
Definition existing (rid : ResourceId.t) : M (option Resource.t) :=
  w ← st_get;
  if FilesystemStore.resource_exists (fs w) rid
  then st_lift (FilesystemStore.load_resource (fs w) rid)
  else st_ret None.

Definition store_and_index (rid : ResourceId.t) (title : string) (url : Url.t)
    (content_md : string) (raw_html : option string) : M IngestResponse :=
  if decide (PyStr.strip content_md = "") then
    st_raise (ValueError "No content could be extracted from the source.")
  else
    let ts := now in
    let chash := ContentHash.of_ content_md in
    let resource := Resource.Make rid title url ts chash [] 0 in
    w ← st_get;
    st_put (MkWorld (FilesystemStore.save_resource (fs w) resource content_md raw_html)
                    (indexer w));;
    w ← st_get;
    st_put (MkWorld (fs w)
                    (JsonlIndexer.index_resource (indexer w) resource content_md));;
    st_ret (Response resource false).

Definition execute (path_or_url : string) : M IngestResponse :=
  let source := path_or_url in
  let is_url := PyStr.startswith "http://" source || PyStr.startswith "https://" source in
  if is_url then
    rid ← st_lift (ResourceId.from_url source);
    found ← existing rid;
    match found with
    | Some r => st_ret (Response r true)
    | None =>
        let '(text, raw_html) := capture source in
        let content_md := default "" text in
        url ← st_lift (Url.new source);
        let title := _extract_title content_md source in
        store_and_index rid title url content_md raw_html
    end
  else
    w ← st_get;
    match FS.files (fs w) !! source with
    | None =>
        if isdir source
        then st_raise (IsADirectoryError source)
        else st_raise (FileNotFoundError ("File not found: " +:+ source))
    | Some content_md =>
        let raw_html := None in
        rid ← st_lift (ResourceId.from_content content_md);
        found ← existing rid;
        match found with
        | Some r => st_ret (Response r true)
        | None =>
            url ← st_lift (Url.new ("file://" +:+ abspath source));
            let title := basename source in
            store_and_index rid title url content_md raw_html
        end
    end.

End execute.

End IngestResource.

(** ** application/use_cases/reindex.py *)

Module Reindex.

Record ReindexResult := Result {
  total : Z;
  titles_fixed : Z;
  (** one entry per failed directory: its name and the exception *)
  errors : list (string * exn)
}.

Definition _extract_title := Title._extract_title.

(** The state of the walk: the resource directories, the result so far and
    [resources_with_content]. *)
Record walk := Walk {
  dirs : gmap string FS.resource_dir;
  res : ReindexResult;
  resources_with_content : list (Resource.t * string)
}.

Section execute.
Context `{Json}.

(** The body of the [try] for one directory: the files it reads, and what
    it leaves: the rewritten [meta.json] if the title changed, and the
    pair appended to [resources_with_content]. *)
Definition visit (d : FS.resource_dir) (meta : string)
  : result (option string * (Resource.t * string)) :=
  match json_loads meta with
  | None => Raise JSONDecodeError
  | Some data =>
      resource ← Resource.from_dict data;
      let content := default "" (FS.read_text <$> FS.content_md d) in
      let new_title := _extract_title content (Resource.title resource) in
      if decide (new_title ≠ Resource.title resource) then
        let resource :=
          Resource.Make (Resource.id resource) new_title (Resource.url resource)
            (Resource.captured_at resource) (Resource.content_hash resource)
            (Resource.tags resource) 0 in
        Ok (Some (json_dumps (Some 2%nat) (Resource.to_dict resource)),
            (resource, content))
      else Ok (None, (resource, content))
  end.

(** What [self._log.warning(...)] raises: the Logger port, and the
    ConsoleLogger the program is run with, have [info], [warn], [error] and
    [debug], and no [warning]. *)
Definition no_warning : exn :=
  AttributeError "'ConsoleLogger' object has no attribute 'warning'".

(** One turn of [for rid_dir in sorted(os.listdir(resources_dir))].
    [except Exception] catches every exception ([Untyped] is none), notes
    it in [result.errors] and calls [self._log.warning]: that call raises,
    out of the handler and out of [execute]. *)
Definition step (st : walk) (rid_dir : string) : result walk :=
  match dirs st !! rid_dir with
  | None => Ok st
  | Some d =>
      match FS.meta_json d with
      | None => Ok st
      | Some meta =>
          let r := res st in
          let r := Result (total r + 1) (titles_fixed r) (errors r) in
          match visit d meta with
          | Ok (Some meta', entry) =>
              let d' := FS.ResourceDir (Some meta') (FS.content_md d)
                          (FS.snippets_json d) (FS.snapshot_html d) in
              Ok (Walk (<[rid_dir := d']> (dirs st))
                       (Result (total r) (titles_fixed r + 1) (errors r))
                       (resources_with_content st ++ [entry]))
          | Ok (None, entry) =>
              Ok (Walk (dirs st) r (resources_with_content st ++ [entry]))
          | Raise _ => Raise no_warning
          | Untyped => Untyped
          end
      end
  end.

(** The loop: its outcome, and the directories as it leaves them (what was
    rewritten before an exception stays rewritten). *)
Fixpoint steps (st : walk) (names : list string)
  : result walk * gmap string FS.resource_dir :=
  match names with
  | [] => (Ok st, dirs st)
  | rid_dir :: rest =>
      match step st rid_dir with
      | Ok st' => steps st' rest
      | Raise e => (Raise e, dirs st)
      | Untyped => (Untyped, dirs st)
      end
  end.

Definition rebuild_index (pairs : list (Resource.t * string)) : JsonlIndexer.t :=
  foldl (fun ix '(resource, content) =>
           JsonlIndexer.index_resource ix resource (PyStr.slice_to (Z.to_nat 10000) content))
        JsonlIndexer.empty pairs.

Definition execute : M ReindexResult :=
  w ← st_get;
  match FS.resources (fs w) with
  | None => st_ret (Result 0 0 [])
  | Some m =>
      let '(outcome, m') := steps (Walk m (Result 0 0 []) []) (FS.listdir_sorted m) in
      st_put (MkWorld (FS.Make (Some m') (FS.library_jsonl (fs w)) (FS.files (fs w)))
                      (indexer w));;
      st ← st_lift outcome;
      let lines := (fun p => json_dumps None (Resource.to_dict (fst p)))
                   <$> resources_with_content st in
      st_put (MkWorld (FS.Make (Some (dirs st)) (Some lines) (FS.files (fs w)))
                      (rebuild_index (resources_with_content st)));;
      st_ret (res st)
  end.

End execute.

End Reindex.

(** ** The other entities of domain/entities.py *)

Module Citation.

Record t := Make {
  resource_id : ResourceId.t;
  resource_title : string;
  url : Url.t;
  captured_at : Timestamp.t;
  excerpt : string;
  local_path : string
}.

Definition to_dict (self : t) : JValue :=
  JObj [ ("resource_id", JStr (ResourceId.str (resource_id self)));
         ("resource_title", JStr (resource_title self));
         ("url", JStr (Url.str (url self)));
         ("captured_at", JStr (Timestamp.iso (captured_at self)));
         ("excerpt", JStr (excerpt self));
         ("local_path", JStr (local_path self)) ].

(** As in [Resource.from_dict], the first failing argument decides the
    exception, and the fields Python stores unchecked ([resource_title],
    [excerpt], [local_path]) leave the embedding when they are no [str]. *)
Definition from_dict (d : JValue) : result t :=
  id_v ← PyVal.getitem d "resource_id";
  rid ← ResourceId.of_py id_v;
  title_v ← PyVal.getitem d "resource_title";
  url_v ← PyVal.getitem d "url";
  u ← Url.of_py url_v;
  ts_v ← PyVal.getitem d "captured_at";
  ts ← Timestamp.of_py ts_v;
  excerpt_v ← PyVal.getitem d "excerpt";
  path_v ← PyVal.get d "local_path" (JStr "");
  ttl ← PyVal.as_str title_v;
  ex ← PyVal.as_str excerpt_v;
  p ← PyVal.as_str path_v;
  Ok (Make rid ttl u ts ex p).

End Citation.

Module SearchResult.

Record t := Make {
  title : string;
  url : string;
  snippet : string;
  position : Z
}.

End SearchResult.

Module ResearchSession.

Record t := Make {
  session_id : string;
  created_at : Timestamp.t;
  queries : list string;
  resource_ids : list ResourceId.t
}.

Definition to_dict (self : t) : JValue :=
  JObj [ ("session_id", JStr (session_id self));
         ("created_at", JStr (Timestamp.iso (created_at self)));
         ("queries", JArr (JStr <$> queries self));
         ("resource_ids", JArr ((fun r => JStr (ResourceId.str r)) <$> resource_ids self)) ].

(** What [for r in v] goes through: the items of a list, the characters of
    a string, the keys of a dict (each key once in a decoded dict); the
    other values are not iterable. *)
Definition iter (v : JValue) : result (list JValue) :=
  match v with
  | JArr l => Ok l
  | JStr s => Ok ((fun c => JStr (String c EmptyString)) <$> list_ascii_of_string s)
  | JObj l => Ok ((fun kv => JStr (fst kv)) <$> l)
  | _ => Raise (TypeError "object is not iterable")
  end.

(** [[ResourceId(r) for r in items]] *)
Fixpoint make_ids (items : list JValue) : result (list ResourceId.t) :=
  match items with
  | [] => Ok []
  | r :: rest =>
      rid ← ResourceId.of_py r;
      rids ← make_ids rest;
      Ok (rid :: rids)
  end.

Definition from_dict (d : JValue) : result t :=
  sid_v ← PyVal.getitem d "session_id";
  ts_v ← PyVal.getitem d "created_at";
  ts ← Timestamp.of_py ts_v;
  queries_v ← PyVal.get d "queries" (JArr []);
  ids_v ← PyVal.get d "resource_ids" (JArr []);
  items ← iter ids_v;
  rids ← make_ids items;
  sid ← PyVal.as_str sid_v;
  qs ← PyVal.as_str_list queries_v;
  Ok (Make sid ts qs rids).

End ResearchSession.

Module SummaryOutput.

Record t := Make {
  text : string;
  citations : list Citation.t;
  format : string
}.

Definition to_dict (self : t) : JValue :=
  JObj [ ("text", JStr (text self));
         ("citations", JArr (Citation.to_dict <$> citations self));
         ("format", JStr (format self)) ].

End SummaryOutput.

(** ** The other ports of application/ports.py, and [datetime.strftime] *)

(** [SearchProvider.search(query, max_results=..., recency_days=...)] *)
Class SearchProvider := {
  search : string -> Z -> option Z -> result (list SearchResult.t)
}.

(** [LLMProvider.complete(prompt, system=..., max_tokens=...)] *)
Class LLMProvider := {
  complete : string -> string -> Z -> result string
}.

(** [dt.strftime(format)], which C's [strftime] decides *)
Class Strftime := {
  strftime : Datetime.t -> string -> string
}.

(** ** Pieces of text the use cases put together *)

Module PyFmt.

Definition NL : string := String Title.nl EmptyString.

(** The double quotation mark *)
Definition DQ : string := String (PyStr.chr 34) EmptyString.

(** [sep.join(parts)] *)
Fixpoint join (sep : string) (parts : list string) : string :=
  match parts with
  | [] => EmptyString
  | [p] => p
  | p :: rest => p +:+ sep +:+ join sep rest
  end.

(** [re.sub(r"[^a-z0-9]+", "_", s)]: every maximal run of other characters
    becomes one underscore.  [in_run] says that the character before was
    one of a run. *)
Fixpoint sub_runs (in_run : bool) (s : string) : string :=
  match s with
  | EmptyString => EmptyString
  | String c s' =>
      if PyStr.is_lower_alnum c then String c (sub_runs false s')
      else if in_run then sub_runs true s'
      else String "_" (sub_runs true s')
  end.

End PyFmt.

(** ** The snippet and session files of infrastructure/filesystem_store.py *)

Module StoreSnippets.
Section snippets.
Context `{Json}.

(** [save_snippets(resource_id, snippets)]: the directory is made if need
    be, and [snippets.json] is written with [indent=2]. *)
Definition save_snippets (fs : FS.t) (resource_id : ResourceId.t) (snippets : JValue) : FS.t :=
  let rid := ResourceId.str resource_id in
  let m := default ∅ (FS.resources fs) in
  let old := default FS.empty_dir (m !! rid) in
  let rdir := FS.ResourceDir (FS.meta_json old) (FS.content_md old)
                (Some (json_dumps (Some 2%nat) snippets)) (FS.snapshot_html old) in
  FS.Make (Some (<[rid := rdir]> m)) (FS.library_jsonl fs) (FS.files fs).

(** [load_snippets(resource_id)]: [[]] when there is no [snippets.json]. *)
Definition load_snippets (fs : FS.t) (resource_id : ResourceId.t) : result JValue :=
  match FS.lookup_dir fs (ResourceId.str resource_id) ≫= FS.snippets_json with
  | None => Ok (JArr [])
  | Some text =>
      match json_loads text with
      | None => Raise JSONDecodeError
      | Some v => Ok v
      end
  end.

End snippets.
End StoreSnippets.

(** The store with its session files: [<base>/sessions/<id>/queries.json],
    by session id. *)
Record Library := MkLibrary {
  lib_world : World;
  lib_sessions : gmap string string
}.

Module StoreSessions.
Section sessions.
Context `{Json}.

(** [save_session(session_id, data)] *)
Definition save_session (sessions : gmap string string) (session_id : string)
    (data : JValue) : gmap string string :=
  <[session_id := json_dumps (Some 2%nat) data]> sessions.

End sessions.
End StoreSessions.

(** ** application/use_cases/list_resources.py *)

Module ListResources.

Record ListResponse := Response {
  resources : list Resource.t;
  total : Z
}.

Definition execute (indexer : JsonlIndexer.t) : ListResponse :=
  let resources := JsonlIndexer.list_all indexer in
  Response resources (Z.of_nat (length resources)).

End ListResources.

(** ** application/use_cases/run_search.py *)

Module RunSearch.

Record RunSearchRequest := Request {
  query : string;
  max_results : Z;
  recency_days : option Z
}.

Record RunSearchResponse := Response {
  session : ResearchSession.t;
  resources : list Resource.t;
  skipped : Z
}.

(** [re.sub(r"[^a-z0-9]+", "_", query.lower())[:40].strip("_")] *)
Definition slug (query : string) : string :=
  PyStr.strip_chars "_" (PyStr.slice_to 40 (PyFmt.sub_runs false (PyStr.lower query))).

(** What the loop over the results has built so far: the world,
    [session.resource_ids], [resources] and [skipped]. *)
Record progress := Progress {
  p_world : World;
  p_ids : list ResourceId.t;
  p_resources : list Resource.t;
  p_skipped : Z
}.

Definition skip (p : progress) : progress :=
  Progress (p_world p) (p_ids p) (p_resources p) (p_skipped p + 1).

Section execute.
Context `{Json} `{Snapshotter} `{Clock} `{SearchProvider} `{Strftime}.

(** [text or sr.snippet or ""] *)
Definition content_of (text : option string) (snippet : string) : string :=
  match text with
  | Some t => if decide (t = "") then snippet else t
  | None => snippet
  end.

(** One turn of [for i, sr in enumerate(results)].  [except Exception]
    counts the result as skipped and goes on; what the turn did before the
    exception stays done. *)
Definition turn (ts : Timestamp.t) (p : progress) (sr : SearchResult.t) : result progress :=
  match ResourceId.from_url (SearchResult.url sr) with
  | Raise _ => Ok (skip p)
  | Untyped => Untyped
  | Ok rid =>
      let w := p_world p in
      if FilesystemStore.resource_exists (fs w) rid then
        let p := Progress w (p_ids p ++ [rid]) (p_resources p) (p_skipped p) in
        match FilesystemStore.load_resource (fs w) rid with
        | Raise _ => Ok (skip p)
        | Untyped => Untyped
        | Ok (Some existing) =>
            Ok (skip (Progress w (p_ids p) (p_resources p ++ [existing]) (p_skipped p)))
        | Ok None => Ok (skip p)
        end
      else
        let '(text, raw_html) := capture (SearchResult.url sr) in
        let content_md := content_of text (SearchResult.snippet sr) in
        if decide (PyStr.strip content_md = "") then Ok (skip p)
        else
          let chash := ContentHash.of_ content_md in
          match Url.new (SearchResult.url sr) with
          | Raise _ => Ok (skip p)
          | Untyped => Untyped
          | Ok url =>
              let resource := Resource.Make rid (SearchResult.title sr) url ts chash [] 0 in
              let w := MkWorld (FilesystemStore.save_resource (fs w) resource content_md raw_html)
                               (indexer w) in
              let w := MkWorld (fs w)
                               (JsonlIndexer.index_resource (indexer w) resource content_md) in
              Ok (Progress w (p_ids p ++ [rid]) (p_resources p ++ [resource]) (p_skipped p))
          end
  end.

Fixpoint turns (ts : Timestamp.t) (p : progress) (results : list SearchResult.t)
  : result progress :=
  match results with
  | [] => Ok p
  | sr :: rest => p' ← turn ts p sr; turns ts p' rest
  end.

Definition session_id_of (ts : Timestamp.t) (query : string) : string :=
  strftime (Timestamp.dt ts) "%Y%m%dT%H%M%S" +:+ "__" +:+ slug query.

(** The dict written to the session's [queries.json] *)
Definition session_data (request : RunSearchRequest) (session : ResearchSession.t)
    (p : progress) : JValue :=
  JObj [ ("session", ResearchSession.to_dict session);
         ("queries", JArr [JStr (query request)]);
         ("result_count", JInt (Z.of_nat (length (p_resources p))));
         ("skipped", JInt (p_skipped p)) ].

Definition execute (request : RunSearchRequest) (l : Library)
  : result RunSearchResponse * Library :=
  match search (query request) (max_results request) (recency_days request) with
  | Raise e => (Raise e, l)
  | Untyped => (Untyped, l)
  | Ok results =>
      let ts := now in
      let session_id := session_id_of ts (query request) in
      match turns ts (Progress (lib_world l) [] [] 0) results with
      | Raise e => (Raise e, l)
      | Untyped => (Untyped, l)
      | Ok p =>
          let session := ResearchSession.Make session_id ts [query request] (p_ids p) in
          let sessions :=
            StoreSessions.save_session (lib_sessions l) session_id
              (session_data request session p) in
          (Ok (Response session (p_resources p) (p_skipped p)),
           MkLibrary (p_world p) sessions)
      end
  end.

End execute.

End RunSearch.

(** ** application/use_cases/query_library.py *)

Module QueryLibrary.

Record QueryRequest := Request {
  question : string;
  top_k : Z;
  live : bool
}.

Record QueryResponse := Response {
  answer : SummaryOutput.t;
  sources : list Resource.t
}.

Definition no_sources_text : string :=
  "No relevant resources found in the local library. "
  +:+ "Try `tool search` first, or use `--live` to search the web.".

Definition system_text : string :=
  "You are a research assistant. Answer questions using only the provided sources. "
  +:+ "Always cite your sources with their IDs. Be concise and factual.".

(** The f-string appended to [context_parts] *)
Definition context_part (resource : Resource.t) (snippet : string) : string :=
  "--- Source [" +:+ ResourceId.str (Resource.id resource) +:+ "]: "
  +:+ Resource.title resource +:+ " ---" +:+ PyFmt.NL
  +:+ "URL: " +:+ Url.str (Resource.url resource) +:+ PyFmt.NL
  +:+ "Captured: " +:+ Timestamp.str (Resource.captured_at resource) +:+ PyFmt.NL +:+ PyFmt.NL
  +:+ snippet +:+ PyFmt.NL.

Definition prompt_of (question combined_context : string) : string :=
  "Answer the following question using ONLY the provided sources." +:+ PyFmt.NL
  +:+ "Cite sources using [source_id] notation." +:+ PyFmt.NL
  +:+ "If the sources don't contain enough information, say so." +:+ PyFmt.NL +:+ PyFmt.NL
  +:+ "Question: " +:+ question +:+ PyFmt.NL +:+ PyFmt.NL
  +:+ "Sources:" +:+ PyFmt.NL +:+ combined_context.

(** [sources], [context_parts] and [citations] *)
Record gathered := Gathered {
  g_sources : list Resource.t;
  g_context_parts : list string;
  g_citations : list Citation.t
}.

Section execute.
Context `{Json} `{Snapshotter} `{Clock} `{SearchProvider} `{Strftime} `{LLMProvider}.

(** One turn of [for rid in resource_ids] *)
Definition gather_one (fs : FS.t) (g : gathered) (rid : ResourceId.t) : result gathered :=
  found ← FilesystemStore.load_resource fs rid;
  match found with
  | None => Ok g
  | Some resource =>
      let content := default "" (FilesystemStore.load_content fs rid) in
      let snippet := PyStr.slice_to 1500 content in
      let citation :=
        Citation.Make rid (Resource.title resource) (Resource.url resource)
          (Resource.captured_at resource) (PyStr.slice_to 200 snippet)
          ("research/resources/" +:+ ResourceId.str rid +:+ "/content.md") in
      Ok (Gathered (g_sources g ++ [resource])
                   (g_context_parts g ++ [context_part resource snippet])
                   (g_citations g ++ [citation]))
  end.

Fixpoint gather (fs : FS.t) (g : gathered) (rids : list ResourceId.t) : result gathered :=
  match rids with
  | [] => Ok g
  | rid :: rest => g' ← gather_one fs g rid; gather fs g' rest
  end.

(** What follows the optional live search *)
Definition answer_from (request : QueryRequest) (w : World) : result QueryResponse :=
  resource_ids ← JsonlIndexer.search_local (indexer w) (question request) (top_k request);
  match resource_ids with
  | [] => Ok (Response (SummaryOutput.Make no_sources_text [] "md") [])
  | _ =>
      g ← gather (fs w) (Gathered [] [] []) resource_ids;
      let combined_context := PyFmt.join (PyFmt.NL +:+ PyFmt.NL) (g_context_parts g) in
      let prompt := prompt_of (question request) combined_context in
      answer_text ← complete prompt system_text 2000;
      Ok (Response (SummaryOutput.Make answer_text (g_citations g) "md") (g_sources g))
  end.

Definition execute (request : QueryRequest) (l : Library)
  : result QueryResponse * Library :=
  if live request then
    match RunSearch.execute
            (RunSearch.Request (question request) (top_k request) None) l with
    | (Ok _, l') => (answer_from request (lib_world l'), l')
    | (Raise e, l') => (Raise e, l')
    | (Untyped, l') => (Untyped, l')
    end
  else (answer_from request (lib_world l), l).

End execute.

End QueryLibrary.

(** ** application/use_cases/summarize_resource.py *)

Module SummarizeResource.

Record SummarizeRequest := Request {
  resource_id : string;
  format : string
}.

Record SummarizeResponse := Response {
  summary : SummaryOutput.t;
  resource : Resource.t
}.

Definition max_chars : Z := 12000.

(** [content[:max_chars]], with the mark when something was cut *)
Definition truncate (content : string) : string :=
  let truncated := PyStr.slice_to (Z.to_nat max_chars) content in
  if max_chars <? PyStr.len content
  then truncated +:+ PyFmt.NL +:+ PyFmt.NL +:+ "[... content truncated ...]"
  else truncated.

Definition prompt_of (resource : Resource.t) (truncated : string) : string :=
  "Summarize the following document. Include key facts and findings." +:+ PyFmt.NL
  +:+ "After the summary, list 2-5 key quotes from the text as citations." +:+ PyFmt.NL
  +:+ "Format each citation as: [CITE] " +:+ PyFmt.DQ +:+ "exact quote" +:+ PyFmt.DQ
  +:+ " (source)" +:+ PyFmt.NL +:+ PyFmt.NL
  +:+ "Document title: " +:+ Resource.title resource +:+ PyFmt.NL
  +:+ "Source: " +:+ Url.str (Resource.url resource) +:+ PyFmt.NL +:+ PyFmt.NL
  +:+ "---" +:+ PyFmt.NL +:+ truncated +:+ PyFmt.NL +:+ "---".

Definition system_text : string :=
  "You are a research assistant. Produce concise, factual summaries. "
  +:+ "Always include verifiable citations from the source text.".

Section execute.
Context `{Json} `{LLMProvider}.

Definition execute (request : SummarizeRequest) (fs : FS.t) : result SummarizeResponse :=
  rid ← ResourceId.new (resource_id request);
  found ← FilesystemStore.load_resource fs rid;
  match found with
  | None => Raise (ValueError ("Resource not found: " +:+ resource_id request))
  | Some resource =>
      let content := default "" (FilesystemStore.load_content fs rid) in
      if decide (content = "") then
        Raise (ValueError ("No content stored for resource: " +:+ resource_id request))
      else
        let truncated := truncate content in
        raw_summary ← complete (prompt_of resource truncated) system_text 1500;
        let citations :=
          [Citation.Make rid (Resource.title resource) (Resource.url resource)
             (Resource.captured_at resource) (PyStr.slice_to 200 raw_summary)
             ("research/resources/" +:+ ResourceId.str rid +:+ "/content.md")] in
        Ok (Response (SummaryOutput.Make raw_summary citations (format request)) resource)
  end.

End execute.

End SummarizeResource.

(** * Verification *)

(** ** Sanity checks of the library models against known values *)

Example sha256_abc :
  Sha256.hexdigest (PyStr.encode "abc")
  = "ba7816bf8f01cfea414140de5dae2223b00361a396177a9cb410ff61f20015ad".
Proof. vm_compute. reflexivity. Qed.

Example sha256_empty :
  Sha256.hexdigest (PyStr.encode "")
  = "e3b0c44298fc1c149afbf4c8996fb92427ae41e4649b934ca495991b7852b855".
Proof. vm_compute. reflexivity. Qed.

Definition dt_example : Datetime.fields :=
  Datetime.Fields 2024 2 29 13 5 9 120 (Some (-19800000000)).

Example isoformat_example :
  string_of_list_ascii (Datetime.isoformat_chars dt_example)
  = "2024-02-29T13:05:09.000120-05:30".
Proof. vm_compute. reflexivity. Qed.

Example fromisoformat_example :
  Datetime.get <$> (match Datetime.fromisoformat "2024-02-29T13:05:09.000120-05:30" with Ok d => Some d | _ => None end)
  = Some dt_example.
Proof. vm_compute. reflexivity. Qed.

(** Other spellings that [fromisoformat] reads, and some it refuses. *)
Definition read_fields (s : string) : option Datetime.fields :=
  match Datetime.fromisoformat s with
  | Ok d => Some (Datetime.get d)
  | _ => None
  end.

Example fromisoformat_spellings :
  read_fields "2024-05-17T12:00:00Z" = Some (Datetime.Fields 2024 5 17 12 0 0 0 (Some 0))
  /\ read_fields "20240517" = Some (Datetime.Fields 2024 5 17 0 0 0 0 None)
  /\ read_fields "2024-W20-5" = Some (Datetime.Fields 2024 5 17 0 0 0 0 None)
  /\ read_fields "2024-05-17 1200" = Some (Datetime.Fields 2024 5 17 12 0 0 0 None)
  /\ read_fields "2024-05-17T12:00:00.5"
     = Some (Datetime.Fields 2024 5 17 12 0 0 500000 None)
  /\ read_fields "2024-05-17T12:00:00,1234567"
     = Some (Datetime.Fields 2024 5 17 12 0 0 123456 None)
  /\ read_fields "2024-05-17T12:00:00+00:00:00.000001"
     = Some (Datetime.Fields 2024 5 17 12 0 0 0 (Some 0))
  /\ read_fields "2024-05-17T" = None
  /\ read_fields "2024-05-17T12:" = None
  /\ read_fields "2024-05-17T24:00" = None
  /\ read_fields "2023-02-29" = None.
Proof. vm_compute. repeat split. Qed.

(** ** Strings as lists of characters *)

Lemma all_chars_Forall p s :
  PyStr.all_chars p s = true <-> Forall (fun c => p c = true) (list_ascii_of_string s).
Proof.
  induction s as [|c s IH]; simpl.
  - split; [constructor|done].
  - rewrite andb_true_iff, Forall_cons, IH. done.
Qed.

Lemma slice_to_take n s :
  list_ascii_of_string (PyStr.slice_to n s) = take n (list_ascii_of_string s).
Proof.
  revert s; induction n as [|n IH]; intros [|c s]; simpl; try done.
  by rewrite IH.
Qed.

Lemma string_length_list s : String.length s = length (list_ascii_of_string s).
Proof. induction s; simpl; congruence. Qed.

(** ** C5: the shape of resource ids *)

Section sha256_shape.

Lemma compress_length h b : length (Sha256.compress h b) = 8%nat.
Proof. reflexivity. Qed.

Lemma blocks_length fuel h ws :
  length h = 8%nat -> length (Sha256.blocks fuel h ws) = 8%nat.
Proof.
  revert h ws; induction fuel as [|f IH]; intros h ws Hh; simpl; [done|].
  destruct ws; [done|]. apply IH, compress_length.
Qed.

Lemma digest_words_length msg : length (Sha256.digest_words msg) = 8%nat.
Proof. apply blocks_length. reflexivity. Qed.

Lemma hex_digit_lower d :
  0 <= d < 16 -> PyStr.is_lower_hex (Sha256.hex_digit d) = true.
Proof.
  intros Hd.
  assert (d = 0 \/ d = 1 \/ d = 2 \/ d = 3 \/ d = 4 \/ d = 5 \/ d = 6 \/ d = 7
          \/ d = 8 \/ d = 9 \/ d = 10 \/ d = 11 \/ d = 12 \/ d = 13 \/ d = 14
          \/ d = 15) as Hcases by lia.
  repeat destruct Hcases as [->|Hcases]; try reflexivity. subst; reflexivity.
Qed.

Lemma hex_word_shape w :
  length (Sha256.hex_word w) = 8%nat
  /\ Forall (fun c => PyStr.is_lower_hex c = true) (Sha256.hex_word w).
Proof.
  split; [reflexivity|].
  unfold Sha256.hex_word. apply Forall_fmap, Forall_forall.
  intros i _. apply hex_digit_lower. apply Z.mod_pos_bound. lia.
Qed.

Lemma concat_hex_words ws :
  length (concat (map Sha256.hex_word ws)) = (8 * length ws)%nat
  /\ Forall (fun c => PyStr.is_lower_hex c = true) (concat (map Sha256.hex_word ws)).
Proof.
  induction ws as [|w ws [IHl IHf]].
  - split; [done|constructor].
  - destruct (hex_word_shape w) as [Hl Hf]. cbn [map concat length].
    rewrite length_app, Hl, IHl. split; [lia|]. by apply Forall_app.
Qed.

Lemma hexdigest_shape msg :
  String.length (Sha256.hexdigest msg) = 64%nat
  /\ PyStr.all_chars PyStr.is_lower_hex (Sha256.hexdigest msg) = true.
Proof.
  unfold Sha256.hexdigest.
  destruct (concat_hex_words (Sha256.digest_words msg)) as [Hl Hf].
  rewrite digest_words_length in Hl.
  rewrite string_length_list, all_chars_Forall, list_ascii_of_string_of_list_ascii.
  done.
Qed.

Lemma digest12_shape msg :
  String.length (PyStr.slice_to 12 (Sha256.hexdigest msg)) = 12%nat
  /\ PyStr.all_chars PyStr.is_lower_hex (PyStr.slice_to 12 (Sha256.hexdigest msg)) = true.
Proof.
  destruct (hexdigest_shape msg) as [Hl Hf].
  rewrite string_length_list, all_chars_Forall, slice_to_take.
  rewrite string_length_list in Hl. apply all_chars_Forall in Hf.
  split; [rewrite length_take; lia|]. by apply Forall_take.
Qed.

End sha256_shape.

Lemma fullmatch_spec s :
  PyStr.fullmatch_hex_8_16 s = true
  <-> PyStr.all_chars PyStr.is_lower_hex s = true
      /\ (8 <= String.length s <= 16)%nat.
Proof.
  unfold PyStr.fullmatch_hex_8_16, PyStr.len.
  rewrite !andb_true_iff, !Z.leb_le. intuition lia.
Qed.

Lemma ResourceId_new_ok s (H : Is_true (PyStr.fullmatch_hex_8_16 s)) :
  ResourceId.new s = Ok (ResourceId.Make s H).
Proof.
  unfold ResourceId.new. destruct (decide _) as [H'|H']; [|done].
  f_equal. f_equal. apply proof_irrel.
Qed.

Lemma ResourceId_new_bad s :
  PyStr.fullmatch_hex_8_16 s = false ->
  ResourceId.new s = Raise (ValueError ("Invalid ResourceId: " +:+ s)).
Proof.
  intros Hs. unfold ResourceId.new. destruct (decide _) as [H'|H']; [|done].
  exfalso. apply Is_true_true in H'. congruence.
Qed.

Lemma ResourceId_eq (a b : ResourceId.t) :
  ResourceId.value a = ResourceId.value b -> a = b.
Proof.
  destruct a as [a Ha], b as [b Hb]; simpl; intros ->. f_equal. apply proof_irrel.
Qed.

Lemma digest12_new msg :
  exists r, ResourceId.new (PyStr.slice_to 12 (Sha256.hexdigest msg)) = Ok r
    /\ ResourceId.value r = PyStr.slice_to 12 (Sha256.hexdigest msg).
Proof.
  destruct (digest12_shape msg) as [Hl Hf].
  assert (Is_true (PyStr.fullmatch_hex_8_16 (PyStr.slice_to 12 (Sha256.hexdigest msg)))) as H.
  { apply Is_true_true, fullmatch_spec. split; [done|lia]. }
  eexists. split; [apply (ResourceId_new_ok _ H)|done].
Qed.

Lemma from_url_ok url :
  exists r, ResourceId.from_url url = Ok r
    /\ ResourceId.value r = PyStr.slice_to 12 (Sha256.hexdigest (PyStr.encode url)).
Proof. apply digest12_new. Qed.

Lemma from_content_ok content :
  exists r, ResourceId.from_content content = Ok r
    /\ ResourceId.value r = PyStr.slice_to 12 (Sha256.hexdigest (PyStr.encode content)).
Proof. apply digest12_new. Qed.

(** C5 (as amended).  [ResourceId.from_url] and [ResourceId.from_content]
    always return, the id is the first 12 characters of the SHA-256 hex digest
    (so 12 lowercase hex characters, the same for the same input), and every
    [ResourceId] value is lowercase hex of a length between 8 and 16. *)
Theorem C5_resource_id_shape :
  (forall url : string,
     exists r, ResourceId.from_url url = Ok r
       /\ ResourceId.value r = PyStr.slice_to 12 (Sha256.hexdigest (PyStr.encode url))
       /\ String.length (ResourceId.value r) = 12%nat
       /\ PyStr.all_chars PyStr.is_lower_hex (ResourceId.value r) = true)
  /\ (forall content : string,
     exists r, ResourceId.from_content content = Ok r
       /\ ResourceId.value r = PyStr.slice_to 12 (Sha256.hexdigest (PyStr.encode content))
       /\ String.length (ResourceId.value r) = 12%nat
       /\ PyStr.all_chars PyStr.is_lower_hex (ResourceId.value r) = true)
  /\ (forall r : ResourceId.t,
       PyStr.all_chars PyStr.is_lower_hex (ResourceId.value r) = true
       /\ (8 <= String.length (ResourceId.value r) <= 16)%nat)
  /\ (forall s : string,
       (exists r, ResourceId.new s = Ok r /\ ResourceId.value r = s)
       \/ (PyStr.fullmatch_hex_8_16 s = false
           /\ exists msg, ResourceId.new s = Raise (ValueError msg))).
Proof.
  split; [|split; [|split]].
  - intros url. destruct (from_url_ok url) as (r & Hr & Hv).
    exists r. rewrite Hv. destruct (digest12_shape (PyStr.encode url)). done.
  - intros c. destruct (from_content_ok c) as (r & Hr & Hv).
    exists r. rewrite Hv. destruct (digest12_shape (PyStr.encode c)). done.
  - intros [s Hs]; simpl. by apply fullmatch_spec, Is_true_true.
  - intros s. destruct (PyStr.fullmatch_hex_8_16 s) eqn:Hs.
    + left. apply Is_true_true in Hs. eexists. split; [apply (ResourceId_new_ok _ Hs)|done].
    + right. split; [done|]. eexists. by apply ResourceId_new_bad.
Qed.

(** C5 (as stated) fails: the constructor accepts ids of 8 and of 16
    characters, so valid ids do not share one length. *)
Lemma C5_two_lengths :
  exists a b : ResourceId.t,
    ResourceId.new "abcdef01" = Ok a /\ ResourceId.new "abcdef0123456789" = Ok b
    /\ String.length (ResourceId.value a) = 8%nat
    /\ String.length (ResourceId.value b) = 16%nat
    /\ String.length (ResourceId.value a) <> String.length (ResourceId.value b).
Proof.
  exists (ResourceId.Make "abcdef01" I), (ResourceId.Make "abcdef0123456789" I).
  repeat split; try reflexivity. simpl. lia.
Qed.

(** ** C8: [fromisoformat] inverts [isoformat], [from_dict] inverts [to_dict] *)

Module DatetimeFacts.
Import Datetime.

Ltac digit_cases d :=
  let H := fresh "Hcases" in
  assert (d = 0 \/ d = 1 \/ d = 2 \/ d = 3 \/ d = 4 \/ d = 5 \/ d = 6
          \/ d = 7 \/ d = 8 \/ d = 9) as H by lia;
  repeat destruct H as [->|H]; [..|subst d].

Lemma nth_Forall (P : Z -> Prop) (l : list Z) (i : nat) :
  P 0 -> Forall P l -> P (nth i l 0).
Proof.
  intros H0 Hl. revert i. induction Hl as [|v l Hv _ IH]; intros [|i]; cbn [nth]; auto.
Qed.

Lemma table_Forall (P : Z -> Prop) (t : list Z) (i : Z) :
  P 0 -> Forall P t -> P (table t i).
Proof. intros H0 Ht. unfold table. destruct (i <? 0); [done|]. by apply nth_Forall. Qed.

Lemma fields_ok_bounds f :
  fields_ok f = true ->
  1 <= year f <= 9999 /\ 1 <= month f <= 12 /\ 1 <= day f <= 31
  /\ 0 <= hour f <= 23 /\ 0 <= minute f <= 59 /\ 0 <= second f <= 59
  /\ 0 <= microsecond f <= 999999
  /\ match tzinfo f with Some off => - day_us < off < day_us | None => True end.
Proof.
  unfold fields_ok, between. rewrite !andb_true_iff, !Z.leb_le.
  intros (((((((Hy & Hm) & Hd) & Hh) & Hmi) & Hs) & Hu) & Htz).
  assert (days_in_month (year f) (month f) <= 31).
  { unfold days_in_month. destruct (andb _ _); [lia|].
    apply (table_Forall (fun v => v <= 31)); [lia|].
    unfold _days_in_month. repeat constructor; lia. }
  repeat split; try lia.
  destruct (tzinfo f); [|done].
  apply andb_true_iff in Htz as [?%Z.ltb_lt ?%Z.ltb_lt]. lia.
Qed.

Lemma make_ok f (H : Is_true (fields_ok f)) : make f = Ok (Make f H).
Proof.
  unfold make. destruct (decide _) as [H'|H']; [|done].
  do 2 f_equal. apply proof_irrel.
Qed.

(** The fields with another offset *)
Definition with_offset (f : fields) (tz : option Z) : fields :=
  Fields (year f) (month f) (day f) (hour f) (minute f) (second f) (microsecond f) tz.

(** *** The bytes [isoformat] writes *)

Definition b2 (n : Z) : list Z := [48 + n / 10; 48 + n mod 10].
Definition b4 (n : Z) : list Z :=
  [48 + n / 1000; 48 + n / 100 mod 10; 48 + n / 10 mod 10; 48 + n mod 10].
Definition b6 (n : Z) : list Z :=
  [48 + n / 100000; 48 + n / 10000 mod 10; 48 + n / 1000 mod 10;
   48 + n / 100 mod 10; 48 + n / 10 mod 10; 48 + n mod 10].

Lemma code_digit_char d : 0 <= d < 10 -> PyStr.code (digit_char d) = 48 + d.
Proof. intros Hd. digit_cases d; reflexivity. Qed.

Lemma map_code_pad2 n : 0 <= n < 100 -> map PyStr.code (pad2 n) = b2 n.
Proof.
  intros Hn. unfold pad2, b2. cbn [map].
  rewrite !code_digit_char by (Z.div_mod_to_equations; lia). reflexivity.
Qed.

Lemma map_code_pad4 n : 0 <= n < 10000 -> map PyStr.code (pad4 n) = b4 n.
Proof.
  intros Hn. unfold pad4, b4. cbn [map].
  rewrite !code_digit_char by (Z.div_mod_to_equations; lia). reflexivity.
Qed.

Lemma map_code_pad6 n : 0 <= n < 1000000 -> map PyStr.code (pad6 n) = b6 n.
Proof.
  intros Hn. unfold pad6, b6. cbn [map].
  rewrite !code_digit_char by (Z.div_mod_to_equations; lia). reflexivity.
Qed.

(** Bytes of digits, colons and dots: below 128, and none starts an offset. *)
Definition plain (l : list Z) : Prop :=
  Forall (fun c => 46 <= c <= 58) l.

Lemma plain_b2 n : 0 <= n < 100 -> plain (b2 n).
Proof. intros Hn. repeat constructor; Z.div_mod_to_equations; lia. Qed.

Lemma plain_b4 n : 0 <= n < 10000 -> plain (b4 n).
Proof. intros Hn. repeat constructor; Z.div_mod_to_equations; lia. Qed.

Lemma plain_b6 n : 0 <= n < 1000000 -> plain (b6 n).
Proof. intros Hn. repeat constructor; Z.div_mod_to_equations; lia. Qed.

Lemma plain_cons c l : 46 <= c <= 58 -> plain l -> plain (c :: l).
Proof. by constructor. Qed.

Lemma plain_app a b : plain a -> plain b -> plain (a ++ b).
Proof. intros. by apply Forall_app. Qed.

Lemma plain_not_tz l : plain l -> Forall (fun c => is_tz_start c = false) l.
Proof.
  intros Hl. eapply Forall_impl; [exact Hl|]. intros c Hc. cbn beta in Hc.
  unfold is_tz_start.
  destruct (Z.eqb_spec c 90); [lia|]. destruct (Z.eqb_spec c 43); [lia|].
  destruct (Z.eqb_spec c 45); [lia|]. reflexivity.
Qed.

Lemma encode_chars l :
  Forall (fun c => c < 128) (map PyStr.code l) ->
  PyStr.encode (string_of_list_ascii l) = map PyStr.code l.
Proof.
  induction l as [|c l IH]; [done|].
  cbn [map string_of_list_ascii PyStr.encode]. intros [Hc Hl]%Forall_cons.
  destruct (Z.ltb_spec (PyStr.code c) 128); [|lia]. by rewrite IH.
Qed.

Lemma length_string_of_list l : String.length (string_of_list_ascii l) = length l.
Proof. induction l as [|c l IH]; [done|]. cbn. by rewrite IH. Qed.

(** *** Reading digits *)

Lemma is_digit_byte d : 0 <= d < 10 -> is_digit (48 + d) = true.
Proof.
  intros Hd. unfold is_digit. apply andb_true_iff. split; apply Z.leb_le; lia.
Qed.

Lemma parse_digits_step d p n var :
  0 <= d < 10 ->
  parse_digits ((48 + d) :: p) (S n) var = parse_digits p n (var * 10 + d).
Proof.
  intros Hd. cbn [parse_digits peek hd tail]. rewrite is_digit_byte by done.
  f_equal. lia.
Qed.

Lemma parse_digits_b2 n rest :
  0 <= n < 100 -> parse_digits (b2 n ++ rest) 2 0 = Some (rest, n).
Proof.
  intros Hn. unfold b2. cbn [app].
  rewrite !parse_digits_step by (Z.div_mod_to_equations; lia).
  cbn [parse_digits]. do 2 f_equal. Z.div_mod_to_equations; lia.
Qed.

Lemma parse_digits_b4 n rest :
  0 <= n < 10000 -> parse_digits (b4 n ++ rest) 4 0 = Some (rest, n).
Proof.
  intros Hn. unfold b4. cbn [app].
  rewrite !parse_digits_step by (Z.div_mod_to_equations; lia).
  cbn [parse_digits]. do 2 f_equal. Z.div_mod_to_equations; lia.
Qed.

Lemma parse_digits_b6 n rest :
  0 <= n < 1000000 -> parse_digits (b6 n ++ rest) 6 0 = Some (rest, n).
Proof.
  intros Hn. unfold b6. cbn [app].
  rewrite !parse_digits_step by (Z.div_mod_to_equations; lia).
  cbn [parse_digits]. do 2 f_equal. Z.div_mod_to_equations; lia.
Qed.

(** *** The date *)

Definition date_bytes (y m d : Z) : list Z :=
  b4 y ++ hyphen :: b2 m ++ hyphen :: b2 d.

Lemma separator_of_date y m d rest :
  0 <= m < 100 ->
  _find_isoformat_datetime_separator (date_bytes y m d ++ rest)
    (Z.of_nat (length (date_bytes y m d ++ rest))) = Some 10.
Proof.
  intros Hm. unfold _find_isoformat_datetime_separator.
  rewrite length_app.
  change (length (date_bytes y m d)) with 10%nat.
  destruct (Z.eqb_spec (Z.of_nat (10 + length rest)) 7) as [E|_]; [lia|].
  change (nth 4 (date_bytes y m d ++ rest) 0) with hyphen.
  change (nth 5 (date_bytes y m d ++ rest) 0) with (48 + m / 10).
  rewrite Z.eqb_refl.
  destruct (Z.eqb_spec (48 + m / 10) week_indicator) as [E|_]; [|done].
  unfold week_indicator in E. Z.div_mod_to_equations; lia.
Qed.

Lemma parse_date_bytes y m d rest len :
  0 <= y < 10000 -> 0 <= m < 100 -> 0 <= d < 100 ->
  parse_isoformat_date (date_bytes y m d ++ rest) len = Some (y, m, d).
Proof.
  intros Hy Hm Hd. unfold parse_isoformat_date.
  change (date_bytes y m d ++ rest)
    with (b4 y ++ hyphen :: b2 m ++ hyphen :: b2 d ++ rest).
  rewrite parse_digits_b4 by done. cbn [mbind option_bind peek hd tail].
  rewrite Z.eqb_refl.
  change (peek (b2 m ++ hyphen :: b2 d ++ rest)) with (48 + m / 10).
  destruct (Z.eqb_spec (48 + m / 10) week_indicator) as [E|_].
  { unfold week_indicator in E. Z.div_mod_to_equations; lia. }
  rewrite parse_digits_b2 by done. cbn [mbind option_bind peek hd tail andb negb].
  rewrite Z.eqb_refl. cbn [negb].
  rewrite parse_digits_b2 by done. reflexivity.
Qed.

(** *** The time of day and the offset *)

Lemma hh_mm_ss_colon todo first hs v rest remains :
  0 <= v < 100 -> 3 < remains -> first = true \/ hs = true ->
  hh_mm_ss (S todo) first hs (b2 v ++ colon_byte :: rest) remains
  = '(vals, e) ← hh_mm_ss todo false true rest (remains - 3); Some (v :: vals, e).
Proof.
  intros Hv Hr Hs. cbn [hh_mm_ss]. rewrite parse_digits_b2 by done.
  cbn [mbind option_bind peek hd tail]. rewrite Z.eqb_refl.
  destruct (Z.leb_spec (remains - 3) 0); [lia|].
  destruct Hs as [-> | ->]; [|destruct first]; reflexivity.
Qed.

Lemma hh_mm_ss_last todo first hs v rest remains :
  0 <= v < 100 -> remains <= 3 ->
  hh_mm_ss (S todo) first hs (b2 v ++ rest) remains
  = Some ([v], Returned (if peek rest =? 0 then 0 else 1)).
Proof.
  intros Hv Hr. cbn [hh_mm_ss]. rewrite parse_digits_b2 by done.
  cbn [mbind option_bind].
  by destruct (Z.leb_spec (remains - 3) 0); [|lia].
Qed.

Lemma hh_mm_ss_dot todo v rest remains :
  0 <= v < 100 -> 3 < remains ->
  hh_mm_ss (S todo) false true (b2 v ++ 46 :: rest) remains
  = Some ([v], AtFraction rest (remains - 3)).
Proof.
  intros Hv Hr. cbn [hh_mm_ss]. rewrite parse_digits_b2 by done.
  cbn [mbind option_bind peek hd tail].
  by destruct (Z.leb_spec (remains - 3) 0); [lia|].
Qed.

Definition time_bytes (hh mm ss us : Z) : list Z :=
  b2 hh ++ colon_byte :: b2 mm ++ colon_byte :: b2 ss
  ++ (if us =? 0 then [] else 46 :: b6 us).

Lemma skip_digits_stops rest : is_digit (peek rest) = false -> skip_digits rest = rest.
Proof. destruct rest as [|c rest]; [done|]. cbn [peek hd skip_digits]. by intros ->. Qed.

Lemma parse_time_bytes hh mm ss us rest :
  0 <= hh < 100 -> 0 <= mm < 100 -> 0 <= ss < 100 -> 0 <= us < 1000000 ->
  is_digit (peek rest) = false ->
  parse_hh_mm_ss_ff (time_bytes hh mm ss us ++ rest)
    (Z.of_nat (length (time_bytes hh mm ss us)))
  = Some (if peek rest =? 0 then 0 else 1, hh, mm, ss, us).
Proof.
  intros Hh Hm Hs Hu Hrest. unfold parse_hh_mm_ss_ff, time_bytes.
  destruct (Z.eqb_spec us 0) as [->|Hne].
  - change ((b2 hh ++ colon_byte :: b2 mm ++ colon_byte :: b2 ss ++ []) ++ rest)
      with (b2 hh ++ colon_byte :: b2 mm ++ colon_byte :: b2 ss ++ rest).
    change (Z.of_nat (length (b2 hh ++ colon_byte :: b2 mm ++ colon_byte :: b2 ss ++ [])))
      with 8.
    rewrite hh_mm_ss_colon by (auto; lia).
    rewrite hh_mm_ss_colon by (auto; lia).
    rewrite hh_mm_ss_last by lia. reflexivity.
  - change ((b2 hh ++ colon_byte :: b2 mm ++ colon_byte :: b2 ss ++ 46 :: b6 us) ++ rest)
      with (b2 hh ++ colon_byte :: b2 mm ++ colon_byte :: b2 ss ++ 46 :: b6 us ++ rest).
    change (Z.of_nat (length (b2 hh ++ colon_byte :: b2 mm ++ colon_byte :: b2 ss
                               ++ 46 :: b6 us)))
      with 15.
    rewrite hh_mm_ss_colon by (auto; lia).
    rewrite hh_mm_ss_colon by (auto; lia).
    rewrite hh_mm_ss_dot by lia.
    cbn [mbind option_bind nth].
    change (15 - 3 - 3 - 3) with 6. change (6 <=? 6) with true. cbv iota.
    change (Z.to_nat 6) with 6%nat.
    rewrite parse_digits_b6 by done. cbn [mbind option_bind].
    change (6 <? 6) with false. cbv iota.
    by rewrite skip_digits_stops.
Qed.

Lemma plain_time_bytes hh mm ss us :
  0 <= hh < 100 -> 0 <= mm < 100 -> 0 <= ss < 100 -> 0 <= us < 1000000 ->
  plain (time_bytes hh mm ss us).
Proof.
  intros Hh Hm Hs Hu. unfold time_bytes, colon_byte.
  apply plain_app; [by apply plain_b2|]. apply plain_cons; [lia|].
  apply plain_app; [by apply plain_b2|]. apply plain_cons; [lia|].
  apply plain_app; [by apply plain_b2|].
  destruct (us =? 0); [constructor|]. apply plain_cons; [lia|]. by apply plain_b6.
Qed.

(** The bytes [_format_offset] writes after the sign. *)
Definition offset_bytes (a : Z) : list Z :=
  let r := a mod 3600000000 in
  let ss := r mod 60000000 in
  b2 (a / 3600000000) ++ colon_byte :: b2 (r / 60000000)
  ++ (if ss =? 0 then []
      else colon_byte :: b2 (ss / 1000000)
           ++ (if ss mod 1000000 =? 0 then [] else 46 :: b6 (ss mod 1000000))).

Lemma offset_bytes_spec a :
  0 <= a < day_us ->
  exists th tm ts tu,
    parse_hh_mm_ss_ff (offset_bytes a) (Z.of_nat (length (offset_bytes a)))
    = Some (0, th, tm, ts, tu)
    /\ ((th * 3600 + tm * 60 + ts) * 1000000 + tu = a
        /\ 0 <= th * 3600 + tm * 60 + ts /\ 0 <= tu < 1000000)
    /\ plain (offset_bytes a)
    /\ offset_bytes a <> [].
Proof.
  unfold day_us. intros Ha. unfold offset_bytes.
  set (hh := a / 3600000000). set (r := a mod 3600000000).
  set (mm := r / 60000000). set (s := r mod 60000000).
  assert (0 <= r < 3600000000) by (apply Z.mod_pos_bound; lia).
  assert (0 <= s < 60000000) by (apply Z.mod_pos_bound; lia).
  assert (0 <= hh < 24) by (subst hh; split; [apply Z.div_pos; lia|apply Z.div_lt_upper_bound; lia]).
  assert (0 <= mm < 60) by (subst mm; split; [apply Z.div_pos; lia|apply Z.div_lt_upper_bound; lia]).
  assert (a = hh * 3600000000 + r) by (subst hh r; pose proof (Z.div_mod a 3600000000); lia).
  assert (r = mm * 60000000 + s) by (subst mm s; pose proof (Z.div_mod r 60000000); lia).
  cbv zeta.
  destruct (Z.eqb_spec s 0) as [Hs0|Hs0].
  - exists hh, mm, 0, 0. split; [|split; [lia|split; [|done]]].
    + unfold parse_hh_mm_ss_ff.
      change (Z.of_nat (length (b2 hh ++ colon_byte :: b2 mm ++ []))) with 5.
      rewrite hh_mm_ss_colon by (auto; lia).
      rewrite hh_mm_ss_last by lia. reflexivity.
    + apply plain_app; [apply plain_b2; lia|]. apply plain_cons; [unfold colon_byte; lia|].
      apply plain_app; [apply plain_b2; lia|constructor].
  - set (sec := s / 1000000). set (us := s mod 1000000).
    assert (0 <= us < 1000000) by (apply Z.mod_pos_bound; lia).
    assert (0 <= sec < 60) by (subst sec; split; [apply Z.div_pos; lia|apply Z.div_lt_upper_bound; lia]).
    assert (s = sec * 1000000 + us) by (subst sec us; pose proof (Z.div_mod s 1000000); lia).
    exists hh, mm, sec, us. split; [|split; [lia|split; [|done]]].
    + pose proof (parse_time_bytes hh mm sec us [] ltac:(lia) ltac:(lia) ltac:(lia)
                    ltac:(lia) eq_refl) as P.
      unfold time_bytes in P. rewrite app_nil_r in P. exact P.
    + apply (plain_time_bytes hh mm sec us); lia.
Qed.

Definition sign_byte (off : Z) : Z := if off <? 0 then 45 else 43.

Lemma tzinfo_pos_none a pos :
  Forall (fun c => is_tz_start c = false) a -> a <> [] ->
  tzinfo_pos a pos (pos + Z.of_nat (length a)) = pos + Z.of_nat (length a).
Proof.
  intros Ha. revert pos. induction Ha as [|c a Hc Ha IH]; intros pos Hne; [done|].
  cbn [tzinfo_pos]. rewrite Hc.
  destruct a as [|c' a].
  - destruct (Z.ltb_spec (pos + 1) (pos + Z.of_nat (length [c]))); cbn [length] in *; lia.
  - destruct (Z.ltb_spec (pos + 1) (pos + Z.of_nat (length (c :: c' :: a)))) as [_|Hge];
      [|cbn [length] in Hge; lia].
    replace (pos + Z.of_nat (length (c :: c' :: a)))
      with (pos + 1 + Z.of_nat (length (c' :: a))) by (cbn [length]; lia).
    by apply IH.
Qed.

Lemma tzinfo_pos_sign a c b pos dtlen :
  Forall (fun c => is_tz_start c = false) a -> is_tz_start c = true ->
  pos + Z.of_nat (length a) < dtlen ->
  tzinfo_pos (a ++ c :: b) pos dtlen = pos + Z.of_nat (length a).
Proof.
  intros Ha Hc. revert pos. induction Ha as [|x a Hx Ha IH]; intros pos Hlen.
  - cbn [app tzinfo_pos length]. rewrite Hc. lia.
  - cbn [app tzinfo_pos]. rewrite Hx. cbn [length] in Hlen.
    destruct (Z.ltb_spec (pos + 1) dtlen); [|lia].
    rewrite IH by lia. cbn [length]. lia.
Qed.

(** What [isoformat] writes for an offset, in bytes. *)
Definition tz_bytes (tz : option Z) : list Z :=
  match tz with
  | None => []
  | Some off => sign_byte off :: offset_bytes (Z.abs off)
  end.

Lemma parse_time_iso hh mm ss us tz :
  0 <= hh < 100 -> 0 <= mm < 100 -> 0 <= ss < 100 -> 0 <= us < 1000000 ->
  match tz with Some off => - day_us < off < day_us | None => True end ->
  tzinfo_from_isoformat_results
    <$> (snd <$> parse_isoformat_time (time_bytes hh mm ss us ++ tz_bytes tz)
                   (Z.of_nat (length (time_bytes hh mm ss us ++ tz_bytes tz))))
  = Some (reread_offset tz)
  /\ fst <$> parse_isoformat_time (time_bytes hh mm ss us ++ tz_bytes tz)
               (Z.of_nat (length (time_bytes hh mm ss us ++ tz_bytes tz)))
     = Some (hh, mm, ss, us).
Proof.
  intros Hh Hm Hs Hu Htz.
  pose proof (plain_time_bytes hh mm ss us Hh Hm Hs Hu) as Pl.
  assert (time_bytes hh mm ss us <> []) as Hne by (unfold time_bytes, b2; done).
  unfold parse_isoformat_time.
  destruct tz as [off|]; cbn [tz_bytes].
  - destruct (offset_bytes_spec (Z.abs off)) as (th & tm & ts & tu & Po & Hsum & _ & _);
      [lia|].
    assert (is_tz_start (sign_byte off) = true) as Hsign
      by (unfold sign_byte; by destruct (off <? 0)).
    rewrite length_app. cbn [length].
    rewrite (tzinfo_pos_sign _ _ _ 0) by (auto using plain_not_tz; lia).
    rewrite Z.add_0_l.
    rewrite parse_time_bytes by (auto; unfold sign_byte; by destruct (off <? 0)).
    cbn [mbind option_bind].
    destruct (Z.eqb_spec (Z.of_nat (length (time_bytes hh mm ss us)))
                (Z.of_nat (length (time_bytes hh mm ss us) + S (length (offset_bytes (Z.abs off))))))
      as [E|_]; [lia|].
    rewrite Nat2Z.id, drop_app_length. cbn [peek hd tail].
    assert ((sign_byte off =? 90) = false) as ->
      by (unfold sign_byte; by destruct (off <? 0)).
    replace (Z.of_nat (length (time_bytes hh mm ss us) + S (length (offset_bytes (Z.abs off))))
             - (Z.of_nat (length (time_bytes hh mm ss us)) + 1))
      with (Z.of_nat (length (offset_bytes (Z.abs off)))) by lia.
    rewrite Po. cbn [mbind option_bind fmap option_fmap option_map snd fst].
    change (0 =? 0) with true. cbv iota.
    cbn [fmap option_fmap option_map snd fst tzinfo_from_isoformat_results].
    split; [|done]. f_equal. unfold reread_offset, sign_byte.
    destruct Hsum as (Hsum & Hsec & Htu).
    destruct (Z.ltb_spec off 0).
    + change (45 =? 45) with true. cbv iota.
      destruct (Z.eqb_spec (-1 * (th * 3600 + tm * 60 + ts)) 0);
        destruct (Z.ltb_spec (Z.abs off) 1000000); f_equal; lia.
    + change (43 =? 45) with false. cbv iota.
      destruct (Z.eqb_spec (1 * (th * 3600 + tm * 60 + ts)) 0);
        destruct (Z.ltb_spec (Z.abs off) 1000000); f_equal; lia.
  - rewrite app_nil_r.
    pose proof (tzinfo_pos_none (time_bytes hh mm ss us) 0 (plain_not_tz _ Pl) Hne) as Hp.
    rewrite Z.add_0_l in Hp. rewrite Hp.
    pose proof (parse_time_bytes hh mm ss us [] Hh Hm Hs Hu eq_refl) as P.
    rewrite app_nil_r in P. rewrite P. cbn [mbind option_bind peek hd].
    rewrite Z.eqb_refl. change (0 =? 0) with true. cbv iota.
    change (0 =? 1) with false. cbv iota. done.
Qed.

(** *** [fromisoformat] after [isoformat] *)

Definition isoformat_bytes (f : fields) : list Z :=
  date_bytes (year f) (month f) (day f)
  ++ 84 :: (time_bytes (hour f) (minute f) (second f) (microsecond f)
            ++ tz_bytes (tzinfo f)).

Lemma map_code_format_offset tz :
  match tz with Some off => - day_us < off < day_us | None => True end ->
  map PyStr.code (format_offset tz) = tz_bytes tz.
Proof.
  destruct tz as [off|]; [|done]. intros Hoff. unfold day_us in Hoff.
  unfold format_offset, tz_bytes, offset_bytes, sign_byte. cbv zeta.
  set (a := Z.abs off). assert (0 <= a < 86400000000) as Ha by lia.
  set (hh := a / 3600000000). set (r := a mod 3600000000).
  set (mm := r / 60000000). set (s := r mod 60000000).
  assert (0 <= r < 3600000000) by (apply Z.mod_pos_bound; lia).
  assert (0 <= s < 60000000) by (apply Z.mod_pos_bound; lia).
  assert (0 <= hh < 24) by (subst hh; split; [apply Z.div_pos; lia|apply Z.div_lt_upper_bound; lia]).
  assert (0 <= mm < 60) by (subst mm; split; [apply Z.div_pos; lia|apply Z.div_lt_upper_bound; lia]).
  assert (0 <= s / 1000000 < 60)
    by (split; [apply Z.div_pos; lia|apply Z.div_lt_upper_bound; lia]).
  assert (0 <= s mod 1000000 < 1000000) by (apply Z.mod_pos_bound; lia).
  assert (PyStr.code (if off <? 0 then dash else plus) = (if off <? 0 then 45 else 43))
    as Hsign by (by destruct (off <? 0)).
  destruct (s =? 0); [|destruct (s mod 1000000 =? 0)];
    repeat first [rewrite map_app | progress cbn [map]];
    rewrite ?map_code_pad2, ?map_code_pad6, Hsign by lia; reflexivity.
Qed.

Lemma map_code_isoformat f :
  fields_ok f = true -> map PyStr.code (isoformat_chars f) = isoformat_bytes f.
Proof.
  intros Hf.
  destruct (fields_ok_bounds f Hf) as (Hy & Hm & Hd & Hh & Hmi & Hs & Hu & Htz).
  pose proof (map_code_format_offset (tzinfo f) Htz) as Hoff.
  unfold isoformat_chars, isoformat_bytes, date_bytes, time_bytes.
  destruct (microsecond f =? 0);
    repeat first [rewrite map_app | progress cbn [map]];
    rewrite map_code_pad4, ?map_code_pad2, ?map_code_pad6, Hoff by lia;
    repeat first [rewrite <- app_assoc | progress cbn [app]]; reflexivity.
Qed.

Lemma isoformat_bytes_ascii f :
  fields_ok f = true -> Forall (fun c => c < 128) (isoformat_bytes f).
Proof.
  intros Hf.
  destruct (fields_ok_bounds f Hf) as (Hy & Hm & Hd & Hh & Hmi & Hs & Hu & Htz).
  assert (forall l, plain l -> Forall (fun c => c < 128) l) as Hp.
  { intros l Hl. eapply Forall_impl; [exact Hl|]. intros c Hc. cbn beta in Hc. lia. }
  unfold isoformat_bytes, date_bytes, hyphen.
  apply Forall_app; split.
  - apply Forall_app; split; [apply Hp, plain_b4; lia|]. constructor; [lia|].
    apply Forall_app; split; [apply Hp, plain_b2; lia|]. constructor; [lia|].
    apply Hp, plain_b2; lia.
  - constructor; [lia|]. apply Forall_app; split.
    + apply Hp, plain_time_bytes; lia.
    + destruct (tzinfo f) as [off|]; [|constructor]. cbn [tz_bytes].
      constructor; [unfold sign_byte; destruct (off <? 0); lia|].
      destruct (offset_bytes_spec (Z.abs off)) as (? & ? & ? & ? & _ & _ & Pl & _); [lia|].
      by apply Hp.
Qed.

Lemma encode_isoformat (d : Datetime.t) :
  PyStr.encode (isoformat d) = isoformat_bytes (get d).
Proof.
  destruct d as [f Hf]. unfold isoformat. cbn [get].
  pose proof (Is_true_true_1 _ Hf) as Hok.
  rewrite encode_chars; rewrite map_code_isoformat by done; [done|].
  by apply isoformat_bytes_ascii.
Qed.

(** What [fromisoformat] reads from what [isoformat] wrote: the same
    fields, with the offset as it is read back. *)
Lemma fromisoformat_isoformat_fields (d : Datetime.t) :
  fromisoformat (isoformat d)
  = make (with_offset (get d) (reread_offset (tzinfo (get d)))).
Proof.
  unfold fromisoformat. rewrite encode_isoformat.
  assert (String.length (isoformat d) = length (isoformat_bytes (get d))) as Hlen.
  { unfold isoformat. rewrite length_string_of_list, <- (length_map PyStr.code).
    rewrite map_code_isoformat; [done|]. destruct d as [f Hf]. by apply Is_true_true_1. }
  destruct d as [f Hf]. cbn [get] in *.
  destruct (fields_ok_bounds f (Is_true_true_1 _ Hf))
    as (Hy & Hm & Hd & Hh & Hmi & Hs & Hu & Htz).
  rewrite Hlen. unfold isoformat_bytes.
  set (tstr := time_bytes _ _ _ _ ++ _).
  assert (length (date_bytes (year f) (month f) (day f) ++ 84 :: tstr)
          = (11 + length tstr)%nat) as Hl.
  { rewrite length_app. reflexivity. }
  destruct (Nat.ltb_spec (length (date_bytes (year f) (month f) (day f) ++ 84 :: tstr)) 7)
    as [Hlt|_]; [lia|].
  rewrite separator_of_date by lia. rewrite parse_date_bytes by lia.
  rewrite Hl.
  destruct (Z.ltb_spec 10 (Z.of_nat (11 + length tstr))) as [_|Hge]; [|lia].
  change (Z.to_nat 10) with (length (date_bytes (year f) (month f) (day f))).
  rewrite drop_app_length. cbn [peek hd].
  change (char_width 84) with 1. change (Z.to_nat 1) with 1%nat.
  change (drop 1 (84 :: tstr)) with tstr.
  replace (Z.of_nat (11 + length tstr) - (10 + 1)) with (Z.of_nat (length tstr)) by lia.
  destruct (parse_time_iso (hour f) (minute f) (second f) (microsecond f) (tzinfo f))
    as [Ptz Pt]; [lia..|done|].
  fold tstr in Ptz, Pt.
  destruct (parse_isoformat_time tstr (Z.of_nat (length tstr)))
    as [[[[[hh mm] ss] us] tz]|]; [|done].
  cbn [fmap option_fmap option_map fst snd] in Ptz, Pt.
  injection Ptz as Etz. injection Pt as -> -> -> ->. cbv beta iota.
  rewrite Etz. reflexivity.
Qed.

(** A datetime whose offset is none, zero or at least a second is read
    back as it was. *)
Theorem fromisoformat_isoformat (d : Datetime.t) :
  reread_offset (tzinfo (get d)) = tzinfo (get d) ->
  fromisoformat (isoformat d) = Ok d.
Proof.
  intros Hex. rewrite fromisoformat_isoformat_fields, Hex.
  destruct d as [f Hf]. cbn [get]. destruct f. apply make_ok.
Qed.

Lemma make_get f d : make f = Ok d -> get d = f.
Proof. unfold make. destruct (decide _); [|done]. by intros [= <-]. Qed.

(** *** Every datetime [fromisoformat] returns has an offset that is none,
    zero or at least a second *)

Lemma parse_digits_nonneg n : forall p var q v,
  0 <= var -> parse_digits p n var = Some (q, v) -> 0 <= v.
Proof.
  induction n as [|n IH]; intros p var q v Hvar; cbn [parse_digits].
  - intros [= _ <-]. done.
  - unfold is_digit. destruct (andb _ _) eqn:E; [|done].
    apply andb_true_iff in E as [?%Z.leb_le ?%Z.leb_le]. apply IH. lia.
Qed.

Lemma hh_mm_ss_nonneg todo : forall first hs p remains vals e,
  hh_mm_ss todo first hs p remains = Some (vals, e) -> Forall (fun v => 0 <= v) vals.
Proof.
  induction todo as [|todo IH]; intros first hs p remains vals e; cbn [hh_mm_ss].
  - intros [= <- _]. constructor.
  - destruct (parse_digits p 2 0) as [[q v]|] eqn:Ed; [|done].
    apply parse_digits_nonneg in Ed; [|lia]. cbn [mbind option_bind].
    destruct (_ <=? 0); [intros [= <- _]; by repeat constructor|].
    destruct (_ && _).
    { destruct (hh_mm_ss todo _ _ _ _) as [[vs e']|] eqn:E'; [|done].
      cbn [mbind option_bind]. intros [= <- _]. constructor; [done|]. by eapply IH. }
    destruct (_ || _); [intros [= <- _]; by repeat constructor|].
    destruct (negb _); [|done].
    destruct (hh_mm_ss todo _ _ _ _) as [[vs e']|] eqn:E'; [|done].
    cbn [mbind option_bind]. intros [= <- _]. constructor; [done|]. by eapply IH.
Qed.

Lemma table_nonneg (t : list Z) i : Forall (fun v => 0 <= v) t -> 0 <= table t i.
Proof. apply (table_Forall (fun v => 0 <= v)), Z.le_refl. Qed.

Lemma parse_hh_mm_ss_ff_nonneg p len rv hh mm ss us :
  parse_hh_mm_ss_ff p len = Some (rv, hh, mm, ss, us) ->
  0 <= hh /\ 0 <= mm /\ 0 <= ss /\ 0 <= us.
Proof.
  unfold parse_hh_mm_ss_ff.
  destruct (hh_mm_ss 3 true true p len) as [[vals e]|] eqn:E; [|done].
  apply hh_mm_ss_nonneg in E. cbn [mbind option_bind].
  pose proof (nth_Forall (fun v => 0 <= v) vals 0%nat (Z.le_refl 0) E) as Hh.
  pose proof (nth_Forall (fun v => 0 <= v) vals 1%nat (Z.le_refl 0) E) as Hm.
  pose proof (nth_Forall (fun v => 0 <= v) vals 2%nat (Z.le_refl 0) E) as Hs.
  cbv beta in Hh, Hm, Hs.
  destruct e as [rv'|q remains].
  - intros [= _ <- <- <- <-]. lia.
  - destruct (parse_digits q _ 0) as [[q' v]|] eqn:Ed; [|done].
    apply parse_digits_nonneg in Ed; [|lia]. cbn [mbind option_bind].
    intros [= _ <- <- <- <-]. repeat split; try done.
    destruct (_ <? 6); [|done]. apply Z.mul_nonneg_nonneg; [done|].
    apply table_nonneg. unfold correction. repeat constructor; lia.
Qed.

Lemma fromisoformat_exact s d :
  fromisoformat s = Ok d -> reread_offset (tzinfo (get d)) = tzinfo (get d).
Proof.
  unfold fromisoformat.
  destruct (String.length s <? 7)%nat; [done|].
  destruct (_find_isoformat_datetime_separator _ _) as [sep|]; [|done].
  destruct (parse_isoformat_date _ _) as [[[y m] dd]|]; [|done].
  destruct (sep <? _); [|by intros ->%make_get].
  destruct (parse_isoformat_time _ _) as [[[[[hh mm] ss] us] tz]|] eqn:Pt; [|done].
  intros ->%make_get. cbn [tzinfo]. revert Pt. unfold parse_isoformat_time.
  destruct (parse_hh_mm_ss_ff _ (tzinfo_pos _ _ _)) as [[[[[rv h1] m1] s1] u1]|]; [|done].
  cbn [mbind option_bind].
  destruct (_ =? _).
  { destruct (rv =? 1); [done|]. by intros [= _ _ _ _ <-]. }
  destruct (_ =? 90).
  { destruct (_ =? 0); [|done]. by intros [= _ _ _ _ <-]. }
  destruct (parse_hh_mm_ss_ff _ _) as [[[[[rv' th] tm] ts] tu]|] eqn:Po; [|done].
  apply parse_hh_mm_ss_ff_nonneg in Po as (? & ? & ? & ?).
  cbn [mbind option_bind]. destruct (rv' =? 0); [|done].
  intros [= _ _ _ _ <-]. cbn [tzinfo_from_isoformat_results reread_offset].
  match goal with
  | |- context [if ?c =? 45 then -1 else 1] => set (tzsign := if c =? 45 then -1 else 1)
  end.
  assert (tzsign = -1 \/ tzsign = 1) as Hsign by (subst tzsign; destruct (_ =? 45); auto).
  destruct (Z.eqb_spec (tzsign * (th * 3600 + tm * 60 + ts)) 0) as [E|E]; [done|].
  cbn [reread_offset]. rewrite (proj2 (Z.ltb_ge _ 1000000)); [done|].
  destruct Hsign as [-> | ->]; lia.
Qed.

End DatetimeFacts.

Lemma Url_new_ok s (H : Is_true (Url.valid s)) : Url.new s = Ok (Url.Make s H).
Proof.
  unfold Url.new. destruct (decide _) as [H'|H']; [|done].
  do 2 f_equal. apply proof_irrel.
Qed.

(** A time that its ISO text gives back: of an offset that is none, zero
    or at least one second.  (An offset of less than a second is read back
    as UTC.) *)
Definition exact_offset (ts : Timestamp.t) : Prop :=
  Datetime.reread_offset (Timestamp.utcoffset ts) = Timestamp.utcoffset ts.

#[global] Instance exact_offset_dec ts : Decision (exact_offset ts).
Proof. unfold exact_offset. apply _. Defined.

Lemma from_iso_iso (ts : Timestamp.t) :
  exact_offset ts -> Timestamp.from_iso (Timestamp.iso ts) = Ok ts.
Proof.
  destruct ts as [d]. unfold exact_offset, Timestamp.utcoffset, Timestamp.from_iso, Timestamp.iso.
  cbn [Timestamp.dt]. intros Hex.
  rewrite DatetimeFacts.fromisoformat_isoformat by done. reflexivity.
Qed.

(** The times the program reads are of this kind, and so is every UTC time. *)
Lemma from_iso_exact s ts : Timestamp.from_iso s = Ok ts -> exact_offset ts.
Proof.
  unfold Timestamp.from_iso.
  destruct (Datetime.fromisoformat s) as [d| |] eqn:E; [|done..].
  cbn [mbind result_bind]. intros [= <-].
  by apply (DatetimeFacts.fromisoformat_exact s).
Qed.

Lemma as_str_list_strs (l : list string) :
  PyVal.as_str_list (JArr (JStr <$> l)) = Ok l.
Proof.
  cbn [PyVal.as_str_list]. induction l as [|s l IH]; [done|].
  cbn [fmap list_fmap PyVal.as_str_list_go]. cbn [fmap list_fmap] in IH.
  rewrite IH. reflexivity.
Qed.

Lemma from_dict_to_dict (r : Resource.t) :
  exact_offset (Resource.captured_at r) ->
  Resource.from_dict (Resource.to_dict r) = Ok r.
Proof.
  destruct r as [[i Hi] ttl [u Hu] ts [h] tgs cnt]. cbn [Resource.captured_at]. intros Hex.
  unfold Resource.from_dict, Resource.to_dict.
  cbn [Resource.id Resource.title Resource.url Resource.captured_at
       Resource.content_hash Resource.tags Resource.snippet_count
       ResourceId.str ResourceId.value Url.str Url.value ContentHash.str ContentHash.value].
  cbn [PyVal.getitem PyVal.get PyVal.assoc String.eqb Ascii.eqb Bool.eqb
       mbind result_bind from_option id ResourceId.of_py Url.of_py Timestamp.of_py
       PyVal.as_str PyVal.as_int].
  rewrite (ResourceId_new_ok i Hi). cbn [mbind result_bind].
  rewrite (Url_new_ok u Hu). cbn [mbind result_bind].
  rewrite from_iso_iso by done. cbn [mbind result_bind].
  rewrite as_str_list_strs. reflexivity.
Qed.

(** A resource that [from_dict] returned has a capture time of this kind. *)
Lemma from_dict_exact d r :
  Resource.from_dict d = Ok r -> exact_offset (Resource.captured_at r).
Proof.
  unfold Resource.from_dict.
  destruct (PyVal.getitem d "id") as [id_v| |]; [|done..]. cbn [mbind result_bind].
  destruct (ResourceId.of_py id_v) as [rid| |]; [|done..]. cbn [mbind result_bind].
  destruct (PyVal.getitem d "title") as [title_v| |]; [|done..]. cbn [mbind result_bind].
  destruct (PyVal.getitem d "url") as [url_v| |]; [|done..]. cbn [mbind result_bind].
  destruct (Url.of_py url_v) as [u| |]; [|done..]. cbn [mbind result_bind].
  destruct (PyVal.getitem d "captured_at") as [ts_v| |]; [|done..]. cbn [mbind result_bind].
  destruct (Timestamp.of_py ts_v) as [ts| |] eqn:Ets; [|done..]. cbn [mbind result_bind].
  destruct (PyVal.getitem d "content_hash") as [hash_v| |]; [|done..]. cbn [mbind result_bind].
  destruct (PyVal.get d "tags" (JArr [])) as [tags_v| |]; [|done..]. cbn [mbind result_bind].
  destruct (PyVal.get d "snippet_count" (JInt 0)) as [count_v| |]; [|done..].
  cbn [mbind result_bind].
  destruct (PyVal.as_str title_v) as [ttl| |]; [|done..]. cbn [mbind result_bind].
  destruct (PyVal.as_str hash_v) as [h| |]; [|done..]. cbn [mbind result_bind].
  destruct (PyVal.as_str_list tags_v) as [tgs| |]; [|done..]. cbn [mbind result_bind].
  destruct (PyVal.as_int count_v) as [cnt| |]; [|done..]. cbn [mbind result_bind].
  intros [= <-]. cbn [Resource.captured_at].
  destruct ts_v; try done. by apply (from_iso_exact s).
Qed.

(** The condition, written out *)
Lemma exact_offset_spec ts :
  exact_offset ts
  <-> match Timestamp.utcoffset ts with
      | None => True
      | Some off => off = 0 \/ 1000000 <= Z.abs off
      end.
Proof.
  unfold exact_offset. destruct (Timestamp.utcoffset ts) as [off|]; [|done].
  cbn [Datetime.reread_offset]. destruct (Z.ltb_spec (Z.abs off) 1000000).
  - split; [intros [= <-]; by left|]. intros [->|?]; [done|lia].
  - split; [by right|done].
Qed.

(** C8 (as amended).  [Resource.from_dict(r.to_dict())] returns a resource
    equal to [r] in every field, and the capture time goes through
    [isoformat] and [fromisoformat] unchanged, for every resource whose
    capture time has a UTC offset that is none, zero or at least one second;
    the resources [from_dict] returns are of that kind, as is every UTC
    time. *)
Theorem C8_from_dict_to_dict (r : Resource.t) :
  match Timestamp.utcoffset (Resource.captured_at r) with
  | None => True
  | Some off => off = 0 \/ 1000000 <= Z.abs off
  end ->
  Resource.from_dict (Resource.to_dict r) = Ok r
  /\ Timestamp.from_iso (Timestamp.iso (Resource.captured_at r)) = Ok (Resource.captured_at r)
  /\ forall d r', Resource.from_dict d = Ok r' ->
        Resource.from_dict (Resource.to_dict r') = Ok r'.
Proof.
  intros Hex%exact_offset_spec.
  split; [by apply from_dict_to_dict|]. split; [by apply from_iso_iso|].
  intros d r' Hd. by apply from_dict_to_dict, (from_dict_exact d).
Qed.

(** The claim as it stood ("for every Resource value") fails for a capture
    time whose UTC offset is a fraction of a second: [isoformat] writes the
    offset, [fromisoformat] reads it back as UTC. *)
Lemma C8_subsecond_offset_is_lost :
  let written :=
    Timestamp.Make (Datetime.Make (Datetime.Fields 2024 5 17 12 0 0 0 (Some 1)) I) in
  let read :=
    Timestamp.Make (Datetime.Make (Datetime.Fields 2024 5 17 12 0 0 0 (Some 0)) I) in
  let r ts :=
    Resource.Make (ResourceId.Make "aaaaaaaaaaaa" I) "Doc A"
      (Url.Make "https://example.org/page" I) ts (ContentHash.Make "00") [] 0 in
  Resource.to_dict (r written)
  = JObj [ ("id", JStr "aaaaaaaaaaaa"); ("title", JStr "Doc A");
           ("url", JStr "https://example.org/page");
           ("captured_at", JStr "2024-05-17T12:00:00+00:00:00.000001");
           ("content_hash", JStr "00"); ("tags", JArr []); ("snippet_count", JInt 0) ]
  /\ Resource.from_dict (Resource.to_dict (r written)) = Ok (r read)
  /\ r read <> r written.
Proof.
  cbv zeta. split; [vm_compute; reflexivity|]. split; [vm_compute; reflexivity|].
  intros E. discriminate E.
Qed.

(** ** Dictionaries and counters *)

Module PyDictFacts.

Lemma eqb_decide (a b : string) : String.eqb a b = bool_decide (a = b).
Proof.
  destruct (String.eqb_spec a b); [by rewrite bool_decide_eq_true_2|
                                   by rewrite bool_decide_eq_false_2].
Qed.

Lemma get_set {V} k k' (v : V) d :
  PyDict.get k' (PyDict.set k v d) = if decide (k = k') then Some v else PyDict.get k' d.
Proof.
  induction d as [|[k0 v0] d IH]; simpl.
  - rewrite eqb_decide. destruct (decide (k = k')) as [->|Hne].
    + by rewrite bool_decide_eq_true_2.
    + by rewrite bool_decide_eq_false_2.
  - rewrite !eqb_decide. destruct (decide (k = k0)) as [->|Hk0].
    + rewrite bool_decide_eq_true_2 by done. simpl. rewrite eqb_decide.
      destruct (decide (k0 = k')) as [->|Hne].
      * by rewrite bool_decide_eq_true_2.
      * rewrite !bool_decide_eq_false_2; done.
    + rewrite bool_decide_eq_false_2 by done. simpl. rewrite eqb_decide, IH.
      destruct (decide (k' = k0)) as [->|Hne].
      * rewrite bool_decide_eq_true_2 by done. by rewrite decide_False.
      * rewrite bool_decide_eq_false_2 by done. done.
Qed.

Lemma get_None {V} k (d : PyDict.t V) : PyDict.get k d = None <-> k ∉ PyDict.keys d.
Proof.
  unfold PyDict.keys. induction d as [|[k0 v0] d IH]; simpl.
  - split; [intros _; apply not_elem_of_nil|done].
  - rewrite eqb_decide, not_elem_of_cons. destruct (decide (k = k0)) as [->|Hne].
    + rewrite bool_decide_eq_true_2 by done. split; [done|tauto].
    + rewrite bool_decide_eq_false_2 by done. rewrite IH. tauto.
Qed.

Lemma get_Some_elem {V} k (v : V) d : PyDict.get k d = Some v -> (k, v) ∈ d.
Proof.
  induction d as [|[k0 v0] d IH]; simpl; [done|].
  rewrite eqb_decide. case_bool_decide as Hk.
  - intros [= ->]. subst. apply list_elem_of_here.
  - intros. apply list_elem_of_further. auto.
Qed.

Lemma elem_get {V} k (v : V) d :
  NoDup (PyDict.keys d) -> (k, v) ∈ d -> PyDict.get k d = Some v.
Proof.
  unfold PyDict.keys. induction d as [|[k0 v0] d IH]; simpl.
  - intros _ H. by apply elem_of_nil in H.
  - intros [Hk0 Hnd]%NoDup_cons [H|H]%elem_of_cons.
    + injection H as -> ->. by rewrite String.eqb_refl.
    + rewrite eqb_decide. rewrite bool_decide_eq_false_2; [auto|].
      intros ->. apply Hk0. apply list_elem_of_fmap. by exists (k0, v).
Qed.

Lemma keys_set_in {V} k (v : V) d :
  k ∈ PyDict.keys d -> PyDict.keys (PyDict.set k v d) = PyDict.keys d.
Proof.
  unfold PyDict.keys. induction d as [|[k0 v0] d IH]; cbn [PyDict.set fmap list_fmap fst].
  - intros H. by apply elem_of_nil in H.
  - rewrite eqb_decide. intros Hin. case_bool_decide as Hk; [by subst|].
    cbn [fmap list_fmap fst]. f_equal. apply IH.
    apply elem_of_cons in Hin as [?|?]; done.
Qed.

Lemma keys_set_notin {V} k (v : V) d :
  k ∉ PyDict.keys d -> PyDict.keys (PyDict.set k v d) = PyDict.keys d ++ [k].
Proof.
  unfold PyDict.keys. induction d as [|[k0 v0] d IH]; cbn [PyDict.set fmap list_fmap fst].
  - done.
  - rewrite eqb_decide. intros [Hne Hin]%not_elem_of_cons.
    rewrite bool_decide_eq_false_2 by done.
    cbn [fmap list_fmap fst app]. f_equal. by apply IH.
Qed.

Lemma NoDup_set {V} k (v : V) d :
  NoDup (PyDict.keys d) -> NoDup (PyDict.keys (PyDict.set k v d)).
Proof.
  intros Hnd. destruct (decide (k ∈ PyDict.keys d)) as [Hin|Hin].
  - by rewrite keys_set_in.
  - rewrite keys_set_notin by done.
    apply NoDup_app. split; [done|]. split; [|apply NoDup_singleton].
    intros x Hx ->%list_elem_of_singleton. done.
Qed.

Lemma elem_keys_set {V} k k' (v : V) d :
  k' ∈ PyDict.keys (PyDict.set k v d) <-> k' = k \/ k' ∈ PyDict.keys d.
Proof.
  destruct (decide (k ∈ PyDict.keys d)) as [Hin|Hin].
  - rewrite keys_set_in by done. split; [tauto|]. intros [->|?]; done.
  - rewrite keys_set_notin by done. rewrite elem_of_app, list_elem_of_singleton. tauto.
Qed.

End PyDictFacts.

Module CounterFacts.
Import PyDictFacts.

Lemma get_add c k n k' :
  Counter.get (Counter.add c k n) k'
  = (Counter.get c k' + if decide (k = k') then n else 0)%nat.
Proof.
  unfold Counter.add, Counter.get. rewrite get_set.
  destruct (decide (k = k')) as [->|Hne]; simpl; lia.
Qed.

Lemma NoDup_add c k n : NoDup (PyDict.keys c) -> NoDup (PyDict.keys (Counter.add c k n)).
Proof. apply NoDup_set. Qed.

Lemma elem_keys_add c k n k' :
  k' ∈ PyDict.keys (Counter.add c k n) <-> k' = k \/ k' ∈ PyDict.keys c.
Proof. apply elem_keys_set. Qed.

Lemma get_zero c k : k ∉ PyDict.keys c -> Counter.get c k = 0%nat.
Proof. intros H%get_None. unfold Counter.get. by rewrite H. Qed.

End CounterFacts.

(** ** C9: indexing accumulates *)

(** The occurrence count the index holds for a token and a resource id:
    [self._index[term][rid]], 0 when either key is missing. *)
Definition count_of (ix : JsonlIndexer.t) (term rid : string) : nat :=
  Counter.get (default [] (JsonlIndexer._index ix !! term)) rid.

(** How often [term] occurs in a list of tokens. *)
Definition occurrences (term : string) (terms : list string) : nat :=
  length (filter (fun t => t = term) terms).

Section count_terms.
Import CounterFacts.

Lemma count_term_lookup rid index term t :
  default [] (JsonlIndexer.count_term rid index term !! t)
  = if decide (term = t) then Counter.add (default [] (index !! t)) rid 1
    else default [] (index !! t).
Proof.
  unfold JsonlIndexer.count_term.
  destruct (index !! term) as [c|] eqn:E; cbv beta iota zeta.
  - destruct (decide (term = t)) as [->|Hne].
    + rewrite lookup_insert_eq, ?E. reflexivity.
    + rewrite lookup_insert_ne by done. reflexivity.
  - rewrite lookup_insert_eq. destruct (decide (term = t)) as [->|Hne].
    + rewrite lookup_insert_eq. rewrite E. reflexivity.
    + rewrite !lookup_insert_ne by done. reflexivity.
Qed.

Lemma count_terms_get rid terms index t rid' :
  Counter.get (default [] (JsonlIndexer.count_terms rid terms index !! t)) rid'
  = (Counter.get (default [] (index !! t)) rid'
     + if decide (rid = rid') then occurrences t terms else 0)%nat.
Proof.
  unfold JsonlIndexer.count_terms, occurrences.
  revert index. induction terms as [|term terms IH]; intros index; simpl.
  - case_decide; lia.
  - rewrite IH, count_term_lookup. rewrite filter_cons.
    destruct (decide (term = t)) as [->|Hne].
    + rewrite get_add. destruct (decide (rid = rid')); simpl; lia.
    + destruct (decide (rid = rid')); simpl; lia.
Qed.

Lemma count_of_index_resource ix r content term rid :
  count_of (JsonlIndexer.index_resource ix r content) term rid
  = (count_of ix term rid
     + if decide (ResourceId.value (Resource.id r) = rid)
       then occurrences term
              (JsonlIndexer._tokenize (Resource.title r +:+ " " +:+ content))
       else 0)%nat.
Proof. unfold count_of, JsonlIndexer.index_resource. simpl. apply count_terms_get. Qed.

End count_terms.

Lemma index_resource_other_ids ix r content term other :
  other <> ResourceId.value (Resource.id r) ->
  count_of (JsonlIndexer.index_resource ix r content) term other = count_of ix term other.
Proof.
  intros Hne. rewrite count_of_index_resource. rewrite decide_False by done. lia.
Qed.

(** C9.  [index_resource] adds, for every token and on top of what the index
    already holds, the number of occurrences of the token in the tokenized
    [title + " " + content] to the count of the resource's id: a second call
    with the same arguments adds the same amount again, so that the increase
    after two calls is twice the increase after one, and no count is reset;
    from an index without the id, the count after two calls is twice the
    count after one. *)
Theorem C9_index_resource_accumulates
    (ix : JsonlIndexer.t) (r : Resource.t) (content term : string) :
  let rid := ResourceId.value (Resource.id r) in
  let n := occurrences term (JsonlIndexer._tokenize (Resource.title r +:+ " " +:+ content)) in
  let once := JsonlIndexer.index_resource ix r content in
  let twice := JsonlIndexer.index_resource once r content in
  count_of once term rid = (count_of ix term rid + n)%nat
  /\ count_of twice term rid = (count_of ix term rid + 2 * n)%nat
  /\ (count_of twice term rid + count_of ix term rid = 2 * count_of once term rid)%nat
  /\ count_of JsonlIndexer.empty term rid = 0%nat
  /\ count_of (JsonlIndexer.index_resource
                 (JsonlIndexer.index_resource JsonlIndexer.empty r content) r content)
              term rid
     = (2 * count_of (JsonlIndexer.index_resource JsonlIndexer.empty r content) term rid)%nat.
Proof.
  intros rid n once twice. subst once twice.
  rewrite !count_of_index_resource. fold rid. fold n.
  rewrite !decide_True by done.
  assert (count_of JsonlIndexer.empty term rid = 0%nat) as E0 by reflexivity.
  rewrite E0. repeat split; lia.
Qed.

(** ** C1: ranking by summed counts *)

Module RankingFacts.
Import PyDictFacts CounterFacts.

(** [ge_count x y]: [x] may stand before [y] in a descending ranking. *)
Definition ge_count (x y : string * nat) : Prop := (snd y <= snd x)%nat.

Lemma insert_desc_perm x l : Counter.insert_desc x l ≡ₚ x :: l.
Proof.
  induction l as [|y l IH]; simpl; [done|].
  case_match; [done|]. rewrite IH. apply Permutation_swap.
Qed.

Lemma sorted_desc_perm l : Counter.sorted_desc l ≡ₚ l.
Proof.
  induction l as [|x l IH]; simpl; [done|]. by rewrite insert_desc_perm, IH.
Qed.

Lemma insert_desc_sorted x l :
  StronglySorted ge_count l -> StronglySorted ge_count (Counter.insert_desc x l).
Proof.
  induction 1 as [|y l Hl IH Hy]; simpl.
  - repeat constructor.
  - destruct (Nat.leb_spec (snd y) (snd x)) as [Hle|Hlt].
    + constructor; [by constructor|]. constructor; [done|].
      eapply Forall_impl; [exact Hy|]. unfold ge_count. intros; lia.
    + constructor; [done|]. rewrite insert_desc_perm.
      constructor; [unfold ge_count; lia|done].
Qed.

Lemma sorted_desc_sorted l : StronglySorted ge_count (Counter.sorted_desc l).
Proof.
  induction l as [|x l IH]; simpl; [constructor|]. by apply insert_desc_sorted.
Qed.

(** Python's sort is stable: items of one count keep their order. *)
Lemma insert_desc_stable n x l :
  filter (fun y => snd y = n) (Counter.insert_desc x l)
  = filter (fun y => snd y = n) (x :: l).
Proof.
  induction l as [|y l IH]; simpl; [done|].
  destruct (Nat.leb_spec (snd y) (snd x)) as [Hle|Hlt]; [done|].
  rewrite (filter_cons _ y), IH, !filter_cons.
  repeat case_decide; try done; lia.
Qed.

Lemma sorted_desc_stable n l :
  filter (fun y => snd y = n) (Counter.sorted_desc l) = filter (fun y => snd y = n) l.
Proof.
  induction l as [|x l IH]; simpl; [done|].
  by rewrite insert_desc_stable, !filter_cons, IH.
Qed.

Lemma counter_get_cons k n rest rid :
  Counter.get ((k, n) :: rest) rid = if decide (k = rid) then n else Counter.get rest rid.
Proof.
  unfold Counter.get. simpl. rewrite eqb_decide.
  destruct (decide (k = rid)) as [->|Hne].
  - by rewrite bool_decide_eq_true_2.
  - by rewrite bool_decide_eq_false_2.
Qed.

Lemma add_items_get items : forall sc rid,
  NoDup (PyDict.keys items) ->
  Counter.get (JsonlIndexer.add_items sc items) rid
  = (Counter.get sc rid + Counter.get items rid)%nat.
Proof.
  unfold JsonlIndexer.add_items.
  induction items as [|[k n] items IH]; intros sc rid Hnd; simpl.
  - unfold Counter.get at 3. simpl. lia.
  - apply NoDup_cons in Hnd as [Hk Hnd]. rewrite IH by done.
    rewrite get_add, counter_get_cons.
    destruct (decide (k = rid)) as [->|Hne]; [|lia].
    rewrite (get_zero items rid) by done. lia.
Qed.

Lemma add_items_keys items : forall sc rid,
  rid ∈ PyDict.keys (JsonlIndexer.add_items sc items)
  <-> rid ∈ PyDict.keys sc \/ rid ∈ PyDict.keys items.
Proof.
  unfold JsonlIndexer.add_items.
  induction items as [|[k n] items IH]; intros sc rid; simpl.
  - split; [tauto|]. intros [?|H]; [done|]. by apply elem_of_nil in H.
  - rewrite IH, elem_keys_add. unfold PyDict.keys at 4. simpl.
    rewrite elem_of_cons. unfold PyDict.keys. tauto.
Qed.

Lemma add_items_NoDup items : forall sc,
  NoDup (PyDict.keys sc) -> NoDup (PyDict.keys (JsonlIndexer.add_items sc items)).
Proof.
  unfold JsonlIndexer.add_items.
  induction items as [|[k n] items IH]; intros sc Hsc; simpl; [done|].
  apply IH. by apply NoDup_add.
Qed.

End RankingFacts.

(** The summed count of a resource id over the tokens of a query. *)
Definition score (ix : JsonlIndexer.t) (terms : list string) (rid : string) : nat :=
  sum_list ((fun t => count_of ix t rid) <$> terms).

(** [rid] has an entry under one of the tokens. *)
Definition posted (ix : JsonlIndexer.t) (terms : list string) (rid : string) : Prop :=
  exists t, t ∈ terms /\ rid ∈ PyDict.keys (default [] (JsonlIndexer._index ix !! t)).

(** What the list representation of the index's dicts has to satisfy: no
    key twice in a counter, and only ids of [ResourceId] values as keys. *)
Definition index_wf (ix : JsonlIndexer.t) : Prop :=
  forall t c, JsonlIndexer._index ix !! t = Some c ->
    NoDup (PyDict.keys c)
    /\ Forall (fun rid => Is_true (PyStr.fullmatch_hex_8_16 rid)) (PyDict.keys c).

Section search.
Import PyDictFacts CounterFacts RankingFacts.
Variable ix : JsonlIndexer.t.
Hypothesis Hwf : index_wf ix.

Lemma score_term_get sc term rid :
  Counter.get (JsonlIndexer.score_term (JsonlIndexer._index ix) sc term) rid
  = (Counter.get sc rid + count_of ix term rid)%nat.
Proof.
  unfold JsonlIndexer.score_term, count_of.
  destruct (JsonlIndexer._index ix !! term) as [c|] eqn:E; simpl.
  - apply add_items_get. by apply (Hwf term).
  - unfold Counter.get at 3. simpl. lia.
Qed.

Lemma scores_get terms : forall sc rid,
  Counter.get (foldl (JsonlIndexer.score_term (JsonlIndexer._index ix)) sc terms) rid
  = (Counter.get sc rid + score ix terms rid)%nat.
Proof.
  unfold score. induction terms as [|t terms IH]; intros sc rid.
  - unfold Counter.get. cbn. lia.
  - cbn [foldl fmap list_fmap]. rewrite IH, score_term_get.
    change (sum_list (?x :: ?l)) with (x + sum_list l)%nat. lia.
Qed.

Lemma scores_keys terms : forall sc rid,
  rid ∈ PyDict.keys (foldl (JsonlIndexer.score_term (JsonlIndexer._index ix)) sc terms)
  <-> rid ∈ PyDict.keys sc \/ posted ix terms rid.
Proof.
  unfold posted. induction terms as [|t terms IH]; intros sc rid; simpl.
  - split; [tauto|]. intros [?|(t & Ht & _)]; [done|]. by apply elem_of_nil in Ht.
  - rewrite IH. unfold JsonlIndexer.score_term.
    destruct (JsonlIndexer._index ix !! t) as [c|] eqn:E.
    + rewrite add_items_keys. split.
      * intros [[?|Hc]|(t' & Ht' & Hin)]; [tauto| |].
        -- right. exists t. rewrite E. split; [apply list_elem_of_here|done].
        -- right. exists t'. split; [by apply list_elem_of_further|done].
      * intros [?|(t' & Ht' & Hin)]; [tauto|].
        apply elem_of_cons in Ht' as [->|Ht'].
        -- rewrite E in Hin. tauto.
        -- right. by exists t'.
    + split.
      * intros [?|(t' & Ht' & Hin)]; [tauto|].
        right. exists t'. split; [by apply list_elem_of_further|done].
      * intros [?|(t' & Ht' & Hin)]; [tauto|].
        apply elem_of_cons in Ht' as [->|Ht'].
        -- rewrite E in Hin. by apply elem_of_nil in Hin.
        -- right. by exists t'.
Qed.

Lemma scores_NoDup terms : forall sc,
  NoDup (PyDict.keys sc) ->
  NoDup (PyDict.keys (foldl (JsonlIndexer.score_term (JsonlIndexer._index ix)) sc terms)).
Proof.
  induction terms as [|t terms IH]; intros sc Hsc; simpl; [done|].
  apply IH. unfold JsonlIndexer.score_term. case_match; [|done].
  by apply add_items_NoDup.
Qed.

Lemma posted_valid terms rid :
  posted ix terms rid -> Is_true (PyStr.fullmatch_hex_8_16 rid).
Proof.
  intros (t & _ & Hin). destruct (JsonlIndexer._index ix !! t) as [c|] eqn:E.
  - destruct (Hwf t c E) as [_ Hv]. rewrite Forall_forall in Hv. by apply Hv.
  - by apply elem_of_nil in Hin.
Qed.

End search.

Lemma make_ids_ok rids :
  Forall (fun rid => Is_true (PyStr.fullmatch_hex_8_16 rid)) rids ->
  exists ids, JsonlIndexer.make_ids rids = Ok ids /\ ResourceId.value <$> ids = rids.
Proof.
  induction 1 as [|rid rids Hrid _ (ids & Hids & Hv)]; simpl.
  - by exists [].
  - rewrite (ResourceId_new_ok rid Hrid). simpl. rewrite Hids. simpl.
    eexists. split; [done|]. cbn [fmap list_fmap]. cbn [fmap] in Hv. by rewrite Hv.
Qed.

Lemma StronglySorted_fst_scores (f : string -> nat) (l : list (string * nat)) :
  (forall x, x ∈ l -> snd x = f (fst x)) ->
  StronglySorted RankingFacts.ge_count l ->
  StronglySorted (fun a b => (f b <= f a)%nat) (fst <$> l).
Proof.
  intros Hf Hs. induction Hs as [|x l Hl IH Hx]; simpl; [constructor|].
  constructor.
  - apply IH. intros y Hy. apply Hf. by apply list_elem_of_further.
  - rewrite Forall_fmap. rewrite Forall_forall in Hx |- *. intros y Hy. simpl.
    specialize (Hx y Hy). unfold RankingFacts.ge_count in Hx.
    rewrite <- (Hf x), <- (Hf y); [done|by apply list_elem_of_further|apply list_elem_of_here].
Qed.

(** The ranking [search_local] cuts its answer from. *)
Lemma search_local_ranking ix query top_k :
  index_wf ix ->
  let terms := JsonlIndexer._tokenize query in
  exists (ranked : list string) (ids : list ResourceId.t),
    JsonlIndexer.search_local ix query top_k = Ok ids
    /\ ResourceId.value <$> ids = take (Z.to_nat top_k) ranked
    /\ NoDup ranked
    /\ (forall rid, rid ∈ ranked <-> posted ix terms rid)
    /\ StronglySorted (fun a b => (score ix terms b <= score ix terms a)%nat) ranked
    /\ (forall rid id, posted ix terms rid -> rid ∉ ResourceId.value <$> ids -> id ∈ ids ->
          (score ix terms rid <= score ix terms (ResourceId.value id))%nat).
Proof.
  intros Hwf terms. unfold JsonlIndexer.search_local. fold terms.
  set (scores := foldl (JsonlIndexer.score_term (JsonlIndexer._index ix)) [] terms).
  assert (NoDup (PyDict.keys scores)) as Hnd by (apply scores_NoDup; constructor).
  assert (forall rid, rid ∈ PyDict.keys scores <-> posted ix terms rid) as Hkeys.
  { intros rid. unfold scores. rewrite scores_keys. split; [|tauto].
    intros [H|?]; [|done]. by apply elem_of_nil in H. }
  assert (forall x, x ∈ scores -> snd x = score ix terms (fst x)) as Hval.
  { intros [rid n] Hx. simpl.
    pose proof (PyDictFacts.elem_get rid n scores Hnd Hx) as Hget.
    pose proof (scores_get ix Hwf terms [] rid) as Hsc. fold scores in Hsc.
    unfold Counter.get in Hsc. rewrite Hget in Hsc. simpl in Hsc. exact Hsc. }
  pose proof (RankingFacts.sorted_desc_perm scores) as Hperm.
  set (ranked := fst <$> Counter.sorted_desc scores).
  assert (ranked ≡ₚ PyDict.keys scores) as Hrk.
  { unfold ranked, PyDict.keys. by rewrite Hperm. }
  destruct (make_ids_ok (take (Z.to_nat top_k) ranked)) as (ids & Hids & Hv).
  { apply Forall_take, Forall_forall. intros rid Hrid.
    apply (posted_valid ix Hwf terms), Hkeys. by rewrite <- Hrk. }
  assert (StronglySorted (fun a b => (score ix terms b <= score ix terms a)%nat) ranked)
    as Hsorted.
  { apply StronglySorted_fst_scores; [|apply RankingFacts.sorted_desc_sorted].
    intros x Hx. apply Hval. by rewrite <- Hperm. }
  exists ranked, ids. split; [|split; [done|split; [|split; [|split; [done|]]]]].
  - unfold Counter.most_common. rewrite fmap_take. exact Hids.
  - by rewrite Hrk.
  - intros rid. by rewrite Hrk.
  - intros rid id Hposted Hout Hid. rewrite Hv in Hout.
    assert (rid ∈ ranked) as Hin by (rewrite Hrk; by apply Hkeys).
    rewrite <- (take_drop (Z.to_nat top_k) ranked) in Hin, Hsorted.
    apply elem_of_app in Hin as [Hin|Hin]; [done|].
    apply (StronglySorted_app_1_elem_of _ _ _ _ _ Hsorted); [|done].
    rewrite <- Hv. apply list_elem_of_fmap. by exists id.
Qed.

(** ** The tokenizer on [title + " " + content] *)

Module TokenizeFacts.

Lemma append_cons c a b : String c a +:+ b = String c (a +:+ b).
Proof. reflexivity. Qed.

Lemma append_nil b : "" +:+ b = b.
Proof. reflexivity. Qed.

Lemma lower_append a b : PyStr.lower (a +:+ b) = PyStr.lower a +:+ PyStr.lower b.
Proof.
  induction a as [|c a IH]; [done|].
  rewrite append_cons. cbn [PyStr.lower]. rewrite append_cons. by f_equal.
Qed.

Lemma findall_go_space cur a b :
  PyStr.findall_go cur (a +:+ String " " b)
  = PyStr.findall_go cur a ++ PyStr.findall_go "" b.
Proof.
  revert cur. induction a as [|c a IH]; intros cur.
  - rewrite append_nil. cbn [PyStr.findall_go].
    change (PyStr.is_lower_alnum " ") with false. cbv iota. reflexivity.
  - rewrite append_cons. cbn [PyStr.findall_go].
    destruct (PyStr.is_lower_alnum c); rewrite IH; [done|].
    by rewrite app_assoc.
Qed.

Lemma tokenize_join a b :
  JsonlIndexer._tokenize (a +:+ " " +:+ b)
  = JsonlIndexer._tokenize a ++ JsonlIndexer._tokenize b.
Proof.
  unfold JsonlIndexer._tokenize, PyStr.findall_lower_alnum.
  rewrite !lower_append. change (PyStr.lower " ") with " ".
  change (" " +:+ PyStr.lower b) with (String " " (PyStr.lower b)).
  by rewrite findall_go_space, filter_app.
Qed.

Lemma occurrences_app t l1 l2 :
  occurrences t (l1 ++ l2) = (occurrences t l1 + occurrences t l2)%nat.
Proof. unfold occurrences. by rewrite filter_app, length_app. Qed.

Lemma occurrences_none t l : t ∉ l -> occurrences t l = 0%nat.
Proof.
  unfold occurrences. induction l as [|x l IH]; [done|].
  intros [Hne Hl]%not_elem_of_cons. rewrite filter_cons.
  rewrite decide_False by done. auto.
Qed.

End TokenizeFacts.

(** ** The exact counter [index_resource] leaves under a token *)

Section count_terms_exact.
Import PyDictFacts CounterFacts.

Definition bump (rid : string) (c : list (string * nat)) : list (string * nat) :=
  Counter.add c rid 1.

Lemma count_terms_lookup rid terms : forall index t,
  default [] (JsonlIndexer.count_terms rid terms index !! t)
  = Nat.iter (occurrences t terms) (bump rid) (default [] (index !! t)).
Proof.
  unfold JsonlIndexer.count_terms, occurrences.
  induction terms as [|term terms IH]; intros index t; [done|].
  cbn [foldl]. rewrite IH, count_term_lookup, filter_cons.
  destruct (decide (term = t)) as [->|Hne]; [|done].
  cbn [length]. by rewrite Nat.iter_succ_r.
Qed.

Lemma count_terms_Some rid terms index t c :
  JsonlIndexer.count_terms rid terms index !! t = Some c ->
  c = Nat.iter (occurrences t terms) (bump rid) (default [] (index !! t)).
Proof. intros E. rewrite <- count_terms_lookup, E. done. Qed.

Lemma bump_wf rid c :
  Is_true (PyStr.fullmatch_hex_8_16 rid) ->
  NoDup (PyDict.keys c)
  /\ Forall (fun r => Is_true (PyStr.fullmatch_hex_8_16 r)) (PyDict.keys c) ->
  NoDup (PyDict.keys (bump rid c))
  /\ Forall (fun r => Is_true (PyStr.fullmatch_hex_8_16 r)) (PyDict.keys (bump rid c)).
Proof.
  intros Hrid [Hnd Hv]. split; [by apply NoDup_add|].
  apply Forall_forall. intros r [->|Hr]%elem_keys_add; [done|].
  rewrite Forall_forall in Hv. auto.
Qed.

Lemma index_wf_empty : index_wf JsonlIndexer.empty.
Proof. intros t c E. cbn [JsonlIndexer._index JsonlIndexer.empty] in E. by rewrite lookup_empty in E. Qed.

Lemma index_wf_count_terms rid terms ix resources :
  Is_true (PyStr.fullmatch_hex_8_16 rid) ->
  index_wf ix ->
  index_wf (JsonlIndexer.Make (JsonlIndexer.count_terms rid terms (JsonlIndexer._index ix))
                              resources).
Proof.
  intros Hrid Hwf t c E. cbn [JsonlIndexer._index] in E.
  apply count_terms_Some in E as ->.
  assert (NoDup (PyDict.keys (default [] (JsonlIndexer._index ix !! t)))
          /\ Forall (fun r => Is_true (PyStr.fullmatch_hex_8_16 r))
               (PyDict.keys (default [] (JsonlIndexer._index ix !! t)))) as H0.
  { destruct (JsonlIndexer._index ix !! t) as [c0|] eqn:E0; [by apply (Hwf t)|].
    split; constructor. }
  induction (occurrences t terms) as [|n IH]; [done|].
  rewrite Nat.iter_succ. by apply bump_wf.
Qed.

Lemma index_wf_index_resource ix r content :
  index_wf ix -> index_wf (JsonlIndexer.index_resource ix r content).
Proof.
  intros Hwf. apply index_wf_count_terms; [|done].
  apply (ResourceId.post_init (Resource.id r)).
Qed.

End count_terms_exact.

Lemma ResourceId_new_value (r : ResourceId.t) : ResourceId.new (ResourceId.value r) = Ok r.
Proof. destruct r as [s H]. apply ResourceId_new_ok. Qed.

Lemma add_fresh a n : Counter.add [] a n = [(a, n)].
Proof. reflexivity. Qed.

Lemma add_same a m n : Counter.add [(a, m)] a n = [(a, (m + n)%nat)].
Proof.
  unfold Counter.add, Counter.get. cbn [PyDict.get PyDict.set].
  rewrite String.eqb_refl. reflexivity.
Qed.

Lemma add_other a b m n : a <> b -> Counter.add [(a, m)] b n = [(a, m); (b, n)].
Proof.
  intros Hne. unfold Counter.add, Counter.get. cbn [PyDict.get PyDict.set].
  assert (String.eqb b a = false) as -> by (apply String.eqb_neq; congruence).
  reflexivity.
Qed.

(** The scenario of C1: A indexed with body "alpha beta beta", then B with
    body "beta", titles without the token "beta"; a search for "beta" with
    room for two answers returns A, then B. *)
Lemma search_beta_scenario (A B : Resource.t) (top_k : Z) :
  ResourceId.value (Resource.id A) <> ResourceId.value (Resource.id B) ->
  "beta" ∉ JsonlIndexer._tokenize (Resource.title A) ->
  "beta" ∉ JsonlIndexer._tokenize (Resource.title B) ->
  2 <= top_k ->
  JsonlIndexer.search_local
    (JsonlIndexer.index_resource
       (JsonlIndexer.index_resource JsonlIndexer.empty A "alpha beta beta") B "beta")
    "beta" top_k
  = Ok [Resource.id A; Resource.id B].
Proof.
  intros Hne HA HB Hk.
  unfold JsonlIndexer.search_local.
  change (JsonlIndexer._tokenize "beta") with ["beta"].
  cbn [foldl]. unfold JsonlIndexer.score_term.
  assert (default [] (JsonlIndexer._index
            (JsonlIndexer.index_resource
               (JsonlIndexer.index_resource JsonlIndexer.empty A "alpha beta beta") B "beta")
            !! "beta")
          = [(ResourceId.value (Resource.id A), 2%nat);
             (ResourceId.value (Resource.id B), 1%nat)]) as Hc.
  { unfold JsonlIndexer.index_resource, ResourceId.str.
    cbn [JsonlIndexer._index JsonlIndexer.empty].
    rewrite !count_terms_lookup, !TokenizeFacts.tokenize_join.
    rewrite !TokenizeFacts.occurrences_app.
    rewrite (TokenizeFacts.occurrences_none _ _ HA), (TokenizeFacts.occurrences_none _ _ HB).
    change (occurrences "beta" (JsonlIndexer._tokenize "alpha beta beta")) with 2%nat.
    change (occurrences "beta" (JsonlIndexer._tokenize "beta")) with 1%nat.
    rewrite lookup_empty. cbn [Nat.add Nat.iter nat_rect default from_option id].
    unfold bump. rewrite add_fresh, add_same, add_other by done. reflexivity. }
  destruct (JsonlIndexer._index _ !! "beta") as [c|] eqn:E; [|done].
  cbn [default from_option id] in Hc. subst c.
  unfold JsonlIndexer.add_items. cbn [foldl].
  rewrite add_fresh, add_other by done.
  unfold Counter.most_common.
  cbn [Counter.sorted_desc Counter.insert_desc snd Nat.leb].
  destruct (Z.to_nat top_k) as [|[|n]] eqn:En; [lia|lia|].
  cbn [take fmap list_fmap fst JsonlIndexer.make_ids].
  rewrite !ResourceId_new_value. rewrite take_nil. reflexivity.
Qed.

(** C1.  For an index whose counters are dicts of resource ids, [search_local]
    returns; its answer is the first [top_k] entries of a ranking in which no
    id stands twice, which holds exactly the ids that have an entry under a
    token of the query (tokenized by [_tokenize], as in [index_resource]), and
    which is in descending order of the id's counts summed over the tokens of
    the query; so an id with an entry that is left out has a summed count no
    larger than any id of the answer.  The scenario: after indexing A with
    body [alpha beta beta] and B with body [beta], titles without the token
    [beta], a search for [beta] returns A before B. *)
Theorem C1_search_local_ranks_by_summed_count :
  (forall (ix : JsonlIndexer.t) (query : string) (top_k : Z),
     index_wf ix ->
     let terms := JsonlIndexer._tokenize query in
     exists (ranked : list string) (ids : list ResourceId.t),
       JsonlIndexer.search_local ix query top_k = Ok ids
       /\ ResourceId.value <$> ids = take (Z.to_nat top_k) ranked
       /\ NoDup ranked
       /\ (forall rid, rid ∈ ranked <-> posted ix terms rid)
       /\ StronglySorted (fun a b => (score ix terms b <= score ix terms a)%nat) ranked
       /\ (forall rid id, posted ix terms rid -> rid ∉ ResourceId.value <$> ids -> id ∈ ids ->
             (score ix terms rid <= score ix terms (ResourceId.value id))%nat))
  /\ (forall (A B : Resource.t) (top_k : Z),
       ResourceId.value (Resource.id A) <> ResourceId.value (Resource.id B) ->
       "beta" ∉ JsonlIndexer._tokenize (Resource.title A) ->
       "beta" ∉ JsonlIndexer._tokenize (Resource.title B) ->
       2 <= top_k ->
       let ix := JsonlIndexer.index_resource
                   (JsonlIndexer.index_resource JsonlIndexer.empty A "alpha beta beta")
                   B "beta" in
       index_wf ix
       /\ score ix (JsonlIndexer._tokenize "beta") (ResourceId.value (Resource.id A)) = 2%nat
       /\ score ix (JsonlIndexer._tokenize "beta") (ResourceId.value (Resource.id B)) = 1%nat
       /\ JsonlIndexer.search_local ix "beta" top_k = Ok [Resource.id A; Resource.id B]).
Proof.
  split; [intros; by apply search_local_ranking|].
  intros A B top_k Hne HA HB Hk ix.
  split; [do 2 apply index_wf_index_resource; apply index_wf_empty|].
  split; [|split; [|by apply search_beta_scenario]].
  - subst ix. change (JsonlIndexer._tokenize "beta") with ["beta"].
    unfold score. cbn [fmap list_fmap]. change (sum_list [?x]) with (x + 0)%nat.
    rewrite !count_of_index_resource, !TokenizeFacts.tokenize_join.
    rewrite !TokenizeFacts.occurrences_app.
    rewrite (TokenizeFacts.occurrences_none _ _ HA), (TokenizeFacts.occurrences_none _ _ HB).
    repeat destruct (decide _); try congruence; reflexivity.
  - subst ix. change (JsonlIndexer._tokenize "beta") with ["beta"].
    unfold score. cbn [fmap list_fmap]. change (sum_list [?x]) with (x + 0)%nat.
    rewrite !count_of_index_resource, !TokenizeFacts.tokenize_join.
    rewrite !TokenizeFacts.occurrences_app.
    rewrite (TokenizeFacts.occurrences_none _ _ HA), (TokenizeFacts.occurrences_none _ _ HB).
    repeat destruct (decide _); try congruence; reflexivity.
Qed.

(** ** The index [1] in [stripped.split(":", 1)[1]] is in range *)

Lemma lower_char_colon c : Ascii.eqb (PyStr.lower_char c) ":" = Ascii.eqb c ":".
Proof. destruct c as [[] [] [] [] [] [] [] []]; reflexivity. Qed.

Lemma split1_cons_other c s :
  Ascii.eqb c ":" = false ->
  PyStr.split1 ":" (String c s)
  = match PyStr.split1 ":" s with
    | [] => [String c ""]
    | w :: ws => String c w :: ws
    end.
Proof. intros Hc. cbn [PyStr.split1]. by rewrite Hc. Qed.

Lemma prefix_cons_inv a p c s :
  String.prefix (String a p) (String c s) = true -> a = c /\ String.prefix p s = true.
Proof. cbn [String.prefix]. destruct (ascii_dec a c); [done|discriminate]. Qed.

(** Under the guard [stripped.lower().startswith("title:")] the split has two
    parts, and the second is what follows the sixth character. *)
Lemma split1_title_field s :
  PyStr.startswith "title:" (PyStr.lower s) = true ->
  exists key, PyStr.split1 ":" s = [key; PyStr.slice_from 6 s]
    /\ nth 1 (PyStr.split1 ":" s) "" = PyStr.slice_from 6 s.
Proof.
  unfold PyStr.startswith. intros Hp.
  destruct s as [|c1 s]; [by cbn in Hp|].
  cbn [PyStr.lower] in Hp. apply prefix_cons_inv in Hp as [H1 Hp].
  destruct s as [|c2 s]; [by cbn in Hp|].
  cbn [PyStr.lower] in Hp. apply prefix_cons_inv in Hp as [H2 Hp].
  destruct s as [|c3 s]; [by cbn in Hp|].
  cbn [PyStr.lower] in Hp. apply prefix_cons_inv in Hp as [H3 Hp].
  destruct s as [|c4 s]; [by cbn in Hp|].
  cbn [PyStr.lower] in Hp. apply prefix_cons_inv in Hp as [H4 Hp].
  destruct s as [|c5 s]; [by cbn in Hp|].
  cbn [PyStr.lower] in Hp. apply prefix_cons_inv in Hp as [H5 Hp].
  destruct s as [|c6 rest]; [by cbn in Hp|].
  cbn [PyStr.lower] in Hp. apply prefix_cons_inv in Hp as [H6 _].
  assert (forall c x, x = PyStr.lower_char c -> Ascii.eqb x ":" = false ->
                      Ascii.eqb c ":" = false) as Hother.
  { intros c x -> Hx. by rewrite <- lower_char_colon. }
  assert (Ascii.eqb c6 ":" = true) as E6 by (rewrite <- lower_char_colon, <- H6; reflexivity).
  rewrite (split1_cons_other c1), (split1_cons_other c2), (split1_cons_other c3),
    (split1_cons_other c4), (split1_cons_other c5)
    by (eapply Hother; [eassumption|reflexivity]).
  cbn [PyStr.split1]. rewrite E6. eexists. split; reflexivity.
Qed.

(** ** C7: what the title scan returns *)

Module TitleFacts.
Import Title.

(** A level-1 heading line, and its text. *)
Definition heading (line : string) : bool :=
  PyStr.startswith "# " (PyStr.strip line).
Definition heading_text (line : string) : string :=
  PyStr.strip (PyStr.slice_from 2 (PyStr.strip line)).

(** A non-empty line under 200 characters. *)
Definition short_line (line : string) : bool :=
  negb (bool_decide (PyStr.strip line = "")) && (PyStr.len (PyStr.strip line) <? 200).

(** The same, for the scan of a body after frontmatter: lines that start
    with a delimiter do not count. *)
Definition short_body_line (line : string) : bool :=
  negb (bool_decide (PyStr.strip line = ""))
  && negb (PyStr.startswith "---" (PyStr.strip line)
           || PyStr.startswith "+++" (PyStr.strip line))
  && (PyStr.len (PyStr.strip line) <? 200).

Definition NL : string := String nl "".

Lemma scan_all_skip before rest :
  Forall (fun l => heading l = false /\ short_line l = false) before ->
  scan_all (before ++ rest) = scan_all rest.
Proof.
  induction 1 as [|l before [Hh Hs] _ IH]; [done|].
  cbn [app scan_all]. unfold heading in Hh. unfold short_line in Hs.
  by rewrite Hh, Hs.
Qed.

Lemma scan_all_heading h rest :
  heading h = true -> scan_all (h :: rest) = Some (heading_text h).
Proof. unfold heading. intros Hh. cbn [scan_all]. by rewrite Hh. Qed.

Lemma scan_all_short l rest :
  heading l = false -> short_line l = true -> scan_all (l :: rest) = Some (PyStr.strip l).
Proof.
  unfold heading, short_line. intros Hh Hs. cbn [scan_all]. by rewrite Hh, Hs.
Qed.

Lemma scan_body_skip before rest :
  Forall (fun l => heading l = false /\ short_body_line l = false) before ->
  scan_body (before ++ rest) = scan_body rest.
Proof.
  induction 1 as [|l before [Hh Hs] _ IH]; [done|].
  cbn [app scan_body]. unfold heading in Hh. unfold short_body_line in Hs.
  by rewrite Hh, Hs.
Qed.

Lemma scan_body_heading h rest :
  heading h = true -> scan_body (h :: rest) = Some (heading_text h).
Proof. unfold heading. intros Hh. cbn [scan_body]. by rewrite Hh. Qed.

Lemma scan_body_short l rest :
  heading l = false -> short_body_line l = true ->
  scan_body (l :: rest) = Some (PyStr.strip l).
Proof.
  unfold heading, short_body_line. intros Hh Hs. cbn [scan_body]. by rewrite Hh, Hs.
Qed.

(** Without frontmatter the title is what the last loop finds. *)
Lemma extract_title_plain content fallback :
  is_delimiter (PyStr.strip (hd "" (PyStr.split nl content))) = false ->
  _extract_title content fallback
  = default fallback (scan_all (PyStr.split nl content)).
Proof.
  unfold _extract_title. destruct (PyStr.split nl content) as [|first rest]; [done|].
  cbn [hd]. intros ->. reflexivity.
Qed.

(** With frontmatter that has no usable [title:] field, the title is what
    the scan of the body finds, if it finds anything. *)
Lemma extract_title_body content fallback first rest t :
  PyStr.split nl content = first :: rest ->
  is_delimiter (PyStr.strip first) = true ->
  frontmatter_title (PyStr.strip first) rest = None ->
  scan_body (drop (body_start (PyStr.strip first) 1 rest) (first :: rest)) = Some t ->
  _extract_title content fallback = t.
Proof.
  unfold _extract_title. intros -> -> -> ->. reflexivity.
Qed.



End TitleFacts.

(** C7 (as amended).  The scan returns the text of the first level-1 heading
    when no non-empty line under 200 characters stands before it in the
    scanned region (the whole document without frontmatter; the body after a
    frontmatter block that gave no title, where lines starting with a
    delimiter do not count); when such a line stands before every heading,
    that line, stripped, is the title.  The scenario: the document that
    starts with the heading [# My Heading] has the title [My Heading]. *)
Theorem C7_title_scan :
  (forall content fallback before h after,
     PyStr.split Title.nl content = before ++ h :: after ->
     Title.is_delimiter (PyStr.strip (hd "" (PyStr.split Title.nl content))) = false ->
     Forall (fun l => TitleFacts.heading l = false /\ TitleFacts.short_line l = false) before ->
     (TitleFacts.heading h = true ->
        Title._extract_title content fallback = TitleFacts.heading_text h)
     /\ (TitleFacts.heading h = false -> TitleFacts.short_line h = true ->
        Title._extract_title content fallback = PyStr.strip h))
  /\ (forall content fallback first rest before h after,
     PyStr.split Title.nl content = first :: rest ->
     Title.is_delimiter (PyStr.strip first) = true ->
     Title.frontmatter_title (PyStr.strip first) rest = None ->
     drop (Title.body_start (PyStr.strip first) 1 rest) (first :: rest) = before ++ h :: after ->
     Forall (fun l => TitleFacts.heading l = false /\ TitleFacts.short_body_line l = false) before ->
     (TitleFacts.heading h = true ->
        Title._extract_title content fallback = TitleFacts.heading_text h)
     /\ (TitleFacts.heading h = false -> TitleFacts.short_body_line h = true ->
        Title._extract_title content fallback = PyStr.strip h))
  /\ (forall fallback,
        Title._extract_title ("# My Heading" +:+ TitleFacts.NL +:+ "body") fallback
        = "My Heading").
Proof.
  split; [|split].
  - intros content fallback before h after Hsplit Hplain Hskip.
    rewrite (TitleFacts.extract_title_plain _ _ Hplain), Hsplit.
    rewrite (TitleFacts.scan_all_skip _ _ Hskip). split.
    + intros Hh. by rewrite TitleFacts.scan_all_heading.
    + intros Hh Hs. by rewrite TitleFacts.scan_all_short.
  - intros content fallback first rest before h after Hsplit Hd Hfm Hdrop Hskip. split.
    + intros Hh. apply (TitleFacts.extract_title_body _ _ first rest); try done.
      rewrite Hdrop, (TitleFacts.scan_body_skip _ _ Hskip).
      by apply TitleFacts.scan_body_heading.
    + intros Hh Hs. apply (TitleFacts.extract_title_body _ _ first rest); try done.
      rewrite Hdrop, (TitleFacts.scan_body_skip _ _ Hskip).
      by apply TitleFacts.scan_body_short.
  - intros fallback. reflexivity.
Qed.

(** C7 (as stated) fails: a short line before the heading is the title. *)
Lemma C7_text_before_heading :
  let content := "intro" +:+ TitleFacts.NL +:+ "# My Heading" in
  PyStr.split Title.nl content = ["intro"; "# My Heading"]
  /\ TitleFacts.heading "# My Heading" = true
  /\ TitleFacts.heading_text "# My Heading" = "My Heading"
  /\ Title._extract_title content "fallback" = "intro"
  /\ Title._extract_title content "fallback" <> "My Heading".
Proof. repeat split; try reflexivity. discriminate. Qed.

(** The witness of C7: the first clause at the counterexample's document
    (the short line wins), the second at a document with frontmatter. *)
Lemma C7_title_scan_witness :
  Title._extract_title ("intro" +:+ TitleFacts.NL +:+ "# My Heading") "fallback" = "intro"
  /\ Title._extract_title
       ("---" +:+ TitleFacts.NL +:+ "author: me" +:+ TitleFacts.NL +:+ "---"
        +:+ TitleFacts.NL +:+ TitleFacts.NL +:+ "# Notes" +:+ TitleFacts.NL +:+ "text")
       "fallback" = "Notes".
Proof.
  destruct C7_title_scan as (Hplain & Hbody & _). split.
  - refine (proj2 (Hplain _ "fallback" [] "intro" ["# My Heading"] _ _ _) _ _);
      try reflexivity. constructor.
  - refine (proj1 (Hbody _ "fallback" "---" ["author: me"; "---"; ""; "# Notes"; "text"]
                     [""] "# Notes" ["text"] _ _ _ _ _) _); try reflexivity.
    repeat constructor.
Defined.

(** ** C2 and C4: IngestResource.execute *)

Section ingest.
Context `{Json} `{Snapshotter} `{Clock} `{OsPath}.

Definition is_url (source : string) : bool :=
  PyStr.startswith "http://" source || PyStr.startswith "https://" source.

Lemma Url_new_url source :
  is_url source = true -> exists u, Url.new source = Ok u /\ Url.value u = source.
Proof.
  intros Hu.
  assert (Is_true (Url.valid source)) as Hv.
  { apply Is_true_true. unfold Url.valid. unfold is_url in Hu. by rewrite Hu. }
  eexists. split; [apply (Url_new_ok _ Hv)|done].
Qed.

Lemma Url_new_file path :
  exists u, Url.new ("file://" +:+ path) = Ok u /\ Url.value u = "file://" +:+ path.
Proof.
  assert (Is_true (Url.valid ("file://" +:+ path))) as Hv.
  { apply Is_true_true. unfold Url.valid, PyStr.startswith.
    change ("file://" +:+ path)
      with (String "f" (String "i" (String "l" (String "e" (String ":"
             (String "/" (String "/" path))))))).
    cbn [String.prefix]. destruct path; reflexivity. }
  eexists. split; [apply (Url_new_ok _ Hv)|done].
Qed.

Lemma existing_absent w rid :
  FilesystemStore.resource_exists (fs w) rid = false ->
  IngestResource.existing rid w = (Ok None, w).
Proof.
  intros He. unfold IngestResource.existing, mbind, M_bind, st_bind, st_get.
  rewrite He. reflexivity.
Qed.

(** A URL that is not in the store and whose capture is blank. *)
Lemma execute_url_blank w source :
  is_url source = true ->
  (forall rid, ResourceId.from_url source = Ok rid ->
     FilesystemStore.resource_exists (fs w) rid = false) ->
  PyStr.strip (default "" (fst (capture source))) = "" ->
  IngestResource.execute source w
  = (Raise (ValueError "No content could be extracted from the source."), w).
Proof.
  intros Hu Hnew Hblank. unfold IngestResource.execute. fold (is_url source). rewrite Hu.
  destruct (from_url_ok source) as (rid & Hrid & _).
  destruct (Url_new_url source Hu) as (u & Hnu & _).
  unfold mbind, M_bind, st_bind, st_lift. rewrite Hrid.
  rewrite (existing_absent w rid (Hnew rid Hrid)).
  destruct (capture source) as [text raw_html]. cbn [fst] in Hblank.
  rewrite Hnu. unfold IngestResource.store_and_index.
  rewrite decide_True by done. reflexivity.
Qed.

(** A local file that is not in the store and has text: the title is the
    basename, whatever the text says. *)
Lemma execute_local w source content :
  is_url source = false ->
  FS.files (fs w) !! source = Some content ->
  (forall rid, ResourceId.from_content content = Ok rid ->
     FilesystemStore.resource_exists (fs w) rid = false) ->
  PyStr.strip content <> "" ->
  exists resp w',
    IngestResource.execute source w = (Ok resp, w')
    /\ Resource.title (IngestResource.resource resp) = IngestResource.basename source
    /\ IngestResource.already_existed resp = false.
Proof.
  intros Hu Hfile Hnew Htext. unfold IngestResource.execute. fold (is_url source). rewrite Hu.
  destruct (from_content_ok content) as (rid & Hrid & _).
  destruct (Url_new_file (abspath source)) as (u & Hnu & _).
  unfold mbind, M_bind, st_bind, st_lift, st_get. rewrite Hfile, Hrid.
  rewrite (existing_absent w rid (Hnew rid Hrid)). rewrite Hnu.
  unfold IngestResource.store_and_index.
  rewrite decide_False by done.
  unfold mbind, M_bind, st_bind, st_get, st_put, st_ret.
  eexists _, _. split; [reflexivity|]. split; reflexivity.
Qed.

(** C4.  For a URL whose id is not in the store and whose snapshot has no
    text (none, empty, or only whitespace), [execute] raises the ValueError
    of empty content and leaves the world (the store's files and the index)
    as it was. *)
Theorem C4_empty_content_raises (w : World) (source : string) :
  is_url source = true ->
  (forall rid, ResourceId.from_url source = Ok rid ->
     FilesystemStore.resource_exists (fs w) rid = false) ->
  PyStr.strip (default "" (fst (capture source))) = "" ->
  exists msg,
    IngestResource.execute source w = (Raise (ValueError msg), w)
    /\ fs (snd (IngestResource.execute source w)) = fs w
    /\ indexer (snd (IngestResource.execute source w)) = indexer w.
Proof.
  intros Hu Hnew Hblank. eexists.
  rewrite (execute_url_blank w source Hu Hnew Hblank). done.
Qed.

(** C2 at its failing input.  A local file [notes.md] whose frontmatter has
    the title [Hello World] is ingested under the title [notes.md]: the
    local branch never runs the title heuristic, which would have given
    [Hello World]. *)
Theorem C2_local_file_title_is_basename :
  let content := "---" +:+ TitleFacts.NL +:+ "title: Hello World" +:+ TitleFacts.NL
                 +:+ "---" +:+ TitleFacts.NL +:+ "body text" in
  let w := MkWorld (FS.Make None None {[ "notes.md" := content ]}) JsonlIndexer.empty in
  exists resp w',
    IngestResource.execute "notes.md" w = (Ok resp, w')
    /\ Resource.title (IngestResource.resource resp) = "notes.md"
    /\ IngestResource._extract_title content "notes.md" = "Hello World".
Proof.
  intros content w.
  destruct (execute_local w "notes.md" content) as (resp & w' & He & Ht & _).
  - reflexivity.
  - reflexivity.
  - intros rid _. reflexivity.
  - subst content. vm_compute. discriminate.
  - exists resp, w'. split; [done|]. split; [by rewrite Ht|]. reflexivity.
Qed.

End ingest.

(** ** C3 and C10: building the index from the ledger *)

Section load.
Context `{Json}.
Import PyDictFacts CounterFacts.

(** The resource record a ledger line holds, if it holds one. *)
Definition record_of (raw : string) : option Resource.t :=
  if decide (PyStr.strip raw = "") then None
  else match json_loads (PyStr.strip raw) with
       | Some data =>
           match Resource.from_dict data with
           | Ok r => Some r
           | _ => None
           end
       | None => None
       end.

(** The text [_load] indexes for an id: the first 10000 characters read
    from the stored [content.md], nothing when there is no such file. *)
Definition stored_content (fs : FS.t) (rid : string) : string :=
  match FS.lookup_dir fs rid ≫= FS.content_md with
  | Some text => PyStr.slice_to (Z.to_nat 10000) (FS.read_text text)
  | None => ""
  end.

Definition rid_of (r : Resource.t) : string := ResourceId.value (Resource.id r).

(** The state after a line that holds a record with a new id. *)
Definition loaded (fs : FS.t) (st : gset string * JsonlIndexer.t) (r : Resource.t)
  : gset string * JsonlIndexer.t :=
  ({[rid_of r]} ∪ (fst st),
   JsonlIndexer.Make
     (JsonlIndexer.count_terms (rid_of r)
        (JsonlIndexer._tokenize (Resource.title r +:+ " " +:+ stored_content fs (rid_of r)))
        (JsonlIndexer._index (snd st)))
     (PyDict.set (rid_of r) r (JsonlIndexer._resources (snd st)))).

Lemma load_line_record fs st raw r :
  record_of raw = Some r ->
  JsonlIndexer.load_line fs st raw
  = Ok (if decide (rid_of r ∈ (fst st)) then st else loaded fs st r).
Proof.
  unfold record_of, JsonlIndexer.load_line. destruct st as [seen ix].
  destruct (decide (PyStr.strip raw = "")); [done|].
  destruct (json_loads (PyStr.strip raw)) as [data|]; [|done].
  destruct (Resource.from_dict data) as [r'| |]; [|done..].
  intros [= ->]. cbn [fst snd]. unfold rid_of, ResourceId.str.
  destruct (decide _); reflexivity.
Qed.

(** Lines that are skipped: blank, not JSON, or a record that fails with
    KeyError or ValueError. *)
Lemma load_line_blank fs st raw :
  PyStr.strip raw = "" -> JsonlIndexer.load_line fs st raw = Ok st.
Proof.
  intros Hb. unfold JsonlIndexer.load_line. destruct st as [seen ix].
  by rewrite decide_True.
Qed.

Lemma load_line_not_json fs st raw :
  json_loads (PyStr.strip raw) = None -> JsonlIndexer.load_line fs st raw = Ok st.
Proof.
  intros Hj. unfold JsonlIndexer.load_line. destruct st as [seen ix].
  destruct (decide _); [done|]. by rewrite Hj.
Qed.

Lemma load_line_key_error fs st raw data key :
  json_loads (PyStr.strip raw) = Some data ->
  Resource.from_dict data = Raise (KeyError key) ->
  JsonlIndexer.load_line fs st raw = Ok st.
Proof.
  intros Hj Hd. unfold JsonlIndexer.load_line. destruct st as [seen ix].
  destruct (decide _); [done|]. by rewrite Hj, Hd.
Qed.

Lemma load_line_value_error fs st raw data msg :
  json_loads (PyStr.strip raw) = Some data ->
  Resource.from_dict data = Raise (ValueError msg) ->
  JsonlIndexer.load_line fs st raw = Ok st.
Proof.
  intros Hj Hd. unfold JsonlIndexer.load_line. destruct st as [seen ix].
  destruct (decide _); [done|]. by rewrite Hj, Hd.
Qed.

(** A line that is JSON but raises TypeError in [from_dict] ends the loop. *)
Lemma load_line_type_error fs st raw data msg :
  PyStr.strip raw <> "" ->
  json_loads (PyStr.strip raw) = Some data ->
  Resource.from_dict data = Raise (TypeError msg) ->
  JsonlIndexer.load_line fs st raw = Raise (TypeError msg).
Proof.
  intros Hb Hj Hd. unfold JsonlIndexer.load_line. destruct st as [seen ix].
  rewrite decide_False by done. by rewrite Hj, Hd.
Qed.

(** Every line either leaves the state or loads its record. *)
Lemma load_line_Ok fs st raw st' :
  JsonlIndexer.load_line fs st raw = Ok st' ->
  st' = st \/ exists r, record_of raw = Some r /\ (rid_of r ∉ fst st) /\ st' = loaded fs st r.
Proof.
  destruct (record_of raw) as [r|] eqn:Hr.
  - rewrite (load_line_record fs st raw r Hr). intros [= <-].
    destruct (decide _); [by left|right; by exists r].
  - unfold record_of in Hr. unfold JsonlIndexer.load_line. destruct st as [seen ix].
    destruct (decide (PyStr.strip raw = "")); [intros [= <-]; by left|].
    destruct (json_loads (PyStr.strip raw)) as [data|]; [|intros [= <-]; by left].
    destruct (Resource.from_dict data) as [r'|e|]; [done| |done].
    destruct e; try done; intros [= <-]; by left.
Qed.

Lemma load_lines_app fs st l1 l2 :
  JsonlIndexer.load_lines fs st (l1 ++ l2)
  = JsonlIndexer.load_lines fs st l1 ≫= fun st' => JsonlIndexer.load_lines fs st' l2.
Proof.
  revert st. induction l1 as [|raw l1 IH]; intros st; [done|].
  cbn [app JsonlIndexer.load_lines].
  destruct (JsonlIndexer.load_line fs st raw) as [st'| |]; [|done..].
  apply IH.
Qed.

Lemma load_lines_app_Ok fs st l1 l2 st2 :
  JsonlIndexer.load_lines fs st (l1 ++ l2) = Ok st2 ->
  exists st1, JsonlIndexer.load_lines fs st l1 = Ok st1
              /\ JsonlIndexer.load_lines fs st1 l2 = Ok st2.
Proof.
  rewrite load_lines_app.
  destruct (JsonlIndexer.load_lines fs st l1) as [st1| |]; [|done..].
  intros Hl. by exists st1.
Qed.

Lemma load_lines_cons_Ok fs st raw rest st2 :
  JsonlIndexer.load_lines fs st (raw :: rest) = Ok st2 ->
  exists st1, JsonlIndexer.load_line fs st raw = Ok st1
              /\ JsonlIndexer.load_lines fs st1 rest = Ok st2.
Proof.
  cbn [JsonlIndexer.load_lines].
  destruct (JsonlIndexer.load_line fs st raw) as [st1| |]; [|done..].
  intros Hl. by exists st1.
Qed.

(** [seen_ids] after the loop: the ids it had, and the ids of the records
    on the lines. *)
Lemma load_lines_seen fs lines : forall st st',
  JsonlIndexer.load_lines fs st lines = Ok st' ->
  forall rid, rid ∈ (fst st')
    <-> rid ∈ (fst st) \/ exists raw r, raw ∈ lines /\ record_of raw = Some r /\ rid_of r = rid.
Proof.
  induction lines as [|raw lines IH]; intros st st' Hl rid.
  - injection Hl as <-. split; [tauto|]. intros [?|(raw & r & Hin & _)]; [done|].
    by apply elem_of_nil in Hin.
  - apply load_lines_cons_Ok in Hl as (st1 & H1 & H2).
    rewrite (IH st1 st' H2 rid).
    destruct (record_of raw) as [r|] eqn:Hr.
    + rewrite (load_line_record fs st raw r Hr) in H1. injection H1 as <-.
      split.
      * intros [Hin|(raw' & r' & Hin & Hr' & Hid)].
        -- destruct (decide (rid_of r ∈ (fst st))); [by left|].
           cbn [loaded fst] in Hin. apply elem_of_union in Hin as [->%elem_of_singleton|?].
           ++ right. exists raw, r. split; [apply list_elem_of_here|done].
           ++ by left.
        -- right. exists raw', r'. split; [by apply list_elem_of_further|done].
      * intros [Hin|(raw' & r' & Hin & Hr' & Hid)].
        -- left. destruct (decide (rid_of r ∈ (fst st))); [done|].
           cbn [loaded fst]. apply elem_of_union. by right.
        -- apply elem_of_cons in Hin as [->|Hin].
           ++ left. rewrite Hr in Hr'. injection Hr' as <-. subst rid.
              destruct (decide (rid_of r ∈ (fst st))); [done|].
              cbn [loaded fst]. apply elem_of_union. left. by apply elem_of_singleton.
           ++ right. by exists raw', r'.
    + apply load_line_Ok in H1 as [->|(r & Hr' & _)]; [|congruence].
      split.
      * intros [?|(raw' & r' & Hin & Hr' & Hid)]; [by left|].
        right. exists raw', r'. split; [by apply list_elem_of_further|done].
      * intros [?|(raw' & r' & Hin & Hr' & Hid)]; [by left|].
        apply elem_of_cons in Hin as [->|Hin]; [congruence|].
        right. by exists raw', r'.
Qed.

(** What a line leaves alone: the record and the counts of an id that has
    been seen. *)
Lemma loaded_keeps fs st r rid :
  rid ∈ (fst st) -> rid_of r ∉ (fst st) ->
  PyDict.get rid (JsonlIndexer._resources (snd (loaded fs st r)))
  = PyDict.get rid (JsonlIndexer._resources (snd st))
  /\ forall t, count_of (snd (loaded fs st r)) t rid = count_of (snd st) t rid.
Proof.
  intros Hin Hnew. assert (rid_of r <> rid) as Hne by (intros <-; done).
  cbn [loaded snd JsonlIndexer._resources]. split.
  - rewrite get_set. by rewrite decide_False.
  - intros t. unfold count_of. cbn [JsonlIndexer._index].
    rewrite count_terms_get. rewrite decide_False by done. lia.
Qed.

Lemma load_lines_keeps fs lines : forall st st' rid,
  JsonlIndexer.load_lines fs st lines = Ok st' ->
  rid ∈ (fst st) ->
  PyDict.get rid (JsonlIndexer._resources (snd st'))
  = PyDict.get rid (JsonlIndexer._resources (snd st))
  /\ forall t, count_of (snd st') t rid = count_of (snd st) t rid.
Proof.
  induction lines as [|raw lines IH]; intros st st' rid Hl Hin.
  - by injection Hl as <-.
  - apply load_lines_cons_Ok in Hl as (st1 & H1 & H2).
    apply load_line_Ok in H1 as [->|(r & Hr & Hnew & ->)]; [by apply IH|].
    destruct (loaded_keeps fs st r rid Hin Hnew) as [Hg Hc].
    destruct (IH _ _ rid H2) as [Hg' Hc'].
    { cbn [loaded fst]. apply elem_of_union. by right. }
    split; [by rewrite Hg'|]. intros t. by rewrite Hc'.
Qed.

(** The invariant of the loop, started on an empty index. *)
Definition load_inv (st : gset string * JsonlIndexer.t) : Prop :=
  (forall rid, rid ∈ (fst st) <-> rid ∈ PyDict.keys (JsonlIndexer._resources (snd st)))
  /\ (forall rid t, rid ∉ (fst st) -> count_of (snd st) t rid = 0%nat)
  /\ NoDup (PyDict.keys (JsonlIndexer._resources (snd st)))
  /\ Forall (fun kr => (fst kr) = rid_of (snd kr)) (JsonlIndexer._resources (snd st))
  /\ index_wf (snd st).

Lemma load_inv_empty : load_inv (∅, JsonlIndexer.empty).
Proof.
  split; [|split; [|split; [|split]]]; cbn.
  - intros rid. split; [by intros ?%not_elem_of_empty|by intros ?%elem_of_nil].
  - done.
  - constructor.
  - constructor.
  - apply index_wf_empty.
Qed.

Lemma Forall_set_key (k : string) (r : Resource.t) d :
  k = rid_of r ->
  Forall (fun kr : string * Resource.t => (fst kr) = rid_of (snd kr)) d ->
  Forall (fun kr : string * Resource.t => (fst kr) = rid_of (snd kr)) (PyDict.set k r d).
Proof.
  intros Hk. induction 1 as [|[k0 r0] d H0 Hd IH]; cbn [PyDict.set].
  - by constructor.
  - destruct (String.eqb k k0); constructor; cbn [fst snd] in *; auto.
Qed.

Lemma load_inv_loaded fs st r :
  load_inv st -> rid_of r ∉ (fst st) -> load_inv (loaded fs st r).
Proof.
  intros (Hk & Hz & Hnd & Hid & Hwf) Hnew.
  split; [|split; [|split; [|split]]]; cbn [loaded fst snd JsonlIndexer._resources].
  - intros rid. rewrite elem_of_union, elem_of_singleton, elem_keys_set, Hk. done.
  - intros rid t [Hne Hrid]%not_elem_of_union. apply not_elem_of_singleton in Hne.
    unfold count_of. cbn [JsonlIndexer._index]. rewrite count_terms_get.
    rewrite decide_False by done. pose proof (Hz rid t Hrid) as Hz0.
    unfold count_of in Hz0. lia.
  - by apply NoDup_set.
  - by apply Forall_set_key.
  - apply index_wf_count_terms; [|done].
    apply (ResourceId.post_init (Resource.id r)).
Qed.

Lemma load_lines_inv fs lines : forall st st',
  JsonlIndexer.load_lines fs st lines = Ok st' -> load_inv st -> load_inv st'.
Proof.
  induction lines as [|raw lines IH]; intros st st' Hl Hinv.
  - by injection Hl as <-.
  - apply load_lines_cons_Ok in Hl as (st1 & H1 & H2).
    apply (IH st1 st' H2).
    apply load_line_Ok in H1 as [->|(r & Hr & Hnew & ->)]; [done|].
    by apply load_inv_loaded.
Qed.

Lemma filter_none {A} (P : A -> Prop) `{forall x, Decision (P x)} (l : list A) :
  Forall (fun x => ~ P x) l -> filter P l = [].
Proof.
  induction 1 as [|x l Hx _ IH]; [done|].
  rewrite filter_cons. by rewrite decide_False.
Qed.

(** With each id at most once among the keys, the resources of one id in
    [list_all] are the one record stored under it. *)
Lemma values_of_id (d : list (string * Resource.t)) rid r :
  NoDup (PyDict.keys d) ->
  Forall (fun kr => (fst kr) = rid_of (snd kr)) d ->
  PyDict.get rid d = Some r ->
  filter (fun x => rid_of x = rid) (PyDict.values d) = [r].
Proof.
  unfold PyDict.keys, PyDict.values.
  induction d as [|[k0 r0] d IH]; [done|].
  cbn [fmap list_fmap fst snd PyDict.get].
  intros [Hk0 Hnd]%NoDup_cons [Hid0 Hid]%Forall_cons. cbn [fst snd] in Hid0.
  rewrite eqb_decide, filter_cons. case_bool_decide as Hk.
  - intros [= ->]. subst. rewrite decide_True by done. f_equal.
    apply filter_none, Forall_forall. intros x Hx Hxid.
    apply Hk0. apply list_elem_of_fmap in Hx as ([k x'] & -> & Hx).
    rewrite Forall_forall in Hid. specialize (Hid _ Hx). cbn [fst snd] in *.
    apply list_elem_of_fmap. exists (k, x'). split; [|done]. cbn. congruence.
  - intros Hget. rewrite decide_False by congruence. by apply IH.
Qed.

Definition with_ledger (fs : FS.t) (lines : list string) : FS.t :=
  FS.Make (FS.resources fs) (Some lines) (FS.files fs).

Lemma init_ledger fs lines :
  FS.library_jsonl fs = Some lines ->
  JsonlIndexer.init fs = snd <$> JsonlIndexer.load_lines fs (∅, JsonlIndexer.empty) lines.
Proof. unfold JsonlIndexer.init, JsonlIndexer._load. by intros ->. Qed.

(** The loop reads the ledger's lines only through its argument. *)
Lemma load_lines_with_ledger fs lines' lines st :
  JsonlIndexer.load_lines (with_ledger fs lines') st lines
  = JsonlIndexer.load_lines fs st lines.
Proof. revert st. induction lines as [|raw lines IH]; intros st; [done|].
  cbn [JsonlIndexer.load_lines].
  assert (JsonlIndexer.load_line (with_ledger fs lines') st raw
          = JsonlIndexer.load_line fs st raw) as -> by reflexivity.
  destruct (JsonlIndexer.load_line fs st raw); [|done..]. apply IH.
Qed.

(** C3.  In a ledger where the line [first] is the first one to hold a
    record with a given id and a later line [dup] holds a record with the
    same id, the index that is built has that id once: [list_all] holds one
    resource with this id, the record of [first]; the counts of the id are
    those of the title of [first] and the stored content, counted once; and
    the index is the one built from the ledger without the line [dup]. *)
Theorem C3_first_ledger_line_wins
    (fs : FS.t) (pre mid post : list string) (first dup : string)
    (r1 r2 : Resource.t) (ix : JsonlIndexer.t) :
  FS.library_jsonl fs = Some (pre ++ first :: mid ++ dup :: post) ->
  record_of first = Some r1 ->
  record_of dup = Some r2 ->
  rid_of r2 = rid_of r1 ->
  (forall raw r, raw ∈ pre -> record_of raw = Some r -> rid_of r <> rid_of r1) ->
  JsonlIndexer.init fs = Ok ix ->
  PyDict.get (rid_of r1) (JsonlIndexer._resources ix) = Some r1
  /\ filter (fun r => rid_of r = rid_of r1) (JsonlIndexer.list_all ix) = [r1]
  /\ (forall t, count_of ix t (rid_of r1)
                = occurrences t (JsonlIndexer._tokenize
                    (Resource.title r1 +:+ " " +:+ stored_content fs (rid_of r1))))
  /\ JsonlIndexer.init (with_ledger fs (pre ++ first :: mid ++ post)) = Ok ix.
Proof.
  intros Hlib Hr1 Hr2 Hid Hpre Hinit.
  rewrite (init_ledger _ _ Hlib) in Hinit.
  destruct (JsonlIndexer.load_lines fs (∅, JsonlIndexer.empty)
              (pre ++ first :: mid ++ dup :: post)) as [st_end| |] eqn:Hl; [|done..].
  injection Hinit as <-.
  apply load_lines_app_Ok in Hl as (st0 & H0 & Hl).
  apply load_lines_cons_Ok in Hl as (st1 & H1 & Hl).
  apply load_lines_app_Ok in Hl as (st2 & H2 & Hl).
  apply load_lines_cons_Ok in Hl as (st3 & H3 & H4).
  pose proof (load_lines_inv _ _ _ _ H0 load_inv_empty) as Hinv0.
  assert (rid_of r1 ∉ fst st0) as Hnew.
  { intros Hin. apply (load_lines_seen _ _ _ _ H0) in Hin as [Hin|(raw & r & Hraw & Hr & Hrid)].
    - by apply not_elem_of_empty in Hin.
    - by apply (Hpre raw r). }
  rewrite (load_line_record fs st0 first r1 Hr1), decide_False in H1 by done.
  injection H1 as <-.
  pose proof (load_inv_loaded fs st0 r1 Hinv0 Hnew) as Hinv1.
  assert (rid_of r1 ∈ fst (loaded fs st0 r1)) as Hin1.
  { cbn [loaded fst]. apply elem_of_union. left. by apply elem_of_singleton. }
  assert (rid_of r1 ∈ fst st2) as Hin2.
  { apply (load_lines_seen _ _ _ _ H2). by left. }
  rewrite (load_line_record fs st2 dup r2 Hr2), Hid, decide_True in H3 by done.
  injection H3 as <-.
  assert (JsonlIndexer.load_lines fs (loaded fs st0 r1) (mid ++ post) = Ok st_end) as Hrest.
  { rewrite load_lines_app, H2. exact H4. }
  destruct (load_lines_keeps fs _ _ _ (rid_of r1) Hrest Hin1) as [Hget Hcount].
  assert (PyDict.get (rid_of r1) (JsonlIndexer._resources (snd st_end)) = Some r1) as Hrec.
  { rewrite Hget. cbn [loaded snd JsonlIndexer._resources].
    rewrite PyDictFacts.get_set. by rewrite decide_True. }
  pose proof (load_lines_inv _ _ _ _ Hrest Hinv1) as (_ & _ & Hnd & Hkeys & _).
  split; [done|]. split; [by apply values_of_id|]. split.
  - intros t. rewrite Hcount. unfold count_of. cbn [loaded snd JsonlIndexer._index].
    rewrite count_terms_get, decide_True by done.
    destruct Hinv0 as (_ & Hz & _). pose proof (Hz (rid_of r1) t Hnew) as Hz0.
    unfold count_of in Hz0. rewrite Hz0. reflexivity.
  - rewrite (init_ledger (with_ledger fs _) (pre ++ first :: mid ++ post)) by done.
    rewrite load_lines_with_ledger, load_lines_app, H0.
    cbn [mbind result_bind JsonlIndexer.load_lines].
    rewrite (load_line_record fs st0 first r1 Hr1), decide_False by done.
    cbn [mbind result_bind]. rewrite Hrest. reflexivity.
Qed.

(** C10 at its failing inputs.  A ledger line that is valid JSON but not an
    object (a list, a number, a string, [null], a boolean) raises TypeError
    in [Resource.from_dict]; [_load] catches JSONDecodeError, KeyError and
    ValueError only, so the construction of the indexer ends with the
    TypeError and no later line is loaded. *)
Theorem C10_non_object_line_aborts
    (fs : FS.t) (pre post : list string) (raw : string) (v : JValue)
    (st : gset string * JsonlIndexer.t) :
  FS.library_jsonl fs = Some (pre ++ raw :: post) ->
  JsonlIndexer.load_lines fs (∅, JsonlIndexer.empty) pre = Ok st ->
  PyStr.strip raw <> "" ->
  json_loads (PyStr.strip raw) = Some v ->
  (forall l, v <> JObj l) ->
  exists msg, JsonlIndexer.init fs = Raise (TypeError msg).
Proof.
  intros Hlib Hpre Hb Hj Hv.
  assert (exists msg, Resource.from_dict v = Raise (TypeError msg)) as (msg & Hd).
  { unfold Resource.from_dict. destruct v; cbn; eauto. by destruct (Hv l). }
  exists msg. rewrite (init_ledger _ _ Hlib), load_lines_app, Hpre.
  cbn [mbind result_bind JsonlIndexer.load_lines].
  by rewrite (load_line_type_error fs st raw v msg Hb Hj Hd).
Qed.

(** The same for an object whose [id] is not a string. *)
Lemma from_dict_id_not_str (l : list (string * JValue)) (v : JValue) :
  PyVal.assoc "id" l = Some v -> (forall s, v <> JStr s) ->
  exists msg, Resource.from_dict (JObj l) = Raise (TypeError msg).
Proof.
  intros Hl Hv. unfold Resource.from_dict. cbn [PyVal.getitem]. rewrite Hl.
  destruct v; cbn; eauto. by destruct (Hv s).
Qed.

End load.

(** ** C6: a second reindex fixes no title *)

Section reindex.
Context `{Json}.

(** What is taken from the json module: a resource's dict, written with
    [json.dump(..., indent=2)] and read back, is the same dict. *)
Hypothesis json_roundtrip :
  forall r, json_loads (json_dumps (Some 2%nat) (Resource.to_dict r))
            = Some (Resource.to_dict r).





Lemma steps_cons_Ok st name rest st2 m2 :
  Reindex.steps st (name :: rest) = (Ok st2, m2) ->
  exists st1, Reindex.step st name = Ok st1 /\ Reindex.steps st1 rest = (Ok st2, m2).
Proof.
  cbn [Reindex.steps]. destruct (Reindex.step st name) as [st1| |]; [|done..].
  intros Hs. by exists st1.
Qed.

(** The directories a returning walk leaves are those of its last state. *)
Lemma steps_Ok_dirs names : forall st st' m',
  Reindex.steps st names = (Ok st', m') -> m' = Reindex.dirs st'.
Proof.
  induction names as [|name names IH]; intros st st' m'.
  - cbn [Reindex.steps]. by intros [= <- <-].
  - intros (st1 & _ & H2)%steps_cons_Ok. by apply (IH st1).
Qed.







End reindex.

(** * Concrete ports and a small library, for the witnesses *)

Module Fixtures.

(** ** A json codec that reads back what it writes *)

(** The fields of a dict of the shape [Resource.to_dict] writes. *)
Definition fields : Type :=
  string * string * string * string * string * list string * Z.

Definition shape (v : JValue) : option fields :=
  match v with
  | JObj [(k1, JStr i); (k2, JStr t); (k3, JStr u); (k4, JStr c); (k5, JStr h);
          (k6, JArr tags); (k7, JInt n)] =>
      if bool_decide (k1 = "id") && bool_decide (k2 = "title") && bool_decide (k3 = "url")
         && bool_decide (k4 = "captured_at") && bool_decide (k5 = "content_hash")
         && bool_decide (k6 = "tags") && bool_decide (k7 = "snippet_count")
      then match PyVal.as_str_list_go tags with
           | Ok tgs => Some (i, t, u, c, h, tgs, n)
           | _ => None
           end
      else None
  | _ => None
  end.

Definition unshape (f : fields) : JValue :=
  let '(i, t, u, c, h, tgs, n) := f in
  JObj [("id", JStr i); ("title", JStr t); ("url", JStr u); ("captured_at", JStr c);
        ("content_hash", JStr h); ("tags", JArr (JStr <$> tgs)); ("snippet_count", JInt n)].

(** A positive number as a text of binary digits, closed by a dot. *)
Fixpoint bits (p : positive) : string :=
  match p with
  | xH => "."
  | xO p' => String "0" (bits p')
  | xI p' => String "1" (bits p')
  end.

Fixpoint unbits (s : string) : option positive :=
  match s with
  | String c EmptyString => if Ascii.eqb c "." then Some xH else None
  | String c s' =>
      if Ascii.eqb c "0" then xO <$> unbits s'
      else if Ascii.eqb c "1" then xI <$> unbits s'
      else None
  | EmptyString => None
  end.

Definition dumps (indent : option nat) (v : JValue) : string :=
  match shape v with
  | Some f => bits (encode f)
  | None => match v with JArr [] => "[]" | _ => "null" end
  end.

Definition loads (s : string) : option JValue :=
  if bool_decide (s = "[]") then Some (JArr [])
  else if bool_decide (s = "null") then Some JNull
  else p ← unbits s; f ← decode p; Some (unshape f).

#[global] Instance json : Json := {| json_loads := loads; json_dumps := dumps |}.

(** ** The other ports *)

(** A snapshotter that finds no text anywhere. *)
#[global] Instance snapshotter : Snapshotter := {| capture := fun _ => (None, None) |}.

#[global] Instance os_path : OsPath :=
  {| abspath := fun p => "/home/user/" +:+ p;
     isdir := fun p => bool_decide (p = "docs") |}.

Definition noon : Timestamp.t :=
  Timestamp.Make (Datetime.Make (Datetime.Fields 2024 5 17 12 0 0 0 (Some 0)) I).

#[global] Instance clock : Clock := {| now := noon |}.

(** ** Resources *)

Definition resource (rid title : string)
    (Hrid : Is_true (PyStr.fullmatch_hex_8_16 rid)) : Resource.t :=
  Resource.Make (ResourceId.Make rid Hrid) title
    (Url.Make "https://example.org/page" I) noon (ContentHash.Make "00") [] 0.

Definition A : Resource.t := resource "aaaaaaaaaaaa" "Doc A" I.
Definition B : Resource.t := resource "bbbbbbbbbbbb" "Doc B" I.
(** A second record under the id of [A]. *)
Definition A2 : Resource.t := resource "aaaaaaaaaaaa" "Another title" I.

Definition index_AB : JsonlIndexer.t :=
  JsonlIndexer.index_resource
    (JsonlIndexer.index_resource JsonlIndexer.empty A "alpha beta beta") B "beta".

Definition line (r : Resource.t) : string := dumps None (Resource.to_dict r).

(** A library whose ledger names [A], [B] and again the id of [A]. *)
Definition dir_A : FS.resource_dir :=
  FS.ResourceDir (Some (dumps (Some 2%nat) (Resource.to_dict A)))
    (Some ("# Alpha notes" +:+ TitleFacts.NL +:+ "alpha beta beta")) None None.

Definition library : FS.t :=
  FS.Make (Some {[ "aaaaaaaaaaaa" := dir_A ]}) (Some [line A; line B; line A2]) ∅.

(** A ledger with a line that is the JSON text of an empty list. *)
Definition broken_library : FS.t :=
  FS.Make (Some {[ "aaaaaaaaaaaa" := dir_A ]}) (Some ["[]"; line A]) ∅.

Definition world : World := MkWorld library JsonlIndexer.empty.

End Fixtures.

Section fixtures_facts.
Import Fixtures.

Lemma unbits_bits p : unbits (bits p) = Some p.
Proof.
  induction p as [p IH|p IH|]; [| |reflexivity].
  - cbn [bits unbits]. destruct (bits p) eqn:E; [by destruct p|].
    rewrite IH. reflexivity.
  - cbn [bits unbits]. destruct (bits p) eqn:E; [by destruct p|].
    rewrite IH. reflexivity.
Qed.

Lemma bits_not_word p : bits p <> "[]" /\ bits p <> "null".
Proof. destruct p; split; discriminate. Qed.

Lemma shape_to_dict (r : Resource.t) :
  shape (Resource.to_dict r)
  = Some (ResourceId.value (Resource.id r), Resource.title r, Url.value (Resource.url r),
          Timestamp.iso (Resource.captured_at r),
          ContentHash.value (Resource.content_hash r), Resource.tags r,
          Resource.snippet_count r).
Proof.
  unfold shape, Resource.to_dict. cbn [bool_decide andb].
  pose proof (as_str_list_strs (Resource.tags r)) as Ht. cbn [PyVal.as_str_list] in Ht.
  rewrite !bool_decide_eq_true_2 by done. cbn [andb]. by rewrite Ht.
Qed.

Lemma fixture_roundtrip indent (r : Resource.t) :
  json_loads (json_dumps indent (Resource.to_dict r)) = Some (Resource.to_dict r).
Proof.
  cbn [json_loads json_dumps json]. unfold dumps, loads. rewrite shape_to_dict.
  destruct (bits_not_word (encode (ResourceId.value (Resource.id r), Resource.title r,
              Url.value (Resource.url r), Timestamp.iso (Resource.captured_at r),
              ContentHash.value (Resource.content_hash r), Resource.tags r,
              Resource.snippet_count r))) as [H1 H2].
  rewrite !bool_decide_eq_false_2 by done.
  rewrite unbits_bits. cbn [mbind option_bind]. rewrite decode_encode.
  reflexivity.
Qed.

End fixtures_facts.

(** * Witnesses: the theorems with hypotheses, at the fixtures *)

Lemma C1_witness :
  JsonlIndexer.search_local Fixtures.index_AB "beta" 5
  = Ok [Resource.id Fixtures.A; Resource.id Fixtures.B]
  /\ exists ranked ids,
       JsonlIndexer.search_local Fixtures.index_AB "doc alpha" 1 = Ok ids
       /\ ResourceId.value <$> ids = take 1 ranked
       /\ NoDup ranked.
Proof.
  destruct C1_search_local_ranks_by_summed_count as [Hrank Hscenario]. split.
  - refine (proj2 (proj2 (proj2 (Hscenario Fixtures.A Fixtures.B 5 _ _ _ _)))).
    + vm_compute. discriminate.
    + refine (bool_decide_unpack _ _). vm_compute. exact I.
    + refine (bool_decide_unpack _ _). vm_compute. exact I.
    + lia.
  - destruct (Hrank Fixtures.index_AB "doc alpha" 1) as (ranked & ids & Hs & Hv & Hnd & _).
    + do 2 apply index_wf_index_resource. apply index_wf_empty.
    + exists ranked, ids. split; [exact Hs|]. split; [exact Hv|exact Hnd].
Defined.

Lemma C8_witness :
  Resource.from_dict (Resource.to_dict Fixtures.A) = Ok Fixtures.A
  /\ Timestamp.from_iso "2024-05-17T12:00:00+00:00" = Ok Fixtures.noon.
Proof.
  destruct (C8_from_dict_to_dict Fixtures.A) as (Hr & Ht & _); [by left|].
  split; [exact Hr|exact Ht].
Defined.

Definition index_of_library : JsonlIndexer.t :=
  match JsonlIndexer.init Fixtures.library with
  | Ok ix => ix
  | _ => JsonlIndexer.empty
  end.

Lemma C3_witness :
  PyDict.get "aaaaaaaaaaaa" (JsonlIndexer._resources index_of_library) = Some Fixtures.A
  /\ filter (fun r => rid_of r = "aaaaaaaaaaaa") (JsonlIndexer.list_all index_of_library)
     = [Fixtures.A]
  /\ count_of index_of_library "beta" "aaaaaaaaaaaa" = 2%nat
  /\ JsonlIndexer.init
       (with_ledger Fixtures.library [Fixtures.line Fixtures.A; Fixtures.line Fixtures.B])
     = Ok index_of_library.
Proof.
  destruct (C3_first_ledger_line_wins Fixtures.library [] [Fixtures.line Fixtures.B] []
              (Fixtures.line Fixtures.A) (Fixtures.line Fixtures.A2)
              Fixtures.A Fixtures.A2 index_of_library)
    as (Hget & Hall & Hcount & Hsame).
  - reflexivity.
  - vm_compute. reflexivity.
  - vm_compute. reflexivity.
  - reflexivity.
  - intros raw r Hraw. apply elem_of_nil in Hraw. destruct Hraw.
  - vm_compute. reflexivity.
  - split; [exact Hget|]. split; [exact Hall|]. split; [|exact Hsame].
    etrans; [exact (Hcount "beta")|]. vm_compute. reflexivity.
Defined.

Lemma C4_witness :
  exists msg,
    IngestResource.execute "https://example.org/empty" Fixtures.world
    = (Raise (ValueError msg), Fixtures.world)
    /\ fs (snd (IngestResource.execute "https://example.org/empty" Fixtures.world))
       = fs Fixtures.world
    /\ indexer (snd (IngestResource.execute "https://example.org/empty" Fixtures.world))
       = indexer Fixtures.world.
Proof.
  apply (C4_empty_content_raises Fixtures.world "https://example.org/empty").
  - reflexivity.
  - intros rid Hrid. vm_compute in Hrid. injection Hrid as <-. vm_compute. reflexivity.
  - reflexivity.
Defined.



Lemma C10_witness :
  exists msg, JsonlIndexer.init Fixtures.broken_library = Raise (TypeError msg).
Proof.
  apply (C10_non_object_line_aborts Fixtures.broken_library []
           [Fixtures.line Fixtures.A] "[]" (JArr []) (∅, JsonlIndexer.empty)).
  - reflexivity.
  - reflexivity.
  - vm_compute. discriminate.
  - reflexivity.
  - intros l. discriminate.
Defined.

(** The valid line after the broken one would have loaded on its own. *)
Example line_after_broken_is_valid :
  record_of (Fixtures.line Fixtures.A) = Some Fixtures.A
  /\ exists ix, JsonlIndexer.init (with_ledger Fixtures.broken_library [Fixtures.line Fixtures.A])
                = Ok ix
               /\ PyDict.get "aaaaaaaaaaaa" (JsonlIndexer._resources ix) = Some Fixtures.A.
Proof.
  split; [vm_compute; reflexivity|].
  eexists. split; [vm_compute; reflexivity|]. vm_compute. reflexivity.
Qed.

(** * Further properties of the modelled code *)

(** ** JsonlIndexer: what the index keeps coherent *)

Module PopFacts.
Import PyDictFacts.

Lemma keys_pop_sub {V} k (d : list (string * V)) k' :
  k' ∈ PyDict.keys (PyDict.pop k d) -> k' ∈ PyDict.keys d.
Proof.
  unfold PyDict.keys. induction d as [|[k0 v0] d IH]; cbn [PyDict.pop fmap list_fmap fst]; [done|].
  destruct (String.eqb k k0).
  - intros Hin. by apply list_elem_of_further.
  - cbn [fmap list_fmap fst]. intros [->|Hin]%elem_of_cons; [apply list_elem_of_here|].
    apply list_elem_of_further. by apply IH.
Qed.

Lemma NoDup_pop {V} k (d : list (string * V)) :
  NoDup (PyDict.keys d) -> NoDup (PyDict.keys (PyDict.pop k d)).
Proof.
  unfold PyDict.keys. induction d as [|[k0 v0] d IH]; cbn [PyDict.pop fmap list_fmap fst]; [done|].
  intros [Hk0 Hnd]%NoDup_cons. destruct (String.eqb k k0); [done|].
  cbn [fmap list_fmap fst]. apply NoDup_cons. split; [|by apply IH].
  intros Hin. apply Hk0. by apply (keys_pop_sub k d k0).
Qed.

Lemma get_pop {V} k k' (d : list (string * V)) :
  NoDup (PyDict.keys d) ->
  PyDict.get k' (PyDict.pop k d) = if decide (k = k') then None else PyDict.get k' d.
Proof.
  unfold PyDict.keys. induction d as [|[k0 v0] d IH]; cbn [PyDict.pop PyDict.get fmap list_fmap fst].
  - intros _. by case_decide.
  - intros [Hk0 Hnd]%NoDup_cons. rewrite !eqb_decide.
    destruct (decide (k = k0)) as [->|Hne].
    + rewrite bool_decide_eq_true_2 by done.
      destruct (decide (k0 = k')) as [<-|Hne'].
      * by apply get_None.
      * rewrite bool_decide_eq_false_2; [done|congruence].
    + rewrite bool_decide_eq_false_2 by done. cbn [PyDict.get]. rewrite eqb_decide, IH by done.
      destruct (decide (k' = k0)) as [->|Hne'].
      * rewrite bool_decide_eq_true_2 by done. by rewrite decide_False.
      * rewrite bool_decide_eq_false_2 by done. done.
Qed.

Lemma keys_pop {V} k k' (d : list (string * V)) :
  NoDup (PyDict.keys d) ->
  k' ∈ PyDict.keys (PyDict.pop k d) <-> k' <> k /\ k' ∈ PyDict.keys d.
Proof.
  intros Hnd. split.
  - intros Hin. split; [|by apply (keys_pop_sub k)].
    intros ->. apply (get_None k (PyDict.pop k d)); [|done].
    rewrite get_pop by done. by rewrite decide_True.
  - intros [Hne Hin].
    destruct (PyDict.get k' (PyDict.pop k d)) as [v|] eqn:E.
    + apply get_Some_elem in E. apply list_elem_of_fmap. by exists (k', v).
    + rewrite get_pop, decide_False in E by done. by apply get_None in E.
Qed.

Lemma Forall_pop {V} (P : string * V -> Prop) k (d : list (string * V)) :
  Forall P d -> Forall P (PyDict.pop k d).
Proof.
  induction 1 as [|[k0 v0] d H0 Hd IH]; cbn [PyDict.pop]; [constructor|].
  destruct (String.eqb k k0); [done|]. by constructor.
Qed.

End PopFacts.

(** The counter under a token after [remove]. *)
Lemma remove_lookup ix id t :
  default [] (JsonlIndexer._index (JsonlIndexer.remove ix id) !! t)
  = PyDict.pop (ResourceId.value id) (default [] (JsonlIndexer._index ix !! t)).
Proof.
  unfold JsonlIndexer.remove. cbn [JsonlIndexer._index]. rewrite lookup_fmap.
  unfold ResourceId.str. by destruct (JsonlIndexer._index ix !! t).
Qed.

Lemma index_wf_remove ix id : index_wf ix -> index_wf (JsonlIndexer.remove ix id).
Proof.
  intros Hwf t c E. unfold JsonlIndexer.remove in E. cbn [JsonlIndexer._index] in E.
  rewrite lookup_fmap in E.
  destruct (JsonlIndexer._index ix !! t) as [c0|] eqn:E0; [|done].
  injection E as <-. destruct (Hwf t c0 E0) as [Hnd Hv]. split.
  - by apply PopFacts.NoDup_pop.
  - apply Forall_forall. intros rid Hrid. rewrite Forall_forall in Hv.
    by apply Hv, (PopFacts.keys_pop_sub (ResourceId.str id)).
Qed.

Lemma count_of_remove ix id t rid :
  index_wf ix ->
  count_of (JsonlIndexer.remove ix id) t rid
  = if decide (ResourceId.value id = rid) then 0%nat else count_of ix t rid.
Proof.
  intros Hwf. unfold count_of. rewrite remove_lookup. unfold Counter.get.
  rewrite PopFacts.get_pop.
  - by destruct (decide _).
  - destruct (JsonlIndexer._index ix !! t) as [c|] eqn:E; [by apply (Hwf t)|constructor].
Qed.

Lemma posted_remove ix id terms rid :
  index_wf ix ->
  posted (JsonlIndexer.remove ix id) terms rid ->
  rid <> ResourceId.value id /\ posted ix terms rid.
Proof.
  intros Hwf (t & Ht & Hin). rewrite remove_lookup in Hin.
  apply PopFacts.keys_pop in Hin as [Hne Hin].
  - split; [done|]. by exists t.
  - destruct (JsonlIndexer._index ix !! t) as [c|] eqn:E; [by apply (Hwf t)|constructor].
Qed.

(** X1.  [remove] strikes the id from the resources and from every token's
    counter, and nothing else: in an index whose dicts have each key once,
    afterwards every count of the id is 0, [_resources] has no entry for it,
    the counts and records of all other ids are as before, and no search
    returns the id. *)
Theorem X1_remove_strikes_the_id (ix : JsonlIndexer.t) (id : ResourceId.t) :
  index_wf ix ->
  NoDup (PyDict.keys (JsonlIndexer._resources ix)) ->
  let ix' := JsonlIndexer.remove ix id in
  let rid := ResourceId.value id in
  (forall t, count_of ix' t rid = 0%nat)
  /\ PyDict.get rid (JsonlIndexer._resources ix') = None
  /\ (forall t other, other <> rid -> count_of ix' t other = count_of ix t other)
  /\ (forall other, other <> rid ->
        PyDict.get other (JsonlIndexer._resources ix')
        = PyDict.get other (JsonlIndexer._resources ix))
  /\ (forall query top_k, exists ids,
        JsonlIndexer.search_local ix' query top_k = Ok ids /\ id ∉ ids).
Proof.
  intros Hwf Hnd ix' rid. split; [|split; [|split; [|split]]].
  - intros t. unfold ix', rid. rewrite count_of_remove by done. by rewrite decide_True.
  - unfold ix', JsonlIndexer.remove, rid, ResourceId.str. cbn [JsonlIndexer._resources].
    rewrite PopFacts.get_pop by done. by rewrite decide_True.
  - intros t other Hne. unfold ix'. rewrite count_of_remove by done.
    rewrite decide_False; [done|]. by intros <-.
  - intros other Hne. unfold ix', JsonlIndexer.remove, ResourceId.str.
    cbn [JsonlIndexer._resources]. rewrite PopFacts.get_pop by done.
    rewrite decide_False; [done|]. by intros <-.
  - intros query top_k.
    destruct (search_local_ranking ix' query top_k (index_wf_remove ix id Hwf))
      as (ranked & ids & Hs & Hv & _ & Hposted & _).
    exists ids. split; [done|]. intros Hin.
    assert (rid ∈ ResourceId.value <$> ids) as Hr.
    { apply list_elem_of_fmap. by exists id. }
    rewrite Hv in Hr. apply elem_of_take in Hr as (i & Hr & _).
    apply list_elem_of_lookup_2 in Hr. apply Hposted in Hr.
    apply posted_remove in Hr as [Hne _]; done.
Qed.

(** X2.  Remove-then-index replaces: after [remove] of a resource's id and
    [index_resource] of the resource, the counts of the id are those of this
    one indexing, whatever the index held for the id before. *)
Theorem X2_remove_then_index_replaces
    (ix : JsonlIndexer.t) (r : Resource.t) (content term : string) :
  index_wf ix ->
  count_of (JsonlIndexer.index_resource (JsonlIndexer.remove ix (Resource.id r)) r content)
           term (ResourceId.value (Resource.id r))
  = occurrences term (JsonlIndexer._tokenize (Resource.title r +:+ " " +:+ content)).
Proof.
  intros Hwf. rewrite count_of_index_resource, count_of_remove by done.
  by rewrite !decide_True.
Qed.

(** X3.  The searches that return nothing: a [top_k] of 0 or less, an index
    with no tokens, and a query without tokens (empty, or only stopwords,
    single characters and punctuation). *)
Theorem X3_search_local_empty_answers :
  (forall ix query top_k, top_k <= 0 -> JsonlIndexer.search_local ix query top_k = Ok [])
  /\ (forall query top_k, JsonlIndexer.search_local JsonlIndexer.empty query top_k = Ok [])
  /\ (forall ix query top_k,
        JsonlIndexer._tokenize query = [] ->
        JsonlIndexer.search_local ix query top_k = Ok []).
Proof.
  split; [|split].
  - intros ix query top_k Hk. unfold JsonlIndexer.search_local, Counter.most_common.
    replace (Z.to_nat top_k) with 0%nat by lia. reflexivity.
  - intros query top_k. unfold JsonlIndexer.search_local.
    assert (foldl (JsonlIndexer.score_term (JsonlIndexer._index JsonlIndexer.empty)) []
              (JsonlIndexer._tokenize query) = []) as ->.
    { induction (JsonlIndexer._tokenize query) as [|t ts IH]; [done|].
      cbn [foldl]. unfold JsonlIndexer.score_term at 2.
      cbn [JsonlIndexer._index JsonlIndexer.empty]. by rewrite lookup_empty. }
    unfold Counter.most_common. cbn [Counter.sorted_desc]. by rewrite take_nil.
  - intros ix query top_k Hq. unfold JsonlIndexer.search_local, Counter.most_common.
    rewrite Hq. cbn [foldl Counter.sorted_desc]. by rewrite take_nil.
Qed.

(** ** JsonlIndexer: order of the answer *)

Lemma set_set {V} k (v1 v2 : V) d :
  PyDict.set k v2 (PyDict.set k v1 d) = PyDict.set k v2 d.
Proof.
  induction d as [|[k0 v0] d IH]; cbn [PyDict.set].
  - by rewrite String.eqb_refl.
  - destruct (String.eqb k k0) eqn:E; cbn [PyDict.set].
    + by rewrite String.eqb_refl.
    + by rewrite E, IH.
Qed.

Lemma iter_bump rid n c :
  Nat.iter (S n) (bump rid) c = Counter.add c rid (S n).
Proof.
  induction n as [|n IH]; [done|].
  rewrite Nat.iter_succ, IH. unfold bump, Counter.add, Counter.get.
  rewrite PyDictFacts.get_set, decide_True by done. cbn [default from_option id].
  rewrite set_set. f_equal. lia.
Qed.

(** X4.  Two resources indexed one after the other into an empty index and
    searched by a one-token query that occurs in both: the one with more
    occurrences comes first, and with equally many the one indexed first
    (Python's sort is stable and the dicts keep insertion order). *)
Theorem X4_ties_keep_indexing_order
    (A B : Resource.t) (cA cB query t : string) (top_k : Z) :
  let nA := occurrences t (JsonlIndexer._tokenize (Resource.title A +:+ " " +:+ cA)) in
  let nB := occurrences t (JsonlIndexer._tokenize (Resource.title B +:+ " " +:+ cB)) in
  ResourceId.value (Resource.id A) <> ResourceId.value (Resource.id B) ->
  JsonlIndexer._tokenize query = [t] ->
  (0 < nA)%nat -> (0 < nB)%nat -> 2 <= top_k ->
  JsonlIndexer.search_local
    (JsonlIndexer.index_resource (JsonlIndexer.index_resource JsonlIndexer.empty A cA) B cB)
    query top_k
  = Ok (if (nB <=? nA)%nat then [Resource.id A; Resource.id B]
        else [Resource.id B; Resource.id A]).
Proof.
  intros nA nB Hne Hq HA HB Hk.
  unfold JsonlIndexer.search_local. rewrite Hq. cbn [foldl]. unfold JsonlIndexer.score_term.
  assert (default [] (JsonlIndexer._index
            (JsonlIndexer.index_resource (JsonlIndexer.index_resource JsonlIndexer.empty A cA)
               B cB) !! t)
          = [(ResourceId.value (Resource.id A), nA); (ResourceId.value (Resource.id B), nB)])
    as Hc.
  { unfold JsonlIndexer.index_resource, ResourceId.str.
    cbn [JsonlIndexer._index JsonlIndexer.empty].
    rewrite !count_terms_lookup. fold nA nB. rewrite lookup_empty.
    cbn [default from_option id].
    destruct nA as [|nA']; [lia|]. destruct nB as [|nB']; [lia|].
    rewrite !iter_bump, add_fresh, add_other by done. reflexivity. }
  destruct (JsonlIndexer._index _ !! t) as [c|] eqn:E; [|done].
  cbn [default from_option id] in Hc. subst c.
  unfold JsonlIndexer.add_items. cbn [foldl].
  rewrite add_fresh, add_other by done.
  unfold Counter.most_common. cbn [Counter.sorted_desc Counter.insert_desc snd].
  destruct (Z.to_nat top_k) as [|[|n]] eqn:En; [lia|lia|].
  destruct (nB <=? nA)%nat;
    cbn [take fmap list_fmap fst JsonlIndexer.make_ids];
    rewrite !ResourceId_new_value, take_nil; reflexivity.
Qed.

(** ** JsonlIndexer: the tokenizer *)

Module TokenShape.

Lemma all_chars_rev_app p s1 s2 :
  PyStr.all_chars p (String.rev_app s1 s2) = PyStr.all_chars p s1 && PyStr.all_chars p s2.
Proof.
  revert s2. induction s1 as [|c s1 IH]; intros s2; [done|].
  cbn [String.rev_app PyStr.all_chars]. rewrite IH. cbn [PyStr.all_chars].
  destruct (p c), (PyStr.all_chars p s1), (PyStr.all_chars p s2); reflexivity.
Qed.

Lemma flush_shape cur :
  PyStr.all_chars PyStr.is_lower_alnum cur = true ->
  Forall (fun w => PyStr.all_chars PyStr.is_lower_alnum w = true) (PyStr.flush cur).
Proof.
  intros Hcur. destruct cur as [|c cur]; [constructor|].
  cbn [PyStr.flush]. constructor; [|constructor].
  unfold String.rev. rewrite all_chars_rev_app, Hcur. reflexivity.
Qed.

Lemma findall_go_shape s : forall cur,
  PyStr.all_chars PyStr.is_lower_alnum cur = true ->
  Forall (fun w => PyStr.all_chars PyStr.is_lower_alnum w = true) (PyStr.findall_go cur s).
Proof.
  induction s as [|c s IH]; intros cur Hcur; cbn [PyStr.findall_go].
  - by apply flush_shape.
  - destruct (PyStr.is_lower_alnum c) eqn:Hc.
    + apply IH. cbn [PyStr.all_chars]. by rewrite Hc, Hcur.
    + apply Forall_app. split; [by apply flush_shape|]. by apply IH.
Qed.

Lemma lower_char_idem c : PyStr.lower_char (PyStr.lower_char c) = PyStr.lower_char c.
Proof. destruct c as [[] [] [] [] [] [] [] []]; reflexivity. Qed.

Lemma lower_idem s : PyStr.lower (PyStr.lower s) = PyStr.lower s.
Proof.
  induction s as [|c s IH]; [done|]. cbn [PyStr.lower]. by rewrite lower_char_idem, IH.
Qed.

End TokenShape.

(** X5.  Every token [_tokenize] returns is at least two characters long,
    consists of lowercase ASCII letters and digits only, and is no stopword;
    the tokens do not depend on the case of the text. *)
Theorem X5_tokens_shape (text : string) :
  Forall (fun w => (2 <= String.length w)%nat
                   /\ PyStr.all_chars PyStr.is_lower_alnum w = true
                   /\ w ∉ JsonlIndexer.stops)
         (JsonlIndexer._tokenize text)
  /\ JsonlIndexer._tokenize (PyStr.lower text) = JsonlIndexer._tokenize text.
Proof.
  split.
  - unfold JsonlIndexer._tokenize, PyStr.findall_lower_alnum.
    pose proof (TokenShape.findall_go_shape (PyStr.lower text) "" eq_refl) as Hall.
    apply Forall_forall. intros w [[Hstop Hlen] Hw]%list_elem_of_filter.
    rewrite Forall_forall in Hall. split; [lia|]. split; [by apply Hall|done].
  - unfold JsonlIndexer._tokenize. by rewrite TokenShape.lower_idem.
Qed.

(** X6.  The tokens of [title + " " + content], the text [index_resource]
    and [_load] index, are the tokens of the title followed by those of the
    content: no token straddles the two, and the count of a token is the sum
    of its counts in the title and in the content. *)
Theorem X6_tokens_of_title_and_content (title content term : string) :
  JsonlIndexer._tokenize (title +:+ " " +:+ content)
  = JsonlIndexer._tokenize title ++ JsonlIndexer._tokenize content
  /\ occurrences term (JsonlIndexer._tokenize (title +:+ " " +:+ content))
     = (occurrences term (JsonlIndexer._tokenize title)
        + occurrences term (JsonlIndexer._tokenize content))%nat.
Proof.
  rewrite TokenizeFacts.tokenize_join. split; [done|].
  apply TokenizeFacts.occurrences_app.
Qed.

(** ** JsonlIndexer: the index and the resources stay in step *)

(** Every id a counter holds is an id of [_resources], whose keys are the ids
    of the resources stored under them, each once. *)
Definition coherent (ix : JsonlIndexer.t) : Prop :=
  index_wf ix
  /\ NoDup (PyDict.keys (JsonlIndexer._resources ix))
  /\ Forall (fun kr => fst kr = rid_of (snd kr)) (JsonlIndexer._resources ix)
  /\ (forall t rid, rid ∈ PyDict.keys (default [] (JsonlIndexer._index ix !! t)) ->
        rid ∈ PyDict.keys (JsonlIndexer._resources ix)).

Lemma keys_iter_bump rid n c rid' :
  rid' ∈ PyDict.keys (Nat.iter n (bump rid) c) -> rid' = rid \/ rid' ∈ PyDict.keys c.
Proof.
  induction n as [|n IH]; [by right|].
  rewrite Nat.iter_succ. unfold bump at 1.
  intros [->|Hin]%CounterFacts.elem_keys_add; [by left|auto].
Qed.

Lemma coherent_empty : coherent JsonlIndexer.empty.
Proof.
  split; [apply index_wf_empty|]. split; [constructor|]. split; [constructor|].
  intros t rid Hin. cbn [JsonlIndexer._index JsonlIndexer.empty] in Hin.
  rewrite lookup_empty in Hin. by apply elem_of_nil in Hin.
Qed.

Lemma coherent_count_terms ix r terms :
  coherent ix ->
  coherent (JsonlIndexer.Make
              (JsonlIndexer.count_terms (rid_of r) terms (JsonlIndexer._index ix))
              (PyDict.set (rid_of r) r (JsonlIndexer._resources ix))).
Proof.
  intros (Hwf & Hnd & Hid & Hsub).
  split; [|split; [|split]]; cbn [JsonlIndexer._index JsonlIndexer._resources].
  - apply index_wf_count_terms; [|done]. apply (ResourceId.post_init (Resource.id r)).
  - by apply PyDictFacts.NoDup_set.
  - by apply Forall_set_key.
  - intros t rid Hin. rewrite count_terms_lookup in Hin.
    apply PyDictFacts.elem_keys_set.
    apply keys_iter_bump in Hin as [->|Hin]; [by left|right; by apply (Hsub t)].
Qed.

Lemma coherent_index_resource ix r content :
  coherent ix -> coherent (JsonlIndexer.index_resource ix r content).
Proof. apply coherent_count_terms. Qed.

Lemma coherent_remove ix id : coherent ix -> coherent (JsonlIndexer.remove ix id).
Proof.
  intros (Hwf & Hnd & Hid & Hsub).
  split; [by apply index_wf_remove|]. split; [|split].
  - by apply PopFacts.NoDup_pop.
  - by apply PopFacts.Forall_pop.
  - intros t rid Hin. rewrite remove_lookup in Hin.
    unfold JsonlIndexer.remove, ResourceId.str. cbn [JsonlIndexer._resources].
    apply PopFacts.keys_pop in Hin as [Hne Hin].
    + apply PopFacts.keys_pop; [done|]. split; [done|]. by apply (Hsub t).
    + destruct (JsonlIndexer._index ix !! t) as [c|] eqn:E; [by apply (Hwf t)|constructor].
Qed.

Section coherent_load.
Context `{Json}.

Lemma coherent_load_lines fs lines : forall st st',
  JsonlIndexer.load_lines fs st lines = Ok st' -> coherent (snd st) -> coherent (snd st').
Proof.
  induction lines as [|raw lines IH]; intros st st' Hl Hc.
  - by injection Hl as <-.
  - apply load_lines_cons_Ok in Hl as (st1 & H1 & H2). apply (IH st1 st' H2).
    apply load_line_Ok in H1 as [->|(r & _ & _ & ->)]; [done|].
    cbn [loaded snd]. by apply coherent_count_terms.
Qed.

Lemma coherent_init fs ix : JsonlIndexer.init fs = Ok ix -> coherent ix.
Proof.
  unfold JsonlIndexer.init, JsonlIndexer._load.
  destruct (FS.library_jsonl fs) as [lines|]; [|intros [= <-]; apply coherent_empty].
  destruct (JsonlIndexer.load_lines fs (∅, JsonlIndexer.empty) lines) as [st| |] eqn:Hl;
    [|done..].
  intros [= <-]. apply (coherent_load_lines fs lines _ _ Hl). apply coherent_empty.
Qed.

(** X7.  The constructor builds, and [index_resource] and [remove] keep, an
    index in step with its resources: every id a token's counter holds is a
    key of [_resources], no key stands twice in a dict, and every resource is
    stored under its own id. *)
Theorem X7_index_stays_coherent :
  coherent JsonlIndexer.empty
  /\ (forall fs ix, JsonlIndexer.init fs = Ok ix -> coherent ix)
  /\ (forall ix r content, coherent ix -> coherent (JsonlIndexer.index_resource ix r content))
  /\ (forall ix id, coherent ix -> coherent (JsonlIndexer.remove ix id)).
Proof.
  split; [apply coherent_empty|]. split; [apply coherent_init|].
  split; [apply coherent_index_resource|apply coherent_remove].
Qed.

End coherent_load.

Lemma get_value_in {V} k (v : V) d : PyDict.get k d = Some v -> v ∈ PyDict.values d.
Proof.
  intros Hg%PyDictFacts.get_Some_elem. apply list_elem_of_fmap. by exists (k, v).
Qed.

Lemma keys_get {V} k (d : list (string * V)) :
  k ∈ PyDict.keys d -> exists v, PyDict.get k d = Some v.
Proof.
  intros Hin. destruct (PyDict.get k d) as [v|] eqn:E; [by exists v|].
  by apply PyDictFacts.get_None in E.
Qed.

Lemma get_key_id (d : list (string * Resource.t)) k r :
  Forall (fun kr => fst kr = rid_of (snd kr)) d -> PyDict.get k d = Some r -> rid_of r = k.
Proof.
  intros Hid Hg%PyDictFacts.get_Some_elem. rewrite Forall_forall in Hid.
  by specialize (Hid _ Hg).
Qed.

(** X8.  On a coherent index [search_local] never raises; it returns at most
    [top_k] ids, none twice, and each is the id of a resource that [list_all]
    lists. *)
Theorem X8_search_returns_listed_resources
    (ix : JsonlIndexer.t) (query : string) (top_k : Z) :
  coherent ix ->
  exists ids,
    JsonlIndexer.search_local ix query top_k = Ok ids
    /\ (length ids <= Z.to_nat top_k)%nat
    /\ NoDup ids
    /\ (forall id, id ∈ ids ->
          exists r, r ∈ JsonlIndexer.list_all ix /\ Resource.id r = id).
Proof.
  intros (Hwf & Hnd & Hid & Hsub).
  destruct (search_local_ranking ix query top_k Hwf)
    as (ranked & ids & Hs & Hv & Hndr & Hposted & _).
  exists ids. split; [done|]. split; [|split].
  - rewrite <- (length_fmap ResourceId.value), Hv, length_take. lia.
  - apply (NoDup_fmap_1 ResourceId.value). rewrite Hv.
    apply (sublist_NoDup _ ranked Hndr), sublist_take.
  - intros id Hin.
    assert (ResourceId.value id ∈ ranked) as Hr.
    { assert (ResourceId.value id ∈ ResourceId.value <$> ids) as Hm.
      { apply list_elem_of_fmap. by exists id. }
      rewrite Hv in Hm. apply elem_of_take in Hm as (i & Hm & _).
      by apply list_elem_of_lookup_2 in Hm. }
    apply Hposted in Hr as (t & _ & Hk). apply Hsub in Hk.
    apply keys_get in Hk as (r & Hg). exists r. split; [by apply (get_value_in _ _ _ Hg)|].
    apply ResourceId_eq. apply (get_key_id _ _ _ Hid Hg).
Qed.

(** ** JsonlIndexer.list_all *)

Lemma values_set_new {V} k (v : V) d :
  k ∉ PyDict.keys d -> PyDict.values (PyDict.set k v d) = PyDict.values d ++ [v].
Proof.
  unfold PyDict.keys, PyDict.values.
  induction d as [|[k0 v0] d IH]; cbn [PyDict.set fmap list_fmap fst snd]; [done|].
  intros [Hne Hin]%not_elem_of_cons. rewrite PyDictFacts.eqb_decide.
  rewrite bool_decide_eq_false_2 by done. cbn [fmap list_fmap snd app]. f_equal. by apply IH.
Qed.

Lemma values_set_old {V} k (v : V) d :
  k ∈ PyDict.keys d ->
  exists i, PyDict.keys d !! i = Some k
            /\ PyDict.values (PyDict.set k v d) = <[i := v]> (PyDict.values d).
Proof.
  unfold PyDict.keys, PyDict.values.
  induction d as [|[k0 v0] d IH]; cbn [PyDict.set fmap list_fmap fst snd].
  - intros Hin. by apply elem_of_nil in Hin.
  - intros Hin. rewrite PyDictFacts.eqb_decide. case_bool_decide as Hk.
    + subst. by exists 0%nat.
    + apply elem_of_cons in Hin as [?|Hin]; [done|].
      destruct (IH Hin) as (i & Hi & Hv). exists (S i). split; [done|].
      cbn [fmap list_fmap snd]. cbn [fmap] in Hv. by rewrite Hv.
Qed.

(** X9.  [index_resource] and the listing: a resource with a new id goes to
    the end of [list_all]; indexing under an id that is already listed puts
    the new record in the old one's place, so the listing keeps its length
    and its order. *)
Theorem X9_list_all_after_index_resource
    (ix : JsonlIndexer.t) (r : Resource.t) (content : string) :
  let rid := ResourceId.value (Resource.id r) in
  (rid ∉ PyDict.keys (JsonlIndexer._resources ix) ->
     JsonlIndexer.list_all (JsonlIndexer.index_resource ix r content)
     = JsonlIndexer.list_all ix ++ [r])
  /\ (rid ∈ PyDict.keys (JsonlIndexer._resources ix) ->
     exists i, PyDict.keys (JsonlIndexer._resources ix) !! i = Some rid
       /\ JsonlIndexer.list_all (JsonlIndexer.index_resource ix r content)
          = <[i := r]> (JsonlIndexer.list_all ix)
       /\ length (JsonlIndexer.list_all (JsonlIndexer.index_resource ix r content))
          = length (JsonlIndexer.list_all ix)).
Proof.
  intros rid. unfold JsonlIndexer.list_all, JsonlIndexer.index_resource, ResourceId.str.
  cbn [JsonlIndexer._resources]. fold rid. split.
  - apply values_set_new.
  - intros Hin. destruct (values_set_old rid r _ Hin) as (i & Hi & Hv).
    exists i. split; [done|]. split; [done|]. by rewrite Hv, length_insert.
Qed.

(** ** JsonlIndexer._load: the lines it passes over *)

Section skipped_lines.
Context `{Json}.

(** A line the loop of [_load] passes over: blank, not JSON, or JSON whose
    record fails with KeyError or ValueError. *)
Definition passed_over (raw : string) : Prop :=
  PyStr.strip raw = ""
  \/ json_loads (PyStr.strip raw) = None
  \/ exists data, json_loads (PyStr.strip raw) = Some data
       /\ ((exists key, Resource.from_dict data = Raise (KeyError key))
           \/ (exists msg, Resource.from_dict data = Raise (ValueError msg))).

Lemma load_line_passed_over fs st raw :
  passed_over raw -> JsonlIndexer.load_line fs st raw = Ok st.
Proof.
  intros [Hb|[Hj|(data & Hj & [[key Hd]|[msg Hd]])]].
  - by apply load_line_blank.
  - by apply load_line_not_json.
  - by apply (load_line_key_error fs st raw data key).
  - by apply (load_line_value_error fs st raw data msg).
Qed.

(** X10.  Without a ledger file the constructor builds the empty index; and
    a ledger line that is blank, is not JSON, or holds JSON whose record
    raises KeyError (a missing key) or ValueError (an id, url or timestamp
    string that does not validate) changes nothing: the index is the one
    built from the ledger without that line. *)
Theorem X10_load_passes_over_bad_lines :
  (forall fs, FS.library_jsonl fs = None -> JsonlIndexer.init fs = Ok JsonlIndexer.empty)
  /\ (forall fs pre raw post,
        FS.library_jsonl fs = Some (pre ++ raw :: post) ->
        passed_over raw ->
        JsonlIndexer.init fs = JsonlIndexer.init (with_ledger fs (pre ++ post))).
Proof.
  split.
  - intros fs Hl. unfold JsonlIndexer.init, JsonlIndexer._load. by rewrite Hl.
  - intros fs pre raw post Hl Hraw.
    rewrite (init_ledger fs _ Hl), (init_ledger (with_ledger fs _) (pre ++ post)) by done.
    rewrite load_lines_with_ledger, !load_lines_app.
    destruct (JsonlIndexer.load_lines fs (∅, JsonlIndexer.empty) pre) as [st| |]; [|done..].
    cbn [mbind result_bind JsonlIndexer.load_lines].
    by rewrite (load_line_passed_over fs st raw Hraw).
Qed.

End skipped_lines.

(** ** FilesystemStore *)

Module NewlineFacts.

Definition cr : ascii := "013"%char.

(** A text without carriage return is read as it was written. *)
Lemma universal_newlines_plain s :
  PyStr.mem_char cr s = false -> PyStr.universal_newlines s = s.
Proof.
  induction s as [|c s IH]; [done|]. cbn [PyStr.mem_char PyStr.universal_newlines].
  intros [Hc Hs]%orb_false_iff. fold cr. rewrite Ascii.eqb_sym in Hc. rewrite Hc, IH; done.
Qed.

(** What is read has no carriage return. *)
Lemma universal_newlines_no_cr s :
  PyStr.mem_char cr (PyStr.universal_newlines s) = false.
Proof.
  assert (forall n s, (String.length s <= n)%nat ->
            PyStr.mem_char cr (PyStr.universal_newlines s) = false) as Hn.
  { clear s. induction n as [|n IH]; intros [|c s] Hl; try done; [cbn in Hl; lia|].
    cbn [String.length] in Hl. cbn [PyStr.universal_newlines]. fold cr.
    destruct (Ascii.eqb c cr) eqn:Hc.
    - cbn [PyStr.mem_char]. change (Ascii.eqb cr "010") with false. cbn [orb].
      destruct s as [|d s']; [done|]. cbn [String.length] in Hl.
      destruct (Ascii.eqb d "010"); apply IH; cbn [String.length]; lia.
    - cbn [PyStr.mem_char]. rewrite Ascii.eqb_sym, Hc. cbn [orb]. apply IH. lia. }
  by apply (Hn (String.length s)).
Qed.

End NewlineFacts.

Section store_facts.
Context `{Json}.

Lemma lookup_dir_save fs r content raw name :
  FS.lookup_dir (FilesystemStore.save_resource fs r content raw) name
  = if decide (rid_of r = name)
    then Some (FS.ResourceDir
                 (Some (json_dumps (Some 2%nat) (Resource.to_dict r)))
                 (Some content)
                 (match FS.lookup_dir fs name ≫= FS.snippets_json with
                  | Some s => Some s
                  | None => Some (json_dumps None (JArr []))
                  end)
                 (match raw with
                  | Some html => if decide (html = "") then FS.lookup_dir fs name ≫= FS.snapshot_html
                                 else Some html
                  | None => FS.lookup_dir fs name ≫= FS.snapshot_html
                  end))
    else FS.lookup_dir fs name.
Proof.
  unfold FilesystemStore.save_resource, FilesystemStore._append_to_library, FS.lookup_dir,
    rid_of, ResourceId.str.
  cbn [FS.resources mbind option_bind].
  destruct (decide (ResourceId.value (Resource.id r) = name)) as [<-|Hne].
  - rewrite lookup_insert_eq.
    destruct (FS.resources fs) as [m|]; cbn [default from_option id option_bind].
    + change (Some m ≫= (fun m0 : gmap string FS.resource_dir =>
                           m0 !! ResourceId.value (Resource.id r)))
        with (m !! ResourceId.value (Resource.id r)).
      destruct (m !! ResourceId.value (Resource.id r)) as [d|];
        cbn [default from_option id option_bind mbind FS.snippets_json FS.snapshot_html
             FS.empty_dir]; [reflexivity|].
      destruct raw as [html|]; [destruct (decide (html = ""))|]; reflexivity.
    + rewrite lookup_empty.
      cbn [default from_option id option_bind mbind FS.snippets_json FS.snapshot_html
           FS.empty_dir].
      destruct raw as [html|]; [destruct (decide (html = ""))|]; reflexivity.
  - rewrite lookup_insert_ne by done.
    destruct (FS.resources fs) as [m|]; cbn [default from_option id option_bind]; [done|].
    by rewrite lookup_empty.
Qed.

(** The metadata [save_resource] wrote loads as the resource saved. *)
Lemma load_resource_saved fs r content raw :
  json_loads (json_dumps (Some 2%nat) (Resource.to_dict r)) = Some (Resource.to_dict r) ->
  exact_offset (Resource.captured_at r) ->
  FilesystemStore.load_resource (FilesystemStore.save_resource fs r content raw)
    (Resource.id r) = Ok (Some r).
Proof.
  intros Hjson Hex. unfold FilesystemStore.load_resource, ResourceId.str. fold (rid_of r).
  rewrite lookup_dir_save, decide_True by done.
  cbn [mbind option_bind FS.meta_json]. by rewrite Hjson, from_dict_to_dict.
Qed.

(** The content [save_resource] wrote, as it is read. *)
Lemma load_content_saved fs r content raw :
  FilesystemStore.load_content (FilesystemStore.save_resource fs r content raw)
    (Resource.id r) = Some (PyStr.universal_newlines content).
Proof.
  unfold FilesystemStore.load_content, ResourceId.str. fold (rid_of r).
  rewrite lookup_dir_save, decide_True by done. reflexivity.
Qed.

(** X11.  What [save_resource] leaves: the resource exists; its content
    reads back as saved but for the newlines of a read in text mode (what
    was written as carriage return and line feed, or as a lone carriage
    return, reads back as a line feed), so content without a carriage
    return reads back as it was saved; when json reads back what it wrote,
    the metadata loads as the resource saved, for a capture time whose UTC
    offset is none, zero or at least one second; the ledger has grown by
    exactly the resource's line; an existing [snippets.json] is kept; other
    resource directories and files are untouched. *)
Theorem X11_save_resource_then_load
    (fs : FS.t) (r : Resource.t) (content : string) (raw : option string) :
  json_loads (json_dumps (Some 2%nat) (Resource.to_dict r)) = Some (Resource.to_dict r) ->
  let fs' := FilesystemStore.save_resource fs r content raw in
  FilesystemStore.resource_exists fs' (Resource.id r) = true
  /\ FilesystemStore.load_content fs' (Resource.id r)
     = Some (PyStr.universal_newlines content)
  /\ (PyStr.mem_char "013" content = false ->
      FilesystemStore.load_content fs' (Resource.id r) = Some content)
  /\ (match Timestamp.utcoffset (Resource.captured_at r) with
      | None => True
      | Some off => off = 0 \/ 1000000 <= Z.abs off
      end ->
      FilesystemStore.load_resource fs' (Resource.id r) = Ok (Some r))
  /\ FS.library_jsonl fs'
     = Some (default [] (FS.library_jsonl fs) ++ [json_dumps None (Resource.to_dict r)])
  /\ (forall s, FS.lookup_dir fs (rid_of r) ≫= FS.snippets_json = Some s ->
        FS.lookup_dir fs' (rid_of r) ≫= FS.snippets_json = Some s)
  /\ (forall name, name <> rid_of r -> FS.lookup_dir fs' name = FS.lookup_dir fs name)
  /\ FS.files fs' = FS.files fs.
Proof.
  intros Hjson fs'.
  pose proof (lookup_dir_save fs r content raw (rid_of r)) as Hd.
  rewrite decide_True in Hd by done. fold fs' in Hd.
  split.
  { unfold FilesystemStore.resource_exists, ResourceId.str. fold (rid_of r). rewrite Hd.
    by apply bool_decide_eq_true_2. }
  split; [apply load_content_saved|]. split.
  { intros Hcr. unfold fs'. rewrite load_content_saved.
    by rewrite NewlineFacts.universal_newlines_plain. }
  split; [intros Hex%exact_offset_spec; by apply load_resource_saved|].
  split; [reflexivity|]. split.
  { intros s Hs. rewrite Hd. cbn [mbind option_bind FS.snippets_json]. by rewrite Hs. }
  split; [|reflexivity].
  intros name Hne. unfold fs'. rewrite lookup_dir_save. by rewrite decide_False.
Qed.

End store_facts.

(** ** Snippets *)

Section snippets_facts.
Context `{Json}.

Lemma lookup_dir_save_snippets fs rid_v v name :
  FS.lookup_dir (StoreSnippets.save_snippets fs rid_v v) name
  = if decide (ResourceId.value rid_v = name)
    then Some (FS.ResourceDir (FS.lookup_dir fs name ≫= FS.meta_json)
                 (FS.lookup_dir fs name ≫= FS.content_md)
                 (Some (json_dumps (Some 2%nat) v))
                 (FS.lookup_dir fs name ≫= FS.snapshot_html))
    else FS.lookup_dir fs name.
Proof.
  unfold StoreSnippets.save_snippets, FS.lookup_dir, ResourceId.str.
  cbn [FS.resources mbind option_bind].
  destruct (decide (ResourceId.value rid_v = name)) as [<-|Hne].
  - rewrite lookup_insert_eq.
    destruct (FS.resources fs) as [m|]; cbn [default from_option id option_bind].
    + change (Some m ≫= (fun m0 : gmap string FS.resource_dir => m0 !! ResourceId.value rid_v))
        with (m !! ResourceId.value rid_v).
      destruct (m !! ResourceId.value rid_v) as [d|];
        cbn [default from_option id option_bind mbind FS.meta_json FS.content_md
             FS.snapshot_html FS.empty_dir]; reflexivity.
    + rewrite lookup_empty. reflexivity.
  - rewrite lookup_insert_ne by done.
    destruct (FS.resources fs) as [m|]; cbn [default from_option id option_bind]; [done|].
    by rewrite lookup_empty.
Qed.

(** X12.  Snippets are kept beside the resource, not as part of it:
    [load_snippets] gives the empty list when nothing was saved and (when
    json reads back what it wrote) the list [save_snippets] saved;
    [save_snippets] makes no resource exist and changes no content; and a
    later [save_resource] of the same id keeps the saved snippets. *)
Theorem X12_snippets_roundtrip (fs : FS.t) (rid_v : ResourceId.t) (v : JValue) :
  json_loads (json_dumps (Some 2%nat) v) = Some v ->
  let fs' := StoreSnippets.save_snippets fs rid_v v in
  StoreSnippets.load_snippets fs' rid_v = Ok v
  /\ (FS.lookup_dir fs (ResourceId.value rid_v) ≫= FS.snippets_json = None ->
        StoreSnippets.load_snippets fs rid_v = Ok (JArr []))
  /\ (forall other, FilesystemStore.resource_exists fs' other
                    = FilesystemStore.resource_exists fs other)
  /\ (forall other, FilesystemStore.load_content fs' other
                    = FilesystemStore.load_content fs other)
  /\ (forall r content raw, Resource.id r = rid_v ->
        StoreSnippets.load_snippets (FilesystemStore.save_resource fs' r content raw) rid_v = Ok v).
Proof.
  intros Hjson fs'. split; [|split; [|split; [|split]]].
  - unfold StoreSnippets.load_snippets, ResourceId.str, fs'.
    rewrite lookup_dir_save_snippets, decide_True by done.
    cbn [mbind option_bind FS.snippets_json]. by rewrite Hjson.
  - intros Hnone. unfold StoreSnippets.load_snippets, ResourceId.str. by rewrite Hnone.
  - intros other. unfold FilesystemStore.resource_exists, ResourceId.str, fs'.
    rewrite lookup_dir_save_snippets. by destruct (decide _).
  - intros other. unfold FilesystemStore.load_content, ResourceId.str, fs'.
    rewrite lookup_dir_save_snippets. by destruct (decide _).
  - intros r content raw <-. unfold StoreSnippets.load_snippets, ResourceId.str.
    rewrite lookup_dir_save. unfold rid_of. rewrite decide_True by done.
    cbn [mbind option_bind FS.snippets_json]. unfold fs'.
    rewrite lookup_dir_save_snippets, decide_True by done.
    cbn [mbind option_bind FS.snippets_json]. by rewrite Hjson.
Qed.

End snippets_facts.

(** ** IngestResource.execute: what a successful run leaves, and the runs
    that change nothing *)

Section ingest_facts.
Context `{Json} `{Snapshotter} `{Clock} `{OsPath}.

Lemma existing_found w rid r :
  FilesystemStore.load_resource (fs w) rid = Ok (Some r) ->
  IngestResource.existing rid w = (Ok (Some r), w).
Proof.
  intros Hl. unfold IngestResource.existing, mbind, M_bind, st_bind, st_get, st_lift.
  assert (FilesystemStore.resource_exists (fs w) rid = true) as ->; [|by rewrite Hl].
  unfold FilesystemStore.resource_exists, FilesystemStore.load_resource in *.
  apply bool_decide_eq_true_2.
  destruct (FS.lookup_dir (fs w) (ResourceId.str rid) ≫= FS.meta_json); [done|].
  by injection Hl.
Qed.

(** The short-circuit: an id whose metadata loads is returned as it is. *)
Lemma execute_url_existing w source rid r :
  is_url source = true ->
  ResourceId.from_url source = Ok rid ->
  FilesystemStore.load_resource (fs w) rid = Ok (Some r) ->
  IngestResource.execute source w = (Ok (IngestResource.Response r true), w).
Proof.
  intros Hu Hrid Hl. unfold IngestResource.execute. fold (is_url source). rewrite Hu.
  unfold mbind, M_bind, st_bind, st_lift. rewrite Hrid.
  by rewrite (existing_found w rid r Hl).
Qed.

Lemma execute_local_existing w source content rid r :
  is_url source = false ->
  FS.files (fs w) !! source = Some content ->
  ResourceId.from_content content = Ok rid ->
  FilesystemStore.load_resource (fs w) rid = Ok (Some r) ->
  IngestResource.execute source w = (Ok (IngestResource.Response r true), w).
Proof.
  intros Hu Hf Hrid Hl. unfold IngestResource.execute. fold (is_url source). rewrite Hu.
  unfold mbind, M_bind, st_bind, st_lift, st_get. rewrite Hf, Hrid.
  by rewrite (existing_found w rid r Hl).
Qed.

(** The resource a URL ingest builds. *)
Lemma execute_url_new w source text raw :
  is_url source = true ->
  (forall rid, ResourceId.from_url source = Ok rid ->
     FilesystemStore.resource_exists (fs w) rid = false) ->
  capture source = (Some text, raw) ->
  PyStr.strip text <> "" ->
  exists rid url,
    ResourceId.from_url source = Ok rid /\ Url.value url = source
    /\ let r := Resource.Make rid (IngestResource._extract_title text source) url now
                  (ContentHash.of_ text) [] 0 in
       IngestResource.execute source w
       = (Ok (IngestResource.Response r false),
          MkWorld (FilesystemStore.save_resource (fs w) r text raw)
                  (JsonlIndexer.index_resource (indexer w) r text)).
Proof.
  intros Hu Hnew Hcap Htext.
  destruct (from_url_ok source) as (rid & Hrid & _).
  destruct (Url_new_url source Hu) as (u & Hnu & Hv).
  exists rid, u. split; [done|]. split; [done|]. cbv zeta.
  unfold IngestResource.execute. fold (is_url source). rewrite Hu.
  unfold mbind, M_bind, st_bind, st_lift. rewrite Hrid.
  rewrite (existing_absent w rid (Hnew rid Hrid)), Hcap.
  cbn [default from_option id]. rewrite Hnu.
  unfold IngestResource.store_and_index. rewrite decide_False by done.
  reflexivity.
Qed.

Lemma execute_local_new w source content :
  is_url source = false ->
  FS.files (fs w) !! source = Some content ->
  (forall rid, ResourceId.from_content content = Ok rid ->
     FilesystemStore.resource_exists (fs w) rid = false) ->
  PyStr.strip content <> "" ->
  exists rid url,
    ResourceId.from_content content = Ok rid
    /\ Url.value url = "file://" +:+ abspath source
    /\ let r := Resource.Make rid (IngestResource.basename source) url now
                  (ContentHash.of_ content) [] 0 in
       IngestResource.execute source w
       = (Ok (IngestResource.Response r false),
          MkWorld (FilesystemStore.save_resource (fs w) r content None)
                  (JsonlIndexer.index_resource (indexer w) r content)).
Proof.
  intros Hu Hfile Hnew Htext.
  destruct (from_content_ok content) as (rid & Hrid & _).
  destruct (Url_new_file (abspath source)) as (u & Hnu & Hv).
  exists rid, u. split; [done|]. split; [done|]. cbv zeta.
  unfold IngestResource.execute. fold (is_url source). rewrite Hu.
  unfold mbind, M_bind, st_bind, st_lift, st_get. rewrite Hfile, Hrid.
  rewrite (existing_absent w rid (Hnew rid Hrid)), Hnu.
  unfold IngestResource.store_and_index. rewrite decide_False by done.
  reflexivity.
Qed.

(** X13.  A URL that is not in the store and whose snapshot has text is
    ingested under the id of the URL, with the title the heuristic extracts
    (the URL as fallback), the hash of the text, the clock's time and no
    tags; afterwards the store has the resource, and its text as a read in
    text mode returns it (a carriage return with its line feed, or alone,
    reads as a line feed; text without carriage returns reads as captured),
    the ledger has one more line, and the index counts the tokens of title
    and text under the id, on top of what it held. *)
Theorem X13_url_ingest_stores_and_indexes
    (w : World) (source text : string) (raw : option string) :
  is_url source = true ->
  (forall rid, ResourceId.from_url source = Ok rid ->
     FilesystemStore.resource_exists (fs w) rid = false) ->
  capture source = (Some text, raw) ->
  PyStr.strip text <> "" ->
  exists resp w',
    IngestResource.execute source w = (Ok resp, w')
    /\ let r := IngestResource.resource resp in
       IngestResource.already_existed resp = false
       /\ ResourceId.from_url source = Ok (Resource.id r)
       /\ Resource.title r = IngestResource._extract_title text source
       /\ Url.value (Resource.url r) = source
       /\ Resource.captured_at r = now
       /\ Resource.content_hash r = ContentHash.of_ text
       /\ Resource.tags r = []
       /\ FilesystemStore.resource_exists (fs w') (Resource.id r) = true
       /\ FilesystemStore.load_content (fs w') (Resource.id r)
          = Some (PyStr.universal_newlines text)
       /\ (PyStr.mem_char "013" text = false ->
           FilesystemStore.load_content (fs w') (Resource.id r) = Some text)
       /\ FS.library_jsonl (fs w')
          = Some (default [] (FS.library_jsonl (fs w))
                  ++ [json_dumps None (Resource.to_dict r)])
       /\ (forall t, count_of (indexer w') t (rid_of r)
                     = (count_of (indexer w) t (rid_of r)
                        + occurrences t (JsonlIndexer._tokenize
                                           (Resource.title r +:+ " " +:+ text)))%nat).
Proof.
  intros Hu Hnew Hcap Htext.
  destruct (execute_url_new w source text raw Hu Hnew Hcap Htext)
    as (rid & url & Hrid & Hv & He). cbv zeta in He.
  eexists _, _. split; [exact He|]. cbv zeta.
  cbn [IngestResource.resource IngestResource.already_existed Resource.id Resource.title
       Resource.url Resource.captured_at Resource.content_hash Resource.tags fs indexer].
  repeat (split; [done|]).
  set (r := Resource.Make rid _ url now _ [] 0).
  pose proof (lookup_dir_save (fs w) r text raw (rid_of r)) as Hd.
  rewrite decide_True in Hd by done.
  unfold FilesystemStore.resource_exists, FilesystemStore.load_content, ResourceId.str.
  change (ResourceId.value rid) with (rid_of r). rewrite Hd.
  cbn [mbind option_bind FS.meta_json FS.content_md fmap option_fmap option_map
       FS.read_text].
  split; [by apply bool_decide_eq_true_2|]. split; [reflexivity|].
  split; [intros Hcr; by rewrite NewlineFacts.universal_newlines_plain|].
  split; [reflexivity|].
  intros t. rewrite count_of_index_resource. by rewrite decide_True.
Qed.

(** X14.  Ingest deduplicates (when json reads back the metadata it wrote,
    and the clock gives times whose UTC offset is none, zero or at least one
    second, as a UTC clock does): after a URL was ingested, ingesting it
    again returns the stored resource with [already_existed] and changes
    nothing, without looking at the snapshot; after a local file was
    ingested, so does every file with the same content, under whatever
    path. *)
Theorem X14_second_ingest_already_existed :
  (forall r, json_loads (json_dumps (Some 2%nat) (Resource.to_dict r))
             = Some (Resource.to_dict r)) ->
  match Timestamp.utcoffset now with
  | None => True
  | Some off => off = 0 \/ 1000000 <= Z.abs off
  end ->
  (forall w source resp w',
     is_url source = true ->
     IngestResource.execute source w = (Ok resp, w') ->
     IngestResource.execute source w'
     = (Ok (IngestResource.Response (IngestResource.resource resp) true), w'))
  /\ (forall w source source' content resp w',
     is_url source = false -> is_url source' = false ->
     FS.files (fs w) !! source = Some content ->
     FS.files (fs w) !! source' = Some content ->
     IngestResource.execute source w = (Ok resp, w') ->
     IngestResource.execute source' w'
     = (Ok (IngestResource.Response (IngestResource.resource resp) true), w')).
Proof.
  intros Hjson Hclock%exact_offset_spec. split.
  - intros w source resp w' Hu He.
    destruct (from_url_ok source) as (rid & Hrid & _).
    assert (FilesystemStore.load_resource (fs w') rid = Ok (Some (IngestResource.resource resp)))
      as Hl; [|by apply (execute_url_existing w' source rid)].
    revert He. unfold IngestResource.execute. fold (is_url source). rewrite Hu.
    unfold mbind, M_bind, st_bind, st_lift. rewrite Hrid.
    unfold IngestResource.existing, mbind, M_bind, st_bind, st_get, st_lift, st_ret.
    destruct (FilesystemStore.resource_exists (fs w) rid) eqn:Hex.
    + destruct (FilesystemStore.load_resource (fs w) rid) as [[e|]| |] eqn:Hle; [| |done..].
      * by intros [= <- <-].
      * exfalso. unfold FilesystemStore.resource_exists, FilesystemStore.load_resource in *.
        apply bool_decide_eq_true_1 in Hex as [meta Hm]. rewrite Hm in Hle.
        destruct (json_loads meta); [|done]. by destruct (Resource.from_dict j).
    + destruct (capture source) as [text raw].
      destruct (Url_new_url source Hu) as (u & Hnu & _). rewrite Hnu.
      unfold IngestResource.store_and_index. destruct (decide _); [done|].
      intros [= <- <-]. cbn [IngestResource.resource fs].
      by apply load_resource_saved.
  - intros w source source' content resp w' Hu Hu' Hf Hf' He.
    destruct (from_content_ok content) as (rid & Hrid & _).
    assert (FilesystemStore.load_resource (fs w') rid
            = Ok (Some (IngestResource.resource resp))
            /\ FS.files (fs w') = FS.files (fs w)) as [Hl Hfiles].
    2:{ apply (execute_local_existing w' source' content rid); try done. by rewrite Hfiles. }
    revert He. unfold IngestResource.execute. fold (is_url source). rewrite Hu.
    unfold mbind, M_bind, st_bind, st_lift, st_get. rewrite Hf, Hrid.
    unfold IngestResource.existing, mbind, M_bind, st_bind, st_get, st_lift, st_ret.
    destruct (FilesystemStore.resource_exists (fs w) rid) eqn:Hex.
    + destruct (FilesystemStore.load_resource (fs w) rid) as [[e|]| |] eqn:Hle; [| |done..].
      * by intros [= <- <-].
      * exfalso. unfold FilesystemStore.resource_exists, FilesystemStore.load_resource in *.
        apply bool_decide_eq_true_1 in Hex as [meta Hm]. rewrite Hm in Hle.
        destruct (json_loads meta); [|done]. by destruct (Resource.from_dict j).
    + destruct (Url_new_file (abspath source)) as (u & Hnu & _). rewrite Hnu.
      unfold IngestResource.store_and_index. destruct (decide _); [done|].
      intros [= <- <-]. cbn [IngestResource.resource fs]. split; [|reflexivity].
      by apply load_resource_saved.
Qed.

(** X15.  The local ingests that fail leave the world as it was: a path
    that is neither a file nor a directory raises FileNotFoundError; a path
    that is a directory passes the existence check and raises the
    IsADirectoryError of [open]; a file that is new to the store but holds
    only whitespace raises the ValueError of empty content. *)
Theorem X15_local_ingest_failures :
  (forall w source,
     is_url source = false -> FS.files (fs w) !! source = None ->
     isdir source = false ->
     IngestResource.execute source w
     = (Raise (FileNotFoundError ("File not found: " +:+ source)), w))
  /\ (forall w source,
     is_url source = false -> FS.files (fs w) !! source = None ->
     isdir source = true ->
     IngestResource.execute source w = (Raise (IsADirectoryError source), w))
  /\ (forall w source content,
     is_url source = false -> FS.files (fs w) !! source = Some content ->
     (forall rid, ResourceId.from_content content = Ok rid ->
        FilesystemStore.resource_exists (fs w) rid = false) ->
     PyStr.strip content = "" ->
     exists msg, IngestResource.execute source w = (Raise (ValueError msg), w)).
Proof.
  split; [|split].
  - intros w source Hu Hf Hd. unfold IngestResource.execute. fold (is_url source).
    rewrite Hu. unfold mbind, M_bind, st_bind, st_get. rewrite Hf, Hd. reflexivity.
  - intros w source Hu Hf Hd. unfold IngestResource.execute. fold (is_url source).
    rewrite Hu. unfold mbind, M_bind, st_bind, st_get. rewrite Hf, Hd. reflexivity.
  - intros w source content Hu Hf Hnew Hblank. eexists.
    destruct (from_content_ok content) as (rid & Hrid & _).
    destruct (Url_new_file (abspath source)) as (u & Hnu & _).
    unfold IngestResource.execute. fold (is_url source). rewrite Hu.
    unfold mbind, M_bind, st_bind, st_lift, st_get. rewrite Hf, Hrid.
    rewrite (existing_absent w rid (Hnew rid Hrid)), Hnu.
    unfold IngestResource.store_and_index. rewrite decide_True by done. reflexivity.
Qed.

End ingest_facts.

(** ** The title heuristic: frontmatter, and when the fallback is used *)

Module StripFacts.

Lemma lstrip_empty p s : PyStr.lstrip_by p s = "" <-> PyStr.all_chars p s = true.
Proof.
  induction s as [|c s IH]; cbn [PyStr.lstrip_by PyStr.all_chars]; [done|].
  destruct (p c); cbn [andb]; [exact IH|]. split; discriminate.
Qed.

Lemma lstrip_head p s c t : PyStr.lstrip_by p s = String c t -> p c = false.
Proof.
  induction s as [|d s IH]; cbn [PyStr.lstrip_by]; [discriminate|].
  destruct (p d) eqn:Hd; [exact IH|]. by intros [= <- <-].
Qed.

Lemma rstrip_empty p s : PyStr.rstrip_by p s = "" <-> PyStr.all_chars p s = true.
Proof.
  induction s as [|c s IH]; cbn [PyStr.rstrip_by PyStr.all_chars]; [done|].
  destruct (PyStr.rstrip_by p s) as [|d r].
  - destruct (p c); cbn [andb].
    + split; [intros _; by apply IH|done].
    + split; discriminate.
  - split; [discriminate|]. intros [_ Hs]%andb_true_iff.
    apply IH in Hs. discriminate.
Qed.

Lemma rstrip_head p c t : p c = false -> PyStr.rstrip_by p (String c t) <> "".
Proof.
  intros Hc. cbn [PyStr.rstrip_by]. destruct (PyStr.rstrip_by p t); [|discriminate].
  by rewrite Hc.
Qed.

Lemma rstrip_idem p s : PyStr.rstrip_by p (PyStr.rstrip_by p s) = PyStr.rstrip_by p s.
Proof.
  induction s as [|c s IH]; [done|]. cbn [PyStr.rstrip_by].
  destruct (PyStr.rstrip_by p s) as [|d r] eqn:E.
  - destruct (p c) eqn:Hc; [done|]. cbn [PyStr.rstrip_by]. by rewrite Hc.
  - cbn [PyStr.rstrip_by]. cbn [PyStr.rstrip_by] in IH.
    destruct (PyStr.rstrip_by p r) as [|d' r'] eqn:E'.
    + destruct (p d); [discriminate|]. injection IH as <-. reflexivity.
    + rewrite IH. reflexivity.
Qed.

(** A string without trailing [p]-characters: its tails have none either. *)
Lemma rstrip_fixed_tail p c t :
  PyStr.rstrip_by p (String c t) = String c t -> t <> "" -> PyStr.rstrip_by p t = t.
Proof.
  cbn [PyStr.rstrip_by]. destruct (PyStr.rstrip_by p t) as [|d r].
  - destruct (p c); [discriminate|]. intros [= <-]. done.
  - by intros [= <-].
Qed.

Lemma rstrip_fixed_single p c : PyStr.rstrip_by p (String c "") = String c "" -> p c = false.
Proof. cbn [PyStr.rstrip_by]. by destruct (p c). Qed.

Lemma strip_nonempty p s : s <> "" -> PyStr.rstrip_by p s = s -> PyStr.strip_by p s <> "".
Proof.
  intros Hs Hfix. unfold PyStr.strip_by.
  destruct (PyStr.lstrip_by p s) as [|c t] eqn:El.
  - apply lstrip_empty, rstrip_empty in El. congruence.
  - apply rstrip_head. by apply (lstrip_head p s c t).
Qed.

Lemma strip_rstrip_fixed p s : PyStr.rstrip_by p (PyStr.strip_by p s) = PyStr.strip_by p s.
Proof. apply rstrip_idem. Qed.

(** The text of a heading is never empty. *)
Lemma heading_text_nonempty stripped :
  PyStr.rstrip_by PyStr.is_space stripped = stripped ->
  PyStr.startswith "# " stripped = true ->
  PyStr.strip (PyStr.slice_from 2 stripped) <> "".
Proof.
  intros Hfix Hp. unfold PyStr.startswith in Hp.
  destruct stripped as [|c1 [|c2 rest]]; [done| |].
  { apply prefix_cons_inv in Hp as [_ Hp]. cbn [String.prefix] in Hp. discriminate. }
  apply prefix_cons_inv in Hp as [<- Hp]. apply prefix_cons_inv in Hp as [<- _].
  cbn [PyStr.slice_from].
  apply rstrip_fixed_tail in Hfix; [|done].
  destruct rest as [|c3 rest'].
  { apply rstrip_fixed_single in Hfix. discriminate. }
  apply rstrip_fixed_tail in Hfix; [|done].
  by apply strip_nonempty.
Qed.

End StripFacts.

Module FrontmatterFacts.
Import Title.

(** The value of a [title:] line of the frontmatter, if the line is one and
    the value is not empty: what follows the six characters of the key,
    without the white space and the quotation marks around it. *)
Definition field_value (line : string) : option string :=
  let stripped := PyStr.strip line in
  if PyStr.startswith "title:" (PyStr.lower stripped) then
    let val := PyStr.strip_chars quote_chars (PyStr.strip (PyStr.slice_from 6 stripped)) in
    if decide (val = "") then None else Some val
  else None.

Lemma frontmatter_title_skip delimiter pre rest :
  Forall (fun l => PyStr.strip l <> delimiter /\ field_value l = None) pre ->
  frontmatter_title delimiter (pre ++ rest) = frontmatter_title delimiter rest.
Proof.
  induction 1 as [|l pre [Hd Hf] _ IH]; [done|].
  cbn [app frontmatter_title]. rewrite decide_False by done.
  unfold field_value in Hf.
  destruct (PyStr.startswith "title:" (PyStr.lower (PyStr.strip l))) eqn:Hp; [|done].
  destruct (split1_title_field _ Hp) as (key & _ & ->).
  by destruct (decide _).
Qed.

Lemma frontmatter_title_here delimiter line rest val :
  PyStr.strip line <> delimiter -> field_value line = Some val ->
  frontmatter_title delimiter (line :: rest) = Some val.
Proof.
  intros Hd Hf. cbn [frontmatter_title]. rewrite decide_False by done.
  unfold field_value in Hf.
  destruct (PyStr.startswith "title:" (PyStr.lower (PyStr.strip line))) eqn:Hp; [|done].
  destruct (split1_title_field _ Hp) as (key & _ & ->).
  by destruct (decide _).
Qed.

Lemma frontmatter_title_nonempty delimiter lines val :
  frontmatter_title delimiter lines = Some val -> val <> "".
Proof.
  induction lines as [|l lines IH]; cbn [frontmatter_title]; [done|].
  destruct (decide _); [done|].
  destruct (PyStr.startswith _ _); [|done].
  destruct (decide _) as [|Hne]; [done|]. by intros [= <-].
Qed.

Lemma scan_body_nonempty lines t : scan_body lines = Some t -> t <> "".
Proof.
  induction lines as [|l lines IH]; cbn [scan_body]; [done|].
  destruct (PyStr.startswith "# " (PyStr.strip l)) eqn:Hh.
  - intros [= <-]. apply StripFacts.heading_text_nonempty; [|done].
    apply StripFacts.strip_rstrip_fixed.
  - destruct (bool_decide (PyStr.strip l = "")) eqn:Hb; cbn [negb andb]; [done|].
    destruct (_ && _); [|done]. intros [= <-]. by apply bool_decide_eq_false_1 in Hb.
Qed.

Lemma scan_all_nonempty lines t : scan_all lines = Some t -> t <> "".
Proof.
  induction lines as [|l lines IH]; cbn [scan_all]; [done|].
  destruct (PyStr.startswith "# " (PyStr.strip l)) eqn:Hh.
  - intros [= <-]. apply StripFacts.heading_text_nonempty; [|done].
    apply StripFacts.strip_rstrip_fixed.
  - destruct (bool_decide (PyStr.strip l = "")) eqn:Hb; cbn [negb andb]; [done|].
    destruct (_ <? _); [|done]. intros [= <-]. by apply bool_decide_eq_false_1 in Hb.
Qed.

(** With frontmatter the last loop stops at the delimiter line at the
    latest. *)
Lemma scan_all_delimiter first rest :
  is_delimiter (PyStr.strip first) = true ->
  scan_all (first :: rest) = Some (PyStr.strip first).
Proof.
  unfold is_delimiter. intros Hd. cbn [scan_all].
  apply orb_true_iff in Hd as [->%bool_decide_eq_true_1 | ->%bool_decide_eq_true_1];
    reflexivity.
Qed.

End FrontmatterFacts.

(** X16.  A [title:] field of the frontmatter decides the title before any
    heading is looked at: when the first line is [---] or [+++] and, before
    the line that closes the block, a line starts with [title:] (in any case)
    and has a value left after white space and quotation marks are taken
    off, the title is the value of the first such line, whatever the body
    and the fallback are. *)
Theorem X16_frontmatter_title_wins
    (content fallback first : string) (pre : list string) (line : string)
    (post : list string) (val : string) :
  PyStr.split Title.nl content = first :: pre ++ line :: post ->
  Title.is_delimiter (PyStr.strip first) = true ->
  Forall (fun l => PyStr.strip l <> PyStr.strip first
                   /\ FrontmatterFacts.field_value l = None) pre ->
  PyStr.strip line <> PyStr.strip first ->
  FrontmatterFacts.field_value line = Some val ->
  Title._extract_title content fallback = val /\ val <> "".
Proof.
  intros Hsplit Hd Hpre Hline Hval.
  assert (Title.frontmatter_title (PyStr.strip first) (pre ++ line :: post) = Some val) as Hf.
  { rewrite (FrontmatterFacts.frontmatter_title_skip _ _ _ Hpre).
    by apply FrontmatterFacts.frontmatter_title_here. }
  split; [|by apply (FrontmatterFacts.frontmatter_title_nonempty _ _ _ Hf)].
  unfold Title._extract_title. rewrite Hsplit, Hd. cbv zeta. by rewrite Hf.
Qed.

(** X17.  When the fallback is used.  The title is never empty unless the
    fallback is; and for content whose first line is a frontmatter delimiter
    the fallback is never used: if neither the frontmatter nor the body
    gives a title, the title is the delimiter line itself. *)
Theorem X17_title_never_empty_nor_fallback_after_frontmatter :
  (forall content fallback, fallback <> "" -> Title._extract_title content fallback <> "")
  /\ (forall content first rest,
        PyStr.split Title.nl content = first :: rest ->
        Title.is_delimiter (PyStr.strip first) = true ->
        (forall fallback fallback',
           Title._extract_title content fallback = Title._extract_title content fallback')
        /\ (Title.frontmatter_title (PyStr.strip first) rest = None ->
            Title.scan_body (drop (Title.body_start (PyStr.strip first) 1 rest) (first :: rest))
            = None ->
            forall fallback, Title._extract_title content fallback = PyStr.strip first)).
Proof.
  split.
  - intros content fallback Hfb. unfold Title._extract_title. cbv zeta.
    destruct (PyStr.split Title.nl content) as [|first rest].
    { cbn [Title.scan_all]. done. }
    destruct (Title.is_delimiter (PyStr.strip first)).
    + destruct (Title.frontmatter_title _ rest) as [t|] eqn:Hf.
      { by apply (FrontmatterFacts.frontmatter_title_nonempty _ _ _ Hf). }
      destruct (Title.scan_body _) as [t|] eqn:Hb.
      { by apply (FrontmatterFacts.scan_body_nonempty _ _ Hb). }
      destruct (Title.scan_all _) as [t|] eqn:Ha; [|done].
      by apply (FrontmatterFacts.scan_all_nonempty _ _ Ha).
    + destruct (Title.scan_all _) as [t|] eqn:Ha; [|done].
      by apply (FrontmatterFacts.scan_all_nonempty _ _ Ha).
  - intros content first rest Hsplit Hd. split.
    + intros fallback fallback'. unfold Title._extract_title. rewrite Hsplit, Hd. cbv zeta.
      destruct (Title.frontmatter_title _ rest); [done|].
      destruct (Title.scan_body _); [done|].
      by rewrite (FrontmatterFacts.scan_all_delimiter _ _ Hd).
    + intros Hf Hb fallback. unfold Title._extract_title. rewrite Hsplit, Hd. cbv zeta.
      rewrite Hf, Hb. by rewrite (FrontmatterFacts.scan_all_delimiter _ _ Hd).
Qed.

(** ** Resource.from_dict on dicts that are not of [to_dict]'s making *)

Module FromDictFacts.

Definition required : list string := ["id"; "title"; "url"; "captured_at"; "content_hash"].

Lemma new_value s r : ResourceId.new s = Ok r -> ResourceId.value r = s.
Proof. unfold ResourceId.new. destruct (decide _); [|done]. by intros [= <-]. Qed.

Lemma url_value s u : Url.new s = Ok u -> Url.value u = s.
Proof. unfold Url.new. destruct (decide _); [|done]. by intros [= <-]. Qed.

Lemma as_str_Ok v s : PyVal.as_str v = Ok s -> v = JStr s.
Proof. destruct v; try done. by intros [= <-]. Qed.

Lemma of_py_Ok v r : ResourceId.of_py v = Ok r -> v = JStr (ResourceId.value r).
Proof. destruct v; try done. cbn [ResourceId.of_py]. by intros <-%new_value. Qed.

Lemma url_of_py_Ok v u : Url.of_py v = Ok u -> v = JStr (Url.value u).
Proof. destruct v; try done. cbn [Url.of_py]. by intros <-%url_value. Qed.

Lemma ts_of_py_Ok v ts : Timestamp.of_py v = Ok ts -> exists s, v = JStr s /\ Timestamp.from_iso s = Ok ts.
Proof. destruct v; try done. cbn [Timestamp.of_py]. intros Hs. by eexists. Qed.

(** What a returned resource says about the dict it was read from. *)
Lemma from_dict_Ok d r :
  Resource.from_dict d = Ok r ->
  exists l iso,
    d = JObj l
    /\ PyVal.assoc "id" l = Some (JStr (ResourceId.value (Resource.id r)))
    /\ PyVal.assoc "title" l = Some (JStr (Resource.title r))
    /\ PyVal.assoc "url" l = Some (JStr (Url.value (Resource.url r)))
    /\ PyVal.assoc "captured_at" l = Some (JStr iso)
    /\ Timestamp.from_iso iso = Ok (Resource.captured_at r)
    /\ PyVal.assoc "content_hash" l = Some (JStr (ContentHash.value (Resource.content_hash r)))
    /\ (PyVal.assoc "tags" l = None -> Resource.tags r = [])
    /\ (PyVal.assoc "snippet_count" l = None -> Resource.snippet_count r = 0).
Proof.
  unfold Resource.from_dict. destruct d as [| | | | |l]; try done.
  cbn [PyVal.getitem PyVal.get].
  destruct (PyVal.assoc "id" l) as [id_v|] eqn:A0; [|done]. cbn [mbind result_bind].
  destruct (ResourceId.of_py id_v) as [rid| |] eqn:Eid; [|done..]. cbn [mbind result_bind].
  destruct (PyVal.assoc "title" l) as [title_v|] eqn:A1; [|done]. cbn [mbind result_bind].
  destruct (PyVal.assoc "url" l) as [url_v|] eqn:A2; [|done]. cbn [mbind result_bind].
  destruct (Url.of_py url_v) as [u| |] eqn:Eu; [|done..]. cbn [mbind result_bind].
  destruct (PyVal.assoc "captured_at" l) as [ts_v|] eqn:A3; [|done]. cbn [mbind result_bind].
  destruct (Timestamp.of_py ts_v) as [ts| |] eqn:Ets; [|done..]. cbn [mbind result_bind].
  destruct (PyVal.assoc "content_hash" l) as [hash_v|] eqn:A4; [|done]. cbn [mbind result_bind].
  destruct (PyVal.as_str title_v) as [ttl| |] eqn:Et; [|done..]. cbn [mbind result_bind].
  destruct (PyVal.as_str hash_v) as [h| |] eqn:Eh; [|done..]. cbn [mbind result_bind].
  destruct (PyVal.as_str_list _) as [tgs| |] eqn:Etags; [|done..]. cbn [mbind result_bind].
  destruct (PyVal.as_int _) as [cnt| |] eqn:Ecnt; [|done..]. cbn [mbind result_bind].
  intros [= <-].
  apply of_py_Ok in Eid as ->. apply url_of_py_Ok in Eu as ->.
  apply ts_of_py_Ok in Ets as (iso & -> & Hiso).
  apply as_str_Ok in Et as ->. apply as_str_Ok in Eh as ->.
  exists l, iso. cbn [Resource.id Resource.title Resource.url Resource.captured_at
    Resource.content_hash Resource.tags Resource.snippet_count ContentHash.value].
  repeat (split; [done|]). split.
  - intros Hn. rewrite Hn in Etags. cbn in Etags. by injection Etags as <-.
  - intros Hn. rewrite Hn in Ecnt. cbn in Ecnt. by injection Ecnt as <-.
Qed.

(** The validating constructors return or raise. *)
Lemma rid_of_py_typed v : ResourceId.of_py v <> Untyped.
Proof. destruct v; try done. cbn [ResourceId.of_py]. unfold ResourceId.new. by destruct (decide _). Qed.

Lemma url_of_py_typed v : Url.of_py v <> Untyped.
Proof. destruct v; try done. cbn [Url.of_py]. unfold Url.new. by destruct (decide _). Qed.

Lemma make_typed f : Datetime.make f <> Untyped.
Proof. unfold Datetime.make. by destruct (decide _). Qed.

Lemma fromisoformat_typed s : Datetime.fromisoformat s <> Untyped.
Proof.
  unfold Datetime.fromisoformat. repeat case_match; try done; apply make_typed.
Qed.

Lemma ts_of_py_typed v : Timestamp.of_py v <> Untyped.
Proof.
  destruct v; try done. cbn [Timestamp.of_py]. unfold Timestamp.from_iso.
  pose proof (fromisoformat_typed s). by destruct (Datetime.fromisoformat s).
Qed.

Lemma from_dict_missing l key :
  key ∈ required -> PyVal.assoc key l = None ->
  exists e, Resource.from_dict (JObj l) = Raise e.
Proof.
  intros Hk Hn. unfold Resource.from_dict. cbn [PyVal.getitem PyVal.get].
  destruct (PyVal.assoc "id" l) as [id_v|] eqn:E1; [|by eexists]. cbn [mbind result_bind].
  destruct (ResourceId.of_py id_v) as [rid|e|] eqn:Eid;
    [|by eexists|by apply rid_of_py_typed in Eid].
  cbn [mbind result_bind].
  destruct (PyVal.assoc "title" l) as [title_v|] eqn:E2; [|by eexists]. cbn [mbind result_bind].
  destruct (PyVal.assoc "url" l) as [url_v|] eqn:E3; [|by eexists]. cbn [mbind result_bind].
  destruct (Url.of_py url_v) as [u|e|] eqn:Eu;
    [|by eexists|by apply url_of_py_typed in Eu].
  cbn [mbind result_bind].
  destruct (PyVal.assoc "captured_at" l) as [ts_v|] eqn:E4; [|by eexists].
  cbn [mbind result_bind].
  destruct (Timestamp.of_py ts_v) as [ts|e|] eqn:Ets;
    [|by eexists|by apply ts_of_py_typed in Ets].
  cbn [mbind result_bind].
  destruct (PyVal.assoc "content_hash" l) as [hash_v|] eqn:E5; [|by eexists].
  exfalso. unfold required in Hk.
  repeat (apply elem_of_cons in Hk as [->|Hk]; [congruence|]).
  by apply elem_of_nil in Hk.
Qed.

End FromDictFacts.

(** X18.  [Resource.from_dict] on any decoded JSON value.  A resource it
    returns carries the dict's own [id], [title], [url] and [content_hash]
    strings and the time its [captured_at] string parses to; a dict without
    [tags] gives no tags and one without [snippet_count] gives count 0; a
    dict that lacks one of the five other keys gives no resource but an
    exception, which is [KeyError('id')] when [id] is the key missing. *)
Theorem X18_from_dict_reads_the_dict :
  (forall d r,
     Resource.from_dict d = Ok r ->
     exists l iso,
       d = JObj l
       /\ PyVal.assoc "id" l = Some (JStr (ResourceId.value (Resource.id r)))
       /\ PyVal.assoc "title" l = Some (JStr (Resource.title r))
       /\ PyVal.assoc "url" l = Some (JStr (Url.value (Resource.url r)))
       /\ PyVal.assoc "captured_at" l = Some (JStr iso)
       /\ Timestamp.from_iso iso = Ok (Resource.captured_at r)
       /\ PyVal.assoc "content_hash" l
          = Some (JStr (ContentHash.value (Resource.content_hash r)))
       /\ (PyVal.assoc "tags" l = None -> Resource.tags r = [])
       /\ (PyVal.assoc "snippet_count" l = None -> Resource.snippet_count r = 0))
  /\ (forall l key,
        key ∈ FromDictFacts.required -> PyVal.assoc key l = None ->
        exists e, Resource.from_dict (JObj l) = Raise e)
  /\ (forall l, PyVal.assoc "id" l = None ->
        Resource.from_dict (JObj l) = Raise (KeyError "id")).
Proof.
  split; [exact FromDictFacts.from_dict_Ok|]. split; [exact FromDictFacts.from_dict_missing|].
  intros l Hn. unfold Resource.from_dict. cbn [PyVal.getitem]. by rewrite Hn.
Qed.

(** * The further theorems at the fixtures *)

Module MoreFixtures.

(** A page with a heading and two words of text. *)
Definition page : string := "# Field notes" +:+ TitleFacts.NL +:+ "alpha beta".

(** A snapshotter that finds the page at every URL. *)
Definition page_snapshotter : Snapshotter :=
  {| capture := fun _ => (Some page, Some "<html></html>") |}.

Definition page_url : string := "https://example.org/notes".

Lemma index_AB_wf : index_wf Fixtures.index_AB.
Proof. do 2 apply index_wf_index_resource. apply index_wf_empty. Qed.

Lemma index_AB_coherent : coherent Fixtures.index_AB.
Proof. do 2 apply coherent_index_resource. apply coherent_empty. Qed.

Lemma page_is_new rid :
  ResourceId.from_url page_url = Ok rid ->
  FilesystemStore.resource_exists (fs Fixtures.world) rid = false.
Proof. intros Hrid. vm_compute in Hrid. injection Hrid as <-. vm_compute. reflexivity. Qed.

End MoreFixtures.

Lemma X1_witness :
  count_of (JsonlIndexer.remove Fixtures.index_AB (Resource.id Fixtures.A))
           "beta" "aaaaaaaaaaaa" = 0%nat
  /\ count_of (JsonlIndexer.remove Fixtures.index_AB (Resource.id Fixtures.A))
              "beta" "bbbbbbbbbbbb" = 1%nat.
Proof.
  destruct (X1_remove_strikes_the_id Fixtures.index_AB (Resource.id Fixtures.A))
    as (Hzero & _ & Hother & _).
  - apply MoreFixtures.index_AB_wf.
  - refine (bool_decide_unpack _ _). vm_compute. exact I.
  - split; [exact (Hzero "beta")|].
    etrans; [apply (Hother "beta" "bbbbbbbbbbbb"); discriminate|]. vm_compute. reflexivity.
Defined.

Lemma X2_witness :
  count_of (JsonlIndexer.index_resource
              (JsonlIndexer.remove Fixtures.index_AB (Resource.id Fixtures.A))
              Fixtures.A "beta gamma")
           "beta" "aaaaaaaaaaaa" = 1%nat.
Proof.
  etrans; [apply (X2_remove_then_index_replaces Fixtures.index_AB Fixtures.A "beta gamma" "beta"),
             MoreFixtures.index_AB_wf|].
  vm_compute. reflexivity.
Defined.

Lemma X4_witness :
  JsonlIndexer.search_local
    (JsonlIndexer.index_resource
       (JsonlIndexer.index_resource JsonlIndexer.empty Fixtures.A "beta") Fixtures.B "beta")
    "beta" 5
  = Ok [Resource.id Fixtures.A; Resource.id Fixtures.B].
Proof.
  etrans; [apply (X4_ties_keep_indexing_order Fixtures.A Fixtures.B "beta" "beta" "beta" "beta" 5)|].
  - discriminate.
  - reflexivity.
  - vm_compute. lia.
  - vm_compute. lia.
  - lia.
  - reflexivity.
Defined.

Lemma X8_witness :
  exists ids,
    JsonlIndexer.search_local Fixtures.index_AB "alpha beta" 1 = Ok ids
    /\ (length ids <= 1)%nat
    /\ NoDup ids.
Proof.
  destruct (X8_search_returns_listed_resources Fixtures.index_AB "alpha beta" 1
              MoreFixtures.index_AB_coherent) as (ids & Hs & Hlen & Hnd & _).
  exists ids. split; [exact Hs|]. split; [exact Hlen|exact Hnd].
Defined.

Lemma X11_witness :
  FilesystemStore.load_resource
    (FilesystemStore.save_resource Fixtures.library Fixtures.B "beta" None)
    (Resource.id Fixtures.B) = Ok (Some Fixtures.B)
  /\ FilesystemStore.load_content
       (FilesystemStore.save_resource Fixtures.library Fixtures.B "beta" None)
       (Resource.id Fixtures.B) = Some "beta".
Proof.
  destruct (X11_save_resource_then_load Fixtures.library Fixtures.B "beta" None
              (fixture_roundtrip (Some 2%nat) Fixtures.B)) as (_ & _ & Hc & Hl & _).
  split; [apply Hl; by left|apply Hc; reflexivity].
Defined.

Lemma X12_witness :
  StoreSnippets.load_snippets
    (StoreSnippets.save_snippets Fixtures.library (Resource.id Fixtures.B) (JArr []))
    (Resource.id Fixtures.B) = Ok (JArr [])
  /\ FilesystemStore.resource_exists
       (StoreSnippets.save_snippets Fixtures.library (Resource.id Fixtures.B) (JArr []))
       (Resource.id Fixtures.B) = false.
Proof.
  destruct (X12_snippets_roundtrip Fixtures.library (Resource.id Fixtures.B) (JArr []))
    as (Hl & _ & He & _); [vm_compute; reflexivity|].
  split; [exact Hl|]. etrans; [apply He|]. reflexivity.
Defined.

Lemma X13_witness :
  exists resp w',
    @IngestResource.execute Fixtures.json MoreFixtures.page_snapshotter Fixtures.clock
      Fixtures.os_path MoreFixtures.page_url Fixtures.world = (Ok resp, w')
    /\ Resource.title (IngestResource.resource resp) = "Field notes"
    /\ FilesystemStore.load_content (fs w') (Resource.id (IngestResource.resource resp))
       = Some MoreFixtures.page.
Proof.
  destruct (@X13_url_ingest_stores_and_indexes Fixtures.json MoreFixtures.page_snapshotter
              Fixtures.clock Fixtures.os_path Fixtures.world MoreFixtures.page_url
              MoreFixtures.page (Some "<html></html>"))
    as (resp & w' & He & _ & _ & Ht & _ & _ & _ & _ & _ & Hc & _).
  - reflexivity.
  - exact MoreFixtures.page_is_new.
  - reflexivity.
  - vm_compute. discriminate.
  - exists resp, w'. split; [exact He|]. split; [|exact Hc].
    etrans; [exact Ht|]. vm_compute. reflexivity.
Defined.

Lemma X14_witness :
  exists resp w',
    @IngestResource.execute Fixtures.json MoreFixtures.page_snapshotter Fixtures.clock
      Fixtures.os_path MoreFixtures.page_url Fixtures.world = (Ok resp, w')
    /\ @IngestResource.execute Fixtures.json MoreFixtures.page_snapshotter Fixtures.clock
         Fixtures.os_path MoreFixtures.page_url w'
       = (Ok (IngestResource.Response (IngestResource.resource resp) true), w').
Proof.
  destruct (@execute_url_new Fixtures.json MoreFixtures.page_snapshotter Fixtures.clock
              Fixtures.os_path Fixtures.world MoreFixtures.page_url MoreFixtures.page
              (Some "<html></html>") eq_refl MoreFixtures.page_is_new eq_refl)
    as (rid & url & _ & _ & He).
  { vm_compute. discriminate. }
  cbv zeta in He. eexists _, _. split; [exact He|].
  exact (proj1 (@X14_second_ingest_already_existed Fixtures.json MoreFixtures.page_snapshotter
                  Fixtures.clock Fixtures.os_path (fixture_roundtrip (Some 2%nat))
                  (or_introl eq_refl))
           Fixtures.world MoreFixtures.page_url _ _ eq_refl He).
Defined.

Lemma X16_witness :
  Title._extract_title
    ("---" +:+ TitleFacts.NL +:+ "title: 'Hello World'" +:+ TitleFacts.NL +:+ "---"
     +:+ TitleFacts.NL +:+ "# Another heading")
    "fallback" = "Hello World".
Proof.
  refine (proj1 (X16_frontmatter_title_wins _ "fallback" "---" [] "title: 'Hello World'"
                   ["---"; "# Another heading"] "Hello World" _ _ _ _ _)).
  - reflexivity.
  - reflexivity.
  - constructor.
  - discriminate.
  - vm_compute. reflexivity.
Defined.
